(** * Horde3D render-pipeline resource (egPipeline.cpp): shallow embedding

    The development follows [PipelineResource] and
    [ExternalPipelineCommandsManager] of
    [Horde3D/Source/Horde3DEngine/egPipeline.cpp].

    - C strings are [string]; a [const char *] that may be null is an
      [option string].
    - [int] and [uint32] are [Z] with the wrap-around written out.
    - [float] is IEEE binary32, as [spec_float] with precision 24 and
      maximal exponent 128.
    - The engine services reached through [Modules::...] form the class
      [Modules]; every method runs in the monad [Run], which threads the
      engine state and collects the calls made on the render device, on the
      log and on the registered callbacks. *)

From Stdlib Require Import ZArith List String Ascii Bool Lia.
From Stdlib Require Import Floats.SpecFloat.
From stdpp Require Import base list strings pretty.

Open Scope string_scope.
Open Scope list_scope.
Open Scope Z_scope.

(** ** Machine integers *)

Module Int.

Definition to_uint32 (x : Z) : Z := x mod 2 ^ 32.

Definition to_int32 (x : Z) : Z := (x + 2 ^ 31) mod 2 ^ 32 - 2 ^ 31.

Definition is_int32 (x : Z) : Prop := - 2 ^ 31 <= x < 2 ^ 31.

(** [(size_t)(int)x]: the index actually used by [v[x]] when [x] is an [int]. *)
Definition to_size_t (x : Z) : Z := x mod 2 ^ 64.

End Int.

(** ** C string functions *)

Module CStr.

Definition tolower (c : ascii) : ascii :=
  let n := nat_of_ascii c in
  if ((65 <=? n) && (n <=? 90))%nat then ascii_of_nat (n + 32) else c.

Definition code (c : ascii) : Z := Z.of_nat (nat_of_ascii c).

Fixpoint strcmp (a b : string) : Z :=
  match a, b with
  | EmptyString, EmptyString => 0
  | EmptyString, String _ _ => -1
  | String _ _, EmptyString => 1
  | String c a', String d b' =>
      if Ascii.eqb c d then strcmp a' b' else code c - code d
  end.

Fixpoint _stricmp (a b : string) : Z :=
  match a, b with
  | EmptyString, EmptyString => 0
  | EmptyString, String _ _ => -1
  | String _ _, EmptyString => 1
  | String c a', String d b' =>
      if Ascii.eqb (tolower c) (tolower d) then _stricmp a' b'
      else code (tolower c) - code (tolower d)
  end.

Fixpoint lower (s : string) : string :=
  match s with
  | EmptyString => EmptyString
  | String c s' => String (tolower c) (lower s')
  end.

Definition digit_of (c : ascii) : option Z :=
  let n := nat_of_ascii c in
  if ((48 <=? n) && (n <=? 57))%nat then Some (Z.of_nat n - 48) else None.

End CStr.

(** ** IEEE binary32 *)

Module F32.

Definition prec : Z := 24.
Definition emax : Z := 128.

Definition float : Type := spec_float.

Definition mul (x y : float) : float := SFmul prec emax x y.

(** Conversion of a [uint32] operand in [u * f]. *)
Definition of_uint32 (u : Z) : float := binary_normalize prec emax u 0 false.

Definition is_finite (x : float) : bool :=
  match x with
  | S754_zero _ | S754_finite _ _ _ => true
  | _ => false
  end.

Definition quarter : float := S754_finite false 1 (-2).

End F32.

(** ** utXML.h: the parsed description tree *)

#[warnings="-register-all"]
Inductive XMLNode : Type :=
  XNode (name : string) (attrs : list (string * string)) (children : list XMLNode).

Module XML.

Definition getName (n : XMLNode) : string :=
  match n with XNode name _ _ => name end.

Definition attributes (n : XMLNode) : list (string * string) :=
  match n with XNode _ attrs _ => attrs end.

Definition childNodes (n : XMLNode) : list XMLNode :=
  match n with XNode _ _ children => children end.

Fixpoint lookupAttr (name : string) (attrs : list (string * string)) : option string :=
  match attrs with
  | [] => None
  | (k, v) :: rest => if String.eqb k name then Some v else lookupAttr name rest
  end.

(** [node.getAttribute( name )]: null when the attribute is absent. *)
Definition getAttribute (n : XMLNode) (name : string) : option string :=
  lookupAttr name (attributes n).

(** [node.getAttribute( name, defValue )]. *)
Definition getAttributeDef (n : XMLNode) (name defValue : string) : string :=
  match getAttribute n name with
  | Some v => v
  | None => defValue
  end.

Definition hasName (name : string) (n : XMLNode) : bool :=
  String.eqb (getName n) name.

(** The nodes visited by [getFirstChild( name )] followed by
    [getNextSibling( name )] until the node is empty. *)
Definition childrenNamed (n : XMLNode) (name : string) : list XMLNode :=
  List.filter (hasName name) (childNodes n).

(** [node.getFirstChild( name )]; [None] is the empty node. *)
Definition getFirstChild (n : XMLNode) (name : string) : option XMLNode :=
  head (childrenNamed n name).

End XML.

(** ** Data model (egPipeline.h, rendered from its uses in egPipeline.cpp) *)

Inductive TextureFormat : Type := BGRA8 | RGBA16F | RGBA32F.

Module RenderingOrder.
Inductive List : Type := None | FrontToBack | BackToFront | StateChanges.
End RenderingOrder.

Module DefaultPipelineCommands.
Inductive List : Type :=
| SwitchTarget
| BindBuffer
| UnbindBuffers
| ClearTarget
| DrawGeometry
| DrawQuad
| DoForwardLightLoop
| DoDeferredLightLoop
| SetUniform
| ExternalCommand.
End DefaultPipelineCommands.

(** A [RenderTarget *] into [_renderTargets] is the index of the element;
    [None] is the null pointer. *)
Definition RenderTargetPtr : Type := option nat.

(** A [Resource *] obtained from [resolveResHandle]; 0 is the null pointer.
    [OrderParam] below is [setInt] of an enumerator of [RenderingOrder]. *)
Definition ResourcePtr : Type := Z.

Inductive PipeCmdParam : Type :=
| PtrParam (p : RenderTargetPtr)
| StringParam (s : string)
| IntParam (i : Z)
| OrderParam (o : RenderingOrder.List)
| BoolParam (b : bool)
| FloatParam (f : F32.float)
| ResourceParam (r : ResourcePtr).

Record PipelineCommand : Type := mkPipelineCommand {
  command : DefaultPipelineCommands.List;
  externalCommandID : Z;
  params : list PipeCmdParam
}.

(** Modelled from the spec: the constructor [PipelineCommand( kind )] of
    egPipeline.h, which is not part of the sources at hand.  The data model
    gives the registry index as -1 unless a registered parse has set it, and
    a new command has no parameters. *)
Definition newPipelineCommand (cmd : DefaultPipelineCommands.List) : PipelineCommand :=
  {| command := cmd; externalCommandID := -1; params := [] |}.

Record PipelineStage : Type := mkPipelineStage {
  stage_id : string;
  enabled : bool;
  matLink : ResourcePtr;
  commands : list PipelineCommand
}.

(** Modelled from the spec: the constructor [PipelineStage()] of
    egPipeline.h, which is not part of the sources at hand.  A new stage has
    no material link and no commands; [id] and [enabled] are assigned by
    [parseStage] before anything reads them. *)
Definition newPipelineStage : PipelineStage :=
  {| stage_id := ""; enabled := true; matLink := 0; commands := [] |}.

Record RenderTarget : Type := mkRenderTarget {
  rt_id : string;
  hasDepthBuf : bool;
  numColBufs : Z;
  format : TextureFormat;
  samples : Z;
  rt_width : Z;
  rt_height : Z;
  scale : F32.float;
  rendBuf : Z
}.

(** Modelled from the spec: the constructor of [RenderTarget] in
    egPipeline.h, which is not part of the sources at hand.  The device handle
    of a declared target is 0, unallocated, until it is realized. *)
Definition unrealized : Z := 0.

Definition set_rendBuf (rt : RenderTarget) (rb : Z) : RenderTarget :=
  {| rt_id := rt_id rt; hasDepthBuf := hasDepthBuf rt; numColBufs := numColBufs rt;
     format := format rt; samples := samples rt; rt_width := rt_width rt;
     rt_height := rt_height rt; scale := scale rt; rendBuf := rb |}.

(** What the description declares of a render target: everything but the
    device handle. *)
Definition declaration (rt : RenderTarget) : RenderTarget := set_rendBuf rt 0.

(** ** The engine services and the monad of a method call *)

(** What a method does to its collaborators: a render buffer asked of the
    device (with the handle answered, 0 for a refusal), a render buffer
    destroyed, an error written to the log, a callback of registry entry
    [entry] called. *)
Inductive Event : Type :=
| CreateRenderBuffer (width height : Z) (fmt : TextureFormat) (depth : bool)
    (numColBufs samples maxMipLevel : Z) (result : Z)
| DestroyRenderBuffer (rbObj : Z)
| WriteError (msg : string)
| CallParseFunc (entry : nat) (commandName : string)
| CallExecuteFunc (entry : nat).

(** The services behind [Modules::renderer().getRenderDevice()],
    [Modules::resMan()], [MaterialClassCollection] and [Modules::config()],
    over an engine state [W].

    [destroyRenderBuffer] is handed the variable that holds the handle
    ([rdi->destroyRenderBuffer( rt.rendBuf )]), and the header of the device, which
    says how it takes it, is not among the sources at hand:
    [rdi_destroyRenderBuffer rb w] answers the value the call leaves in that
    variable, which is [rb] itself for a device that takes the handle by
    value and whatever the device stores there for one that takes it by
    reference. *)
Class Modules (W : Type) : Type := {
  rdi_createRenderBuffer :
    Z -> Z -> TextureFormat -> bool -> Z -> Z -> Z -> W -> Z * W;
  rdi_destroyRenderBuffer : Z -> W -> Z * W;
  resMan_addMaterial : string -> W -> Z * W;
  resMan_resolveResHandle : Z -> W -> ResourcePtr;
  matClass_addClass : string -> W -> Z * W;
  config_sampleCount : W -> Z
}.

(** A method call from engine state [w] ends with a value, the engine state
    after it, and the events of the call in order. *)
Record Outcome (W A : Type) : Type := mkOutcome {
  value : A;
  after : W;
  events : list Event
}.
Arguments mkOutcome {W A} _ _ _.
Arguments value {W A} _.
Arguments after {W A} _.
Arguments events {W A} _.

Definition Run (W A : Type) : Type := W -> Outcome W A.

Definition ret {W A} (a : A) : Run W A := fun w => mkOutcome a w [].

Definition bind {W A B} (m : Run W A) (f : A -> Run W B) : Run W B :=
  fun w =>
    let o1 := m w in
    let o2 := f (value o1) (after o1) in
    mkOutcome (value o2) (after o2) (events o1 ++ events o2).

Declare Scope run_scope.
Delimit Scope run_scope with run.
Notation "'let*' x := m 'in' k" := (bind m (fun x => k))
  (at level 10, x pattern, m at level 100, k at level 200) : run_scope.
Notation "m ;;; k" := (bind m (fun _ => k))
  (at level 100, k at level 200, right associativity) : run_scope.
Open Scope run_scope.

(** A call into the engine that changes its state and answers. *)
Definition call {W A} (f : W -> A * W) : Run W A :=
  fun w => mkOutcome (fst (f w)) (snd (f w)) [].

(** A read of the engine state. *)
Definition ask {W A} (f : W -> A) : Run W A := fun w => mkOutcome (f w) w [].

Definition emit {W} (e : Event) : Run W unit := fun w => mkOutcome tt w [e].

(** The base class [Resource] (egResource.h), over its own state [B].
    [Resource_load] is [Resource::load( data, size )]: what it answers for
    the buffer at hand is part of the instance. *)
Class Resource (B W : Type) : Type := {
  Resource_name : B -> string;
  Resource_load : B -> W -> (bool * B) * W;
  Resource_getElemCount : B -> Z -> W -> Z * W;
  Resource_getElemParamI : B -> Z -> Z -> Z -> W -> Z * W;
  Resource_setElemParamI : B -> Z -> Z -> Z -> Z -> W -> B * W;
  Resource_getElemParamStr : B -> Z -> Z -> Z -> W -> string * W
}.

(** ** ExternalPipelineCommandsManager *)

Record PipelineCommandRegEntry (W : Type) : Type := mkRegEntry {
  comNameString : string;
  parseFunc : option (string -> XMLNode -> PipelineCommand -> W -> (string * PipelineCommand) * W);
  executeFunc : option (PipelineCommand -> W -> W)
}.
Arguments mkRegEntry {W} _ _ _.
Arguments comNameString {W} _.
Arguments parseFunc {W} _.
Arguments executeFunc {W} _.

Definition set_externalCommandID (cmd : PipelineCommand) (i : Z) : PipelineCommand :=
  {| command := command cmd; externalCommandID := i; params := params cmd |}.

Section Registry.
Context {W : Type}.

Definition ExternalPipelineCommandsManager : Type := list (PipelineCommandRegEntry W).

Definition registeredCommandsCount (pm : ExternalPipelineCommandsManager) : Z :=
  Z.of_nat (length pm).

(** [registerPipelineCommand]: the three ASSERTs fail on an empty name or a
    null callback ([None] is the failed assertion). *)
Definition registerPipelineCommand (pm : ExternalPipelineCommandsManager)
    (commandName : string)
    (pf : option (string -> XMLNode -> PipelineCommand -> W -> (string * PipelineCommand) * W))
    (ef : option (PipelineCommand -> W -> W)) : option ExternalPipelineCommandsManager :=
  if String.eqb commandName "" then None
  else match pf, ef with
       | Some _, Some _ => Some (pm ++ [mkRegEntry commandName pf ef])
       | _, _ => None
       end.

(** The loop of [parseCommand] from entry [i] on; the result is the message,
    the command and the flag [success] as the call leaves them. *)
Fixpoint parseCommand_loop (i : nat) (entries : list (PipelineCommandRegEntry W))
    (commandName : string) (xmlData : XMLNode) (cmd : PipelineCommand) (success : bool)
    : Run W (string * PipelineCommand * bool) :=
  match entries with
  | [] => ret ("", cmd, success)
  | entry :: rest =>
      match (if String.eqb (comNameString entry) commandName then parseFunc entry else None) with
      | Some pf =>
          emit (CallParseFunc i commandName) ;;;
          let* (msg, cmd') := call (pf commandName xmlData cmd) in
          if (String.length msg =? 0)%nat
          then ret (msg, set_externalCommandID cmd' (Int.to_int32 (Z.of_nat i)), success)
          else ret (msg, cmd', false)
      | None => parseCommand_loop (S i) rest commandName xmlData cmd success
      end
  end.

Definition parseCommand (pm : ExternalPipelineCommandsManager) (commandName : string)
    (xmlData : XMLNode) (cmd : PipelineCommand) (success : bool)
    : Run W (string * PipelineCommand * bool) :=
  parseCommand_loop 0 pm commandName xmlData cmd success.

(** [executeCommand]; [None] is an access outside [_registeredCommands] or a
    call through a null callback. *)
Definition executeCommand (pm : ExternalPipelineCommandsManager) (cmd : PipelineCommand)
    : Run W (option unit) :=
  if negb (externalCommandID cmd =? -1) then
    let i := Z.to_nat (Int.to_size_t (externalCommandID cmd)) in
    match pm !! i with
    | Some entry =>
        match executeFunc entry with
        | Some ef =>
            emit (CallExecuteFunc i) ;;;
            call (fun w => (tt, ef cmd w)) ;;;
            ret (Some tt)
        | None => ret None
        end
    | None => ret None
    end
  else ret (Some tt).

End Registry.
Arguments ExternalPipelineCommandsManager : clear implicits.

(** ** PipelineResource *)

Record PipelineResource (B : Type) : Type := mkPipelineResource {
  base : B;
  _baseWidth : Z;
  _baseHeight : Z;
  _renderTargets : list RenderTarget;
  _stages : list PipelineStage
}.
Arguments mkPipelineResource {B} _ _ _ _ _.
Arguments base {B} _.
Arguments _baseWidth {B} _.
Arguments _baseHeight {B} _.
Arguments _renderTargets {B} _.
Arguments _stages {B} _.

Section Setters.
Context {B : Type}.

Definition set_base (r : PipelineResource B) (b : B) : PipelineResource B :=
  mkPipelineResource b (_baseWidth r) (_baseHeight r) (_renderTargets r) (_stages r).

Definition set_baseSize (r : PipelineResource B) (w h : Z) : PipelineResource B :=
  mkPipelineResource (base r) w h (_renderTargets r) (_stages r).

Definition set_renderTargets (r : PipelineResource B) (rts : list RenderTarget)
    : PipelineResource B :=
  mkPipelineResource (base r) (_baseWidth r) (_baseHeight r) rts (_stages r).

Definition set_stages (r : PipelineResource B) (sts : list PipelineStage)
    : PipelineResource B :=
  mkPipelineResource (base r) (_baseWidth r) (_baseHeight r) (_renderTargets r) sts.

End Setters.

Definition set_stage_id (st : PipelineStage) (id : string) : PipelineStage :=
  mkPipelineStage id (enabled st) (matLink st) (commands st).

Definition set_enabled (st : PipelineStage) (b : bool) : PipelineStage :=
  mkPipelineStage (stage_id st) b (matLink st) (commands st).

Definition set_matLink (st : PipelineStage) (p : ResourcePtr) : PipelineStage :=
  mkPipelineStage (stage_id st) (enabled st) p (commands st).

Definition push_command (st : PipelineStage) (c : PipelineCommand) : PipelineStage :=
  mkPipelineStage (stage_id st) (enabled st) (matLink st) (commands st ++ [c]).

Definition withParams (cmd : DefaultPipelineCommands.List) (ps : list PipeCmdParam)
    : PipelineCommand :=
  {| command := cmd; externalCommandID := externalCommandID (newPipelineCommand cmd);
     params := ps |}.

(** The constructor [PipelineResource( name, flags )]. *)
Definition newPipelineResource {B : Type} (b : B) : PipelineResource B :=
  mkPipelineResource b 320 240 [] [].

Section Methods.
Context {W : Type} {MW : Modules W} {B : Type} {RB : Resource B W}.

(** The helpers of utMath.h, [atoi] of the C library and the enumerators of
    [PipelineResData] (egPipeline.h) are taken as given.  [atoi] answers an
    [int]; what it answers for a numeral beyond the range of [int] is left to
    the C library. *)
Variable toFloat : string -> F32.float.
Variable atoi : string -> Z.
Variable ftoi_r : F32.float -> Z.
Variables StageElem StageNameStr StageActivationI : Z.

Abbreviation PipelineResource := (PipelineResource B).

Definition initDefault (r : PipelineResource) : PipelineResource :=
  set_baseSize r 320 240.

Fixpoint releaseRenderTargets_loop (rts : list RenderTarget) : Run W (list RenderTarget) :=
  match rts with
  | [] => ret []
  | rt :: rest =>
      let* rt' :=
        if negb (rendBuf rt =? 0)
        then emit (DestroyRenderBuffer (rendBuf rt)) ;;;
             let* rb := call (rdi_destroyRenderBuffer (rendBuf rt)) in
             ret (set_rendBuf rt rb)
        else ret rt in
      let* rest' := releaseRenderTargets_loop rest in
      ret (rt' :: rest')
  end.

Definition releaseRenderTargets (r : PipelineResource) : Run W PipelineResource :=
  let* rts := releaseRenderTargets_loop (_renderTargets r) in
  ret (set_renderTargets r rts).

Definition release (r : PipelineResource) : Run W PipelineResource :=
  let* r := releaseRenderTargets r in
  ret (set_stages (set_renderTargets r []) []).

Definition errorText (name msg : string) (line : Z) : string :=
  if line <? 0
  then "Pipeline resource '" +:+ name +:+ "': " +:+ msg
  else "Pipeline resource '" +:+ name +:+ "' in line " +:+ pretty line +:+ ": " +:+ msg.

Definition raiseError (r : PipelineResource) (msg : string) (line : Z)
    : Run W (bool * PipelineResource) :=
  let* r1 := release r in
  let r2 := initDefault r1 in
  emit (WriteError (errorText (Resource_name (base r2)) msg line)) ;;;
  ret (false, r2).

(** The call sites of this file pass no line; the declaration supplies a
    negative default. *)
Definition noLine : Z := -1.

Fixpoint findRenderTarget_loop (i : nat) (rts : list RenderTarget) (id : string)
    : RenderTargetPtr :=
  match rts with
  | [] => None
  | rt :: rest =>
      if String.eqb (rt_id rt) id then Some i else findRenderTarget_loop (S i) rest id
  end.

Definition findRenderTarget (r : PipelineResource) (id : string) : RenderTargetPtr :=
  if String.eqb id "" then None else findRenderTarget_loop 0 (_renderTargets r) id.

Definition addRenderTarget (r : PipelineResource) (id : string) (depthBuf : bool)
    (numColBufs : Z) (format : TextureFormat) (samples width height : Z)
    (scale : F32.float) : PipelineResource :=
  set_renderTargets r
    (_renderTargets r ++
     [mkRenderTarget id depthBuf numColBufs format samples width height scale unrealized]).

(** *** parseStage *)

(** The test applied to [depthBuf] and [colBuf0] .. [colBuf3] of ClearTarget. *)
Definition trueLike (node : XMLNode) (attr : string) : bool :=
  (CStr._stricmp (XML.getAttributeDef node attr "false") "true" =? 0) ||
  (CStr._stricmp (XML.getAttributeDef node attr "0") "1" =? 0).

Definition parseOrder (orderStr : string) : RenderingOrder.List :=
  if CStr._stricmp orderStr "FRONT_TO_BACK" =? 0 then RenderingOrder.FrontToBack
  else if CStr._stricmp orderStr "BACK_TO_FRONT" =? 0 then RenderingOrder.BackToFront
  else if CStr._stricmp orderStr "NONE" =? 0 then RenderingOrder.None
  else RenderingOrder.StateChanges.

(** [Modules::resMan().addResource( ResourceTypes::Material, name, 0, false )]
    followed by [resolveResHandle]. *)
Definition addMaterial (name : string) : Run W ResourcePtr :=
  let* h := call (resMan_addMaterial name) in
  ask (resMan_resolveResHandle h).

(** One turn of the command loop on [node1]: [inl msg] is [return msg],
    [inr stage'] goes on to the next sibling. *)
Definition parseCommandNode (pm : ExternalPipelineCommandsManager W)
    (r : PipelineResource) (node1 : XMLNode) (stage : PipelineStage)
    : Run W (string + PipelineStage) :=
  let name := XML.getName node1 in
  if CStr.strcmp name "SwitchTarget" =? 0 then
    match XML.getAttribute node1 "target" with
    | None => ret (inl "Missing SwitchTarget attribute 'target'")
    | Some target =>
        if negb (CStr.strcmp target "" =? 0) then
          match findRenderTarget r target with
          | None => ret (inl "Reference to undefined render target in SwitchTarget")
          | Some i =>
              ret (inr (push_command stage
                          (withParams DefaultPipelineCommands.SwitchTarget [PtrParam (Some i)])))
          end
        else
          ret (inr (push_command stage
                      (withParams DefaultPipelineCommands.SwitchTarget [PtrParam None])))
    end
  else if CStr.strcmp name "BindBuffer" =? 0 then
    match XML.getAttribute node1 "sampler", XML.getAttribute node1 "sourceRT",
          XML.getAttribute node1 "bufIndex" with
    | Some sampler, Some sourceRT, Some bufIndex =>
        match findRenderTarget r sourceRT with
        | None => ret (inl "Reference to undefined render target in BindBuffer")
        | Some i =>
            ret (inr (push_command stage
                        (withParams DefaultPipelineCommands.BindBuffer
                           [PtrParam (Some i); StringParam sampler;
                            IntParam (atoi bufIndex)])))
        end
    | _, _, _ => ret (inl "Missing BindBuffer attribute")
    end
  else if CStr.strcmp name "UnbindBuffers" =? 0 then
    ret (inr (push_command stage (newPipelineCommand DefaultPipelineCommands.UnbindBuffers)))
  else if CStr.strcmp name "ClearTarget" =? 0 then
    ret (inr (push_command stage
                (withParams DefaultPipelineCommands.ClearTarget
                   [BoolParam (trueLike node1 "depthBuf");
                    BoolParam (trueLike node1 "colBuf0");
                    BoolParam (trueLike node1 "colBuf1");
                    BoolParam (trueLike node1 "colBuf2");
                    BoolParam (trueLike node1 "colBuf3");
                    FloatParam (toFloat (XML.getAttributeDef node1 "col_R" "0"));
                    FloatParam (toFloat (XML.getAttributeDef node1 "col_G" "0"));
                    FloatParam (toFloat (XML.getAttributeDef node1 "col_B" "0"));
                    FloatParam (toFloat (XML.getAttributeDef node1 "col_A" "0"))])))
  else if CStr.strcmp name "DrawGeometry" =? 0 then
    match XML.getAttribute node1 "context" with
    | None => ret (inl "Missing DrawGeometry attribute 'context'")
    | Some context =>
        let order := parseOrder (XML.getAttributeDef node1 "order" "") in
        let* cls := call (matClass_addClass (XML.getAttributeDef node1 "class" "")) in
        ret (inr (push_command stage
                    (withParams DefaultPipelineCommands.DrawGeometry
                       [StringParam context; IntParam cls; OrderParam order])))
    end
  else if CStr.strcmp name "DrawQuad" =? 0 then
    match XML.getAttribute node1 "material", XML.getAttribute node1 "context" with
    | None, _ => ret (inl "Missing DrawQuad attribute 'material'")
    | Some _, None => ret (inl "Missing DrawQuad attribute 'context'")
    | Some material, Some context =>
        let* matRes := addMaterial material in
        ret (inr (push_command stage
                    (withParams DefaultPipelineCommands.DrawQuad
                       [ResourceParam matRes; StringParam context])))
    end
  else if CStr.strcmp name "DoForwardLightLoop" =? 0 then
    let order := parseOrder (XML.getAttributeDef node1 "order" "") in
    let* cls := call (matClass_addClass (XML.getAttributeDef node1 "class" "")) in
    ret (inr (push_command stage
                (withParams DefaultPipelineCommands.DoForwardLightLoop
                   [StringParam (XML.getAttributeDef node1 "context" "");
                    IntParam cls;
                    BoolParam (CStr._stricmp (XML.getAttributeDef node1 "noShadows" "false")
                                 "true" =? 0);
                    OrderParam order])))
  else if CStr.strcmp name "DoDeferredLightLoop" =? 0 then
    ret (inr (push_command stage
                (withParams DefaultPipelineCommands.DoDeferredLightLoop
                   [StringParam (XML.getAttributeDef node1 "context" "");
                    BoolParam (CStr._stricmp (XML.getAttributeDef node1 "noShadows" "false")
                                 "true" =? 0)])))
  else if CStr.strcmp name "SetUniform" =? 0 then
    match XML.getAttribute node1 "material", XML.getAttribute node1 "uniform" with
    | None, _ => ret (inl "Missing SetUniform attribute 'material'")
    | Some _, None => ret (inl "Missing SetUniform attribute 'uniform'")
    | Some material, Some uniform =>
        let* matRes := addMaterial material in
        ret (inr (push_command stage
                    (withParams DefaultPipelineCommands.SetUniform
                       [ResourceParam matRes; StringParam uniform;
                        FloatParam (toFloat (XML.getAttributeDef node1 "a" "0"));
                        FloatParam (toFloat (XML.getAttributeDef node1 "b" "0"));
                        FloatParam (toFloat (XML.getAttributeDef node1 "c" "0"));
                        FloatParam (toFloat (XML.getAttributeDef node1 "d" "0"))])))
    end
  else if registeredCommandsCount pm >? 0 then
    let* (res, result) :=
      parseCommand pm name node1
        (newPipelineCommand DefaultPipelineCommands.ExternalCommand) true in
    let (msg, cmd) := res in
    if result then ret (inr (push_command stage cmd)) else ret (inl msg)
  else ret (inr stage).

Fixpoint parseCommands (pm : ExternalPipelineCommandsManager W) (r : PipelineResource)
    (nodes : list XMLNode) (stage : PipelineStage) : Run W (string * PipelineStage) :=
  match nodes with
  | [] => ret ("", stage)
  | node1 :: rest =>
      let* step := parseCommandNode pm r node1 stage in
      match step with
      | inl msg => ret (msg, stage)
      | inr stage' => parseCommands pm r rest stage'
      end
  end.

(** [parseStage( node, stage )]: the message returned and [stage] as the call
    leaves it. *)
Definition parseStage (pm : ExternalPipelineCommandsManager W) (r : PipelineResource)
    (node : XMLNode) (stage : PipelineStage) : Run W (string * PipelineStage) :=
  let stage := set_stage_id stage (XML.getAttributeDef node "id" "") in
  let stage :=
    if (CStr._stricmp (XML.getAttributeDef node "enabled" "true") "false" =? 0) ||
       (CStr._stricmp (XML.getAttributeDef node "enabled" "1") "0" =? 0)
    then set_enabled stage false
    else set_enabled stage true in
  let* stage :=
    (if negb (CStr.strcmp (XML.getAttributeDef node "link" "") "" =? 0)
     then let* p := addMaterial (XML.getAttributeDef node "link" "") in
          ret (set_matLink stage p)
     else ret stage) in
  parseCommands pm r (XML.childNodes node) stage.

(** *** createRenderTargets, load, resize *)

(** The size asked of the device for a target declared with extent [declared]
    when the base extent is [baseExtent]. *)
Definition realizedExtent (baseExtent declared : Z) (scale : F32.float) : Z :=
  let extent := Int.to_uint32 (ftoi_r (F32.mul (F32.of_uint32 declared) scale)) in
  if extent =? 0
  then Int.to_uint32 (ftoi_r (F32.mul (F32.of_uint32 baseExtent) scale))
  else extent.

Fixpoint createRenderTargets_loop (baseWidth baseHeight : Z) (rts : list RenderTarget)
    : Run W (bool * list RenderTarget) :=
  match rts with
  | [] => ret (true, [])
  | rt :: rest =>
      let width := realizedExtent baseWidth (rt_width rt) (scale rt) in
      let height := realizedExtent baseHeight (rt_height rt) (scale rt) in
      let* rb :=
        call (rdi_createRenderBuffer width height (format rt) (hasDepthBuf rt)
                (numColBufs rt) (samples rt) 0) in
      emit (CreateRenderBuffer width height (format rt) (hasDepthBuf rt)
              (numColBufs rt) (samples rt) 0 rb) ;;;
      if rb =? 0 then ret (false, set_rendBuf rt rb :: rest)
      else
        let* (ok, rest') := createRenderTargets_loop baseWidth baseHeight rest in
        ret (ok, set_rendBuf rt rb :: rest')
  end.

Definition createRenderTargets (r : PipelineResource) : Run W (bool * PipelineResource) :=
  let* (ok, rts) :=
    createRenderTargets_loop (_baseWidth r) (_baseHeight r) (_renderTargets r) in
  ret (ok, set_renderTargets r rts).

(** One [RenderTarget] node of the Setup section: [Some msg] is
    [return raiseError( msg )]. *)
Definition parseRenderTarget (r : PipelineResource) (node2 : XMLNode)
    : Run W (option string * PipelineResource) :=
  match XML.getAttribute node2 "id" with
  | None => ret (Some "Missing RenderTarget attribute 'id'", r)
  | Some id =>
  match XML.getAttribute node2 "depthBuf" with
  | None => ret (Some "Missing RenderTarget attribute 'depthBuf'", r)
  | Some depthBuf =>
  let depth := CStr._stricmp depthBuf "true" =? 0 in
  match XML.getAttribute node2 "numColBufs" with
  | None => ret (Some "Missing RenderTarget attribute 'numColBufs'", r)
  | Some numColBufs =>
  let numBuffers := Int.to_uint32 (atoi numColBufs) in
  let format :=
    match XML.getAttribute node2 "format" with
    | None => Some BGRA8
    | Some f =>
        if CStr._stricmp f "RGBA8" =? 0 then Some BGRA8
        else if CStr._stricmp f "RGBA16F" =? 0 then Some RGBA16F
        else if CStr._stricmp f "RGBA32F" =? 0 then Some RGBA32F
        else None
    end in
  match format with
  | None => ret (Some "Unknown RenderTarget format", r)
  | Some format =>
      let maxSamples := atoi (XML.getAttributeDef node2 "maxSamples" "0") in
      let width := Int.to_uint32 (atoi (XML.getAttributeDef node2 "width" "0")) in
      let height := Int.to_uint32 (atoi (XML.getAttributeDef node2 "height" "0")) in
      let scale := toFloat (XML.getAttributeDef node2 "scale" "1") in
      let* sampleCount := ask config_sampleCount in
      ret (None,
           addRenderTarget r id depth numBuffers format
             (Int.to_uint32 (Z.min maxSamples sampleCount)) width height scale)
  end end end end.

Fixpoint parseSetup (nodes : list XMLNode) (r : PipelineResource)
    : Run W (option string * PipelineResource) :=
  match nodes with
  | [] => ret (None, r)
  | node2 :: rest =>
      let* (err, r') := parseRenderTarget r node2 in
      match err with
      | Some msg => ret (Some msg, r')
      | None => parseSetup rest r'
      end
  end.

(** The loop over the [Stage] nodes of the CommandQueue section. *)
Fixpoint parseStages (pm : ExternalPipelineCommandsManager W) (nodes : list XMLNode)
    (r : PipelineResource) : Run W (option string * PipelineResource) :=
  match nodes with
  | [] => ret (None, r)
  | node2 :: rest =>
      let* (errorMsg, stage) := parseStage pm r node2 newPipelineStage in
      let r' := set_stages r (_stages r ++ [stage]) in
      if negb (String.eqb errorMsg "")
      then ret (Some ("Error in stage '" +:+ stage_id stage +:+ "': " +:+ errorMsg), r')
      else parseStages pm rest r'
  end.

(** The Setup section of [load]: the first child named Setup, if any. *)
Definition parseSetupSection (rootNode : XMLNode) (r : PipelineResource)
    : Run W (option string * PipelineResource) :=
  match XML.getFirstChild rootNode "Setup" with
  | Some node1 => parseSetup (XML.childrenNamed node1 "RenderTarget") r
  | None => ret (None, r)
  end.

(** The Stage nodes that [load] compiles: those of the first child named
    CommandQueue. *)
Definition stageNodes (rootNode : XMLNode) : list XMLNode :=
  match XML.getFirstChild rootNode "CommandQueue" with
  | Some node1 => XML.childrenNamed node1 "Stage"
  | None => []
  end.

(** [load( data, size )] on the document [doc] that [XMLDoc::parseBuffer]
    reads from the buffer; [None] is [doc.hasError()]. *)
Definition load (pm : ExternalPipelineCommandsManager W) (r : PipelineResource)
    (doc : option XMLNode) : Run W (bool * PipelineResource) :=
  let* (ok, b) := call (Resource_load (base r)) in
  let r := set_base r b in
  if negb ok then ret (false, r)
  else
    match doc with
    | None => raiseError r "XML parsing error" noLine
    | Some rootNode =>
        if negb (CStr.strcmp (XML.getName rootNode) "Pipeline" =? 0)
        then raiseError r "Not a pipeline resource file" noLine
        else
          let* (err, r) := parseSetupSection rootNode r in
          match err with
          | Some msg => raiseError r msg noLine
          | None =>
              let* (err, r) := parseStages pm (stageNodes rootNode) r in
              match err with
              | Some msg => raiseError r msg noLine
              | None =>
                  let* (created, r) := createRenderTargets r in
                  if negb created
                  then raiseError r "Failed to create render target" noLine
                  else ret (true, r)
              end
          end
    end.

Definition resize (r : PipelineResource) (width height : Z) : Run W PipelineResource :=
  let r := set_baseSize r width height in
  let* r := releaseRenderTargets r in
  let* (_, r) := createRenderTargets r in
  ret r.

(** *** Element introspection *)

(** [(unsigned)elemIdx < _stages.size()]. *)
Definition inStages (r : PipelineResource) (elemIdx : Z) : bool :=
  Int.to_uint32 elemIdx <? Z.of_nat (length (_stages r)).

(** The element [_stages[elemIdx]]; [None] is an access outside the vector. *)
Definition stageAt (r : PipelineResource) (elemIdx : Z) : option PipelineStage :=
  _stages r !! Z.to_nat (Int.to_size_t elemIdx).

Definition getElemCount (r : PipelineResource) (elem : Z) : Run W Z :=
  if elem =? StageElem then ret (Int.to_int32 (Z.of_nat (length (_stages r))))
  else call (Resource_getElemCount (base r) elem).

Definition getElemParamI (r : PipelineResource) (elem elemIdx param : Z)
    : Run W (option Z) :=
  let inherited :=
    let* v := call (Resource_getElemParamI (base r) elem elemIdx param) in
    ret (Some v) in
  if elem =? StageElem then
    if inStages r elemIdx then
      if param =? StageActivationI then
        ret (match stageAt r elemIdx with
             | Some st => Some (if enabled st then 1 else 0)
             | None => None
             end)
      else inherited
    else inherited
  else inherited.

Definition setElemParamI (r : PipelineResource) (elem elemIdx param value : Z)
    : Run W (option PipelineResource) :=
  let inherited :=
    let* b := call (Resource_setElemParamI (base r) elem elemIdx param value) in
    ret (Some (set_base r b)) in
  if elem =? StageElem then
    if inStages r elemIdx then
      if param =? StageActivationI then
        ret (match stageAt r elemIdx with
             | Some st =>
                 Some (set_stages r
                         (<[Z.to_nat (Int.to_size_t elemIdx) :=
                              set_enabled st (if value =? 0 then false else true)]>
                            (_stages r)))
             | None => None
             end)
      else inherited
    else inherited
  else inherited.

Definition getElemParamStr (r : PipelineResource) (elem elemIdx param : Z)
    : Run W (option string) :=
  let inherited :=
    let* v := call (Resource_getElemParamStr (base r) elem elemIdx param) in
    ret (Some v) in
  if elem =? StageElem then
    if inStages r elemIdx then
      if param =? StageNameStr then
        ret (match stageAt r elemIdx with
             | Some st => Some (stage_id st)
             | None => None
             end)
      else inherited
    else inherited
  else inherited.

End Methods.

Arguments initDefault {B} r.
Arguments findRenderTarget {B} r id.
Arguments addRenderTarget {B} r id depthBuf numColBufs format samples width height scale.

(** ** A sample engine, used to run the methods on concrete descriptions *)

Module Sample.

(** A render device that hands out the handles 1, 2, 3, ... and refuses an
    empty buffer or one beyond its capacity. *)
Record World : Type := mkWorld {
  nextHandle : Z;
  capacity : Z;
  live : list Z;
  materials : list string;
  classes : list string;
  sampleCount : Z
}.

Definition createRenderBuffer (width height : Z) (fmt : TextureFormat) (depth : bool)
    (numColBufs samples maxMipLevel : Z) (w : World) : Z * World :=
  if (width =? 0) || (height =? 0) || (capacity w <=? Z.of_nat (length (live w)))
  then (0, w)
  else (nextHandle w,
        mkWorld (nextHandle w + 1) (capacity w) (nextHandle w :: live w)
          (materials w) (classes w) (sampleCount w)).

(** The device forgets the buffer and clears the handle it was handed. *)
Definition destroyRenderBuffer (rb : Z) (w : World) : Z * World :=
  (0, mkWorld (nextHandle w) (capacity w) (List.filter (fun h => negb (h =? rb)) (live w))
        (materials w) (classes w) (sampleCount w)).

Fixpoint indexOf (i : Z) (name : string) (l : list string) : option Z :=
  match l with
  | [] => None
  | x :: rest => if String.eqb x name then Some i else indexOf (i + 1) name rest
  end.

Definition addMaterial (name : string) (w : World) : Z * World :=
  match indexOf 1 name (materials w) with
  | Some h => (h, w)
  | None =>
      (Z.of_nat (length (materials w)) + 1,
       mkWorld (nextHandle w) (capacity w) (live w) (materials w ++ [name])
         (classes w) (sampleCount w))
  end.

Definition addClass (name : string) (w : World) : Z * World :=
  match indexOf 0 name (classes w) with
  | Some i => (i, w)
  | None =>
      (Z.of_nat (length (classes w)),
       mkWorld (nextHandle w) (capacity w) (live w) (materials w)
         (classes w ++ [name]) (sampleCount w))
  end.

#[global] Instance modules : Modules World := {
  rdi_createRenderBuffer := createRenderBuffer;
  rdi_destroyRenderBuffer := destroyRenderBuffer;
  resMan_addMaterial := addMaterial;
  resMan_resolveResHandle := fun h _ => h;
  matClass_addClass := addClass;
  config_sampleCount := sampleCount
}.

(** A base resource that loads once and rejects every element query. *)
Record Base : Type := mkBase { name : string; loaded : bool }.

#[global] Instance resource : Resource Base World := {
  Resource_name := name;
  Resource_load := fun b w =>
    if loaded b then ((false, b), w) else ((true, mkBase (name b) true), w);
  Resource_getElemCount := fun _ _ w => (0, w);
  Resource_getElemParamI := fun _ _ _ _ w => (- 2 ^ 31, w);
  Resource_setElemParamI := fun b _ _ _ _ w => (b, w);
  Resource_getElemParamStr := fun _ _ _ _ w => ("", w)
}.

Definition world (capacity : Z) : World := mkWorld 1 capacity [] [] [] 0.

Definition fresh : PipelineResource Base :=
  newPipelineResource (mkBase "pipe" false).

(** Modelled from the spec: [ftoi_r] of utMath.h, which is not part of the
    sources at hand.  A size is the product rounded to nearest integer; a tie
    goes to the even neighbour, and a value that is not finite gives 0. *)
Definition ftoi_r (x : F32.float) : Z :=
  match x with
  | S754_finite s m e =>
      let mag :=
        if 0 <=? e then Z.pos m * 2 ^ e
        else
          let d := 2 ^ (- e) in
          let q := Z.pos m / d in
          let rem := Z.pos m mod d in
          if 2 * rem <? d then q
          else if d <? 2 * rem then q + 1
          else if Z.even q then q else q + 1 in
      Int.to_int32 (if s then - mag else mag)
  | _ => 0
  end.

(** A decimal reader standing for [atoi]: white space, an optional sign and
    digits.  It is run on numerals within the range of [int] only. *)
Definition isspace (c : ascii) : bool :=
  let n := nat_of_ascii c in ((n =? 32) || ((9 <=? n) && (n <=? 13)))%nat.

Fixpoint skip_space (s : string) : string :=
  match s with
  | String c s' => if isspace c then skip_space s' else s
  | EmptyString => s
  end.

Fixpoint digits (acc : Z) (s : string) : Z :=
  match s with
  | String c s' =>
      match CStr.digit_of c with
      | Some d => digits (10 * acc + d) s'
      | None => acc
      end
  | EmptyString => acc
  end.

Definition atoi (s : string) : Z :=
  match skip_space s with
  | String "-" s' => - digits 0 s'
  | String "+" s' => digits 0 s'
  | s' => digits 0 s'
  end.

(** A decimal reader standing for [toFloat]: an optional sign, digits, and an
    optional fraction. *)
Fixpoint fraction (num den : Z) (s : string) : Z * Z :=
  match s with
  | String c s' =>
      match CStr.digit_of c with
      | Some d => fraction (10 * num + d) (10 * den) s'
      | None => (num, den)
      end
  | EmptyString => (num, den)
  end.

Fixpoint decimal (num : Z) (s : string) : Z * Z :=
  match s with
  | String c s' =>
      match CStr.digit_of c with
      | Some d => decimal (10 * num + d) s'
      | None => if Ascii.eqb c "." then fraction num 1 s' else (num, 1)
      end
  | EmptyString => (num, 1)
  end.

Definition toFloat (s : string) : F32.float :=
  let (neg, body) :=
    match s with
    | String "-" s' => (true, s')
    | _ => (false, s)
    end in
  let (num, den) := decimal 0 body in
  let q := SFdiv F32.prec F32.emax (F32.of_uint32 num) (F32.of_uint32 den) in
  if neg then SFopp q else q.

(** Values for the enumerators of [PipelineResData]. *)
Definition StageElem : Z := 900.
Definition StageNameStr : Z := 901.
Definition StageActivationI : Z := 902.

End Sample.

(** ** Vocabulary of the properties *)

(** Equality up to the case of the letters A to Z. *)
Definition equalsIgnoreCase (a b : string) : Prop := CStr.lower a = CStr.lower b.

(** Events by kind. *)
Definition isCreate (e : Event) : bool :=
  match e with CreateRenderBuffer _ _ _ _ _ _ _ _ => true | _ => false end.

Definition isWriteError (e : Event) : bool :=
  match e with WriteError _ => true | _ => false end.

Definition isFailedCreate (e : Event) : bool :=
  match e with CreateRenderBuffer _ _ _ _ _ _ _ rb => rb =? 0 | _ => false end.

(** The extents asked of the device, in call order. *)
Fixpoint requests (evs : list Event) : list (Z * Z) :=
  match evs with
  | [] => []
  | CreateRenderBuffer width height _ _ _ _ _ _ :: rest => (width, height) :: requests rest
  | _ :: rest => requests rest
  end.

(** The extents [createRenderTargets] computes for a target. *)
Definition extents (ftoi_r : F32.float -> Z) (baseWidth baseHeight : Z) (rt : RenderTarget)
    : Z * Z :=
  (realizedExtent ftoi_r baseWidth (rt_width rt) (scale rt),
   realizedExtent ftoi_r baseHeight (rt_height rt) (scale rt)).

(** [round( extent * scale )] as the code computes it. *)
Definition rounded (ftoi_r : F32.float -> Z) (extent : Z) (scale : F32.float) : Z :=
  Int.to_uint32 (ftoi_r (F32.mul (F32.of_uint32 extent) scale)).

(** The names of the built-in command kinds. *)
Definition isBuiltin (name : string) : bool :=
  existsb (String.eqb name)
    ["SwitchTarget"; "BindBuffer"; "UnbindBuffers"; "ClearTarget"; "DrawGeometry";
     "DrawQuad"; "DoForwardLightLoop"; "DoDeferredLightLoop"; "SetUniform"].

(** A log of calls without device allocation and without error message. *)
Definition quiet (evs : list Event) : bool :=
  forallb (fun e => negb (isCreate e || isWriteError e)) evs.

(** The value of the [enabled] attribute of a Stage node, as the description
    format reads it. *)
Definition enabledAttr (node : XMLNode) : bool :=
  match XML.getAttribute node "enabled" with
  | Some v => negb (String.eqb (CStr.lower v) "false" || String.eqb (CStr.lower v) "0")
  | None => true
  end.

(** [c] carries the index that [parseCommand] wrote after the parse callback
    of that registry entry accepted the node. *)
Definition setByParse {W : Type} (pm : ExternalPipelineCommandsManager W)
    (c : PipelineCommand) : Prop :=
  exists (i : nat) (entry : PipelineCommandRegEntry W) pf node c0 c' w w',
    pm !! i = Some entry /\ parseFunc entry = Some pf /\
    pf (comNameString entry) node c0 w = (("", c'), w') /\
    c = set_externalCommandID c' (Int.to_int32 (Z.of_nat i)).

Definition commandOk {W : Type} (pm : ExternalPipelineCommandsManager W)
    (c : PipelineCommand) : Prop :=
  externalCommandID c = -1 \/ setByParse pm c.

(** No registry entry answers to [name]. *)
Definition unregistered {W : Type} (entries : list (PipelineCommandRegEntry W))
    (name : string) : Prop :=
  Forall (fun entry => comNameString entry <> name \/ parseFunc entry = None) entries.

(** A BindBuffer node that lacks one of its three attributes. *)
Definition incompleteBindBuffer (node1 : XMLNode) : Prop :=
  XML.getName node1 = "BindBuffer" /\
  (XML.getAttribute node1 "sampler" = None \/
   XML.getAttribute node1 "sourceRT" = None \/
   XML.getAttribute node1 "bufIndex" = None).

(** The empty default state of a resource. *)
Definition isDefault {B : Type} (r : PipelineResource B) : Prop :=
  _baseWidth r = 320 /\ _baseHeight r = 240 /\ _stages r = [] /\ _renderTargets r = [].

(** What compilation of further command nodes leaves of a stage: its header,
    and its commands followed by well-formed new ones. *)
Definition extends {W : Type} (pm : ExternalPipelineCommandsManager W)
    (st st' : PipelineStage) : Prop :=
  stage_id st' = stage_id st /\ enabled st' = enabled st /\ matLink st' = matLink st /\
  exists cs, commands st' = commands st ++ cs /\ Forall (commandOk pm) cs.

(** The members that only [load] and [resize] assign. *)
Definition sameFrame {B : Type} (r r' : PipelineResource B) : Prop :=
  base r' = base r /\ _baseWidth r' = _baseWidth r /\ _baseHeight r' = _baseHeight r.

(** Some compiled Stage node of the description holds an incomplete
    BindBuffer node. *)
Definition hasIncompleteBindBuffer (rootNode : XMLNode) : Prop :=
  Exists (fun node => Exists incompleteBindBuffer (XML.childNodes node))
    (stageNodes rootNode).

(** The stages that a successful [load] appends for the description. *)
Definition compiledFrom {W : Type} (pm : ExternalPipelineCommandsManager W)
    (rootNode : XMLNode) (sts : list PipelineStage) : Prop :=
  map enabled sts = map enabledAttr (stageNodes rootNode) /\
  Forall (fun st => Forall (commandOk pm) (commands st)) sts.

(** ** Sample descriptions *)

Module Scenario.

(** A registry with a command that accepts every node and one that rejects
    every node. *)
Definition registry : ExternalPipelineCommandsManager Sample.World :=
  [mkRegEntry "Sky" (Some (fun _ _ c w => (("", c), w))) (Some (fun _ w => w));
   mkRegEntry "Broken" (Some (fun _ _ c w => (("Broken is not supported", c), w)))
     (Some (fun _ w => w))].

Definition setup : XMLNode :=
  XNode "Setup" []
    [XNode "RenderTarget"
       [("id", "GBUF"); ("depthBuf", "true"); ("numColBufs", "2"); ("scale", "0.5")] [];
     XNode "RenderTarget"
       [("id", "BLUR"); ("depthBuf", "false"); ("numColBufs", "1"); ("format", "RGBA16F");
        ("width", "256"); ("height", "64"); ("scale", "0.25")] []].

Definition pipeline (stages : list XMLNode) : XMLNode :=
  XNode "Pipeline" [] [setup; XNode "CommandQueue" [] stages].

Definition geometryStage : XMLNode :=
  XNode "Stage" [("id", "Geometry"); ("enabled", "FALSE")]
    [XNode "SwitchTarget" [("target", "GBUF")] [];
     XNode "ClearTarget" [("depthBuf", "true"); ("colBuf0", "1")] [];
     XNode "DrawGeometry" [("context", "ATTRIBPASS"); ("order", "front_to_back")] []].

Definition combineStage : XMLNode :=
  XNode "Stage" [("id", "Combine")]
    [XNode "SwitchTarget" [("target", "")] [];
     XNode "BindBuffer" [("sampler", "buf0"); ("sourceRT", "BLUR"); ("bufIndex", "0")] [];
     XNode "Sky" [] [];
     XNode "DrawQuad" [("material", "combine.material.xml"); ("context", "COPY")] []].

Definition deferred : XMLNode := pipeline [geometryStage; combineStage].

(** A stage with a node that is neither built in nor registered. *)
Definition unknownCommand : XMLNode :=
  pipeline
    [XNode "Stage" [("id", "Fogged")]
       [XNode "Fog" [("density", "0.3")] [];
        XNode "UnbindBuffers" [] []]].

(** A SwitchTarget node without attributes. *)
Definition bareSwitchTarget : XMLNode :=
  pipeline [XNode "Stage" [("id", "Back")] [XNode "SwitchTarget" [] []]].

(** A BindBuffer node without [bufIndex]. *)
Definition shortBindBuffer : XMLNode :=
  pipeline
    [XNode "Stage" [("id", "Combine")]
       [XNode "SwitchTarget" [("target", "")] [];
        XNode "BindBuffer" [("sampler", "buf0"); ("sourceRT", "BLUR")] []]].

Definition danglingTarget : XMLNode :=
  pipeline [XNode "Stage" [("id", "Lost")] [XNode "SwitchTarget" [("target", "HDR")] []]].

Definition rejected : XMLNode :=
  pipeline [XNode "Stage" [("id", "Ext")] [XNode "Broken" [] []]].

Definition unknownFormat : XMLNode :=
  XNode "Pipeline" []
    [XNode "Setup" []
       [XNode "RenderTarget"
          [("id", "X"); ("depthBuf", "true"); ("numColBufs", "1"); ("format", "RGB10")] []]].

Definition notAPipeline : XMLNode := XNode "Material" [] [].

(** A target one pixel wide at a quarter of its size. *)
Definition sliver : RenderTarget :=
  mkRenderTarget "SLIVER" false 1 BGRA8 0 1 64 F32.quarter 0.

Definition withSliver : PipelineResource Sample.Base :=
  set_renderTargets Sample.fresh [sliver].

(** A target of derived size, at half the base resolution. *)
Definition halfSize : RenderTarget :=
  mkRenderTarget "HALF" true 2 RGBA16F 0 0 0 (Sample.toFloat "0.5") 0.

Definition withBoth : PipelineResource Sample.Base :=
  set_renderTargets Sample.fresh [sliver; halfSize].

Definition load (doc : option XMLNode) (capacity : Z) :=
  load Sample.toFloat Sample.atoi Sample.ftoi_r registry Sample.fresh doc (Sample.world capacity).

End Scenario.

(** ** Render-target readback *)

(** [RenderDeviceInterface::getRenderBufferData( rbObj, bufIndex, width,
    height, compCount, dataBuffer, bufferSize )]: the device answers whether
    it served the query, and what it wrote through the five pointers is
    [Data]. *)
Class RenderBufferData (W Data : Type) : Type := {
  rdi_getRenderBufferData : Z -> Z -> Z -> W -> (bool * Data) * W
}.

Section Readback.
Context {W : Type} {Data : Type} {RD : RenderBufferData W Data} {B : Type}.

(** [rt->rendBuf] for the pointer [p]; [None] is a pointer outside
    [_renderTargets]. *)
Definition rendBufAt (r : PipelineResource B) (p : nat) : option Z :=
  option_map rendBuf (_renderTargets r !! p).

(** [getRenderTargetData( target, bufIndex, ... )]: the boolean returned and,
    when the device was asked, what it wrote; the outer [None] is a read
    through a pointer outside [_renderTargets]. *)
Definition getRenderTargetData (r : PipelineResource B) (target : string)
    (bufIndex bufferSize : Z) : Run W (option (bool * option Data)) :=
  let query (rbObj : Z) : Run W (option (bool * option Data)) :=
    let* (ok, data) := call (rdi_getRenderBufferData rbObj bufIndex bufferSize) in
    ret (Some (ok, Some data)) in
  if negb (String.eqb target "") then
    match findRenderTarget r target with
    | None => ret (Some (false, None))
    | Some p =>
        match rendBufAt r p with
        | Some rbObj => query rbObj
        | None => ret None
        end
    end
  else query 0.

End Readback.

(** ** Further vocabulary *)

(** The handles the device answered to the buffers asked of it, in call
    order; 0 is a refusal. *)
Fixpoint created (evs : list Event) : list Z :=
  match evs with
  | [] => []
  | CreateRenderBuffer _ _ _ _ _ _ _ rb :: rest => rb :: created rest
  | _ :: rest => created rest
  end.

(** The handles destroyed, in call order. *)
Fixpoint destroyed (evs : list Event) : list Z :=
  match evs with
  | [] => []
  | DestroyRenderBuffer rb :: rest => rb :: destroyed rest
  | _ :: rest => destroyed rest
  end.

(** The device objects a list of render targets holds. *)
Definition handles (rts : list RenderTarget) : list Z :=
  List.filter (fun rb => negb (rb =? 0)) (map rendBuf rts).

(** The state of the device after destroying the given handles in order. *)
Definition destroyAll {W : Type} {MW : Modules W} (rbs : list Z) (w : W) : W :=
  fold_left (fun w' rb => snd (rdi_destroyRenderBuffer rb w')) rbs w.

(** The RenderTarget nodes that [load] reads: those of the first child named
    Setup. *)
Definition targetNodes (rootNode : XMLNode) : list XMLNode :=
  match XML.getFirstChild rootNode "Setup" with
  | Some node1 => XML.childrenNamed node1 "RenderTarget"
  | None => []
  end.

(** [i] is the first index of [l] whose target has the identifier [id]. *)
Definition firstWithId (l : list RenderTarget) (id : string) (i : nat) : Prop :=
  (exists rt, l !! i = Some rt /\ rt_id rt = id) /\
  forall j rt, (j < i)%nat -> l !! j = Some rt -> rt_id rt <> id.

(** The first entry of the registry that answers to [name] is entry [i], with
    parse callback [pf]. *)
Definition firstEntry {W : Type} (pm : ExternalPipelineCommandsManager W) (name : string)
    (i : nat) (entry : PipelineCommandRegEntry W)
    (pf : string -> XMLNode -> PipelineCommand -> W -> (string * PipelineCommand) * W)
    : Prop :=
  pm !! i = Some entry /\ comNameString entry = name /\ parseFunc entry = Some pf /\
  unregistered (take i pm) name.

(** The attribute test of ClearTarget in words. *)
Definition saysTrue (node : XMLNode) (attr : string) : Prop :=
  exists v, XML.getAttribute node attr = Some v /\
            (equalsIgnoreCase v "true" \/ equalsIgnoreCase v "1").

(** The [format] attribute of a RenderTarget node names none of the formats
    the description format knows. *)
Definition unknownFormat (node : XMLNode) : Prop :=
  exists f, XML.getAttribute node "format" = Some f /\
            ~ equalsIgnoreCase f "RGBA8" /\ ~ equalsIgnoreCase f "RGBA16F" /\
            ~ equalsIgnoreCase f "RGBA32F".

(** The format a RenderTarget node asks for is [name], up to case. *)
Definition asksFormat (node : XMLNode) (name : string) : Prop :=
  exists f, XML.getAttribute node "format" = Some f /\ equalsIgnoreCase f name.

Module Cases.

(** A readback device over the sample engine: it serves the backbuffer and
    every live render buffer, and answers with the object it read. *)
#[global] Instance readback : RenderBufferData Sample.World Z := {
  rdi_getRenderBufferData := fun rbObj _ _ w =>
    (((rbObj =? 0) || existsb (Z.eqb rbObj) (Sample.live w), rbObj), w)
}.

(** The resource that [Scenario.deferred] loads into, and the engine after. *)
Definition loaded : PipelineResource Sample.Base :=
  snd (value (Scenario.load (Some Scenario.deferred) 8)).

Definition engine : Sample.World :=
  after (Scenario.load (Some Scenario.deferred) 8).

(** Two targets declared under one identifier. *)
Definition twins : PipelineResource Sample.Base :=
  set_renderTargets Sample.fresh
    [mkRenderTarget "A" false 1 BGRA8 0 0 0 (Sample.toFloat "1") 5;
     mkRenderTarget "B" false 1 BGRA8 0 0 0 (Sample.toFloat "1") 0;
     mkRenderTarget "A" true 2 RGBA16F 0 0 0 (Sample.toFloat "1") 7].

(** An engine whose device serves one more buffer. *)
Definition tight : Sample.World := Sample.mkWorld 3 1 [] [] [] 0.

Definition fogParse (name : string) (node : XMLNode) (c : PipelineCommand)
    (w : Sample.World) : (string * PipelineCommand) * Sample.World :=
  (("", {| command := command c; externalCommandID := 77;
           params := [StringParam (XML.getAttributeDef node "density" "1")] |}), w).

(** An execute callback that leaves a trace in the engine. *)
Definition fogExecute (c : PipelineCommand) (w : Sample.World) : Sample.World :=
  Sample.mkWorld (Sample.nextHandle w) (Sample.capacity w) (Sample.live w)
    (Sample.materials w) (Sample.classes w ++ ["fog"]) (Sample.sampleCount w).

Definition fogEntry : PipelineCommandRegEntry Sample.World :=
  mkRegEntry "Fog" (Some fogParse) (Some fogExecute).

Definition fogRegistry : ExternalPipelineCommandsManager Sample.World :=
  Scenario.registry ++ [fogEntry].

(** Three realized targets of derived size. *)
Definition three : PipelineResource Sample.Base :=
  set_renderTargets Sample.fresh
    [mkRenderTarget "A" false 1 BGRA8 0 0 0 (Sample.toFloat "1") 5;
     mkRenderTarget "B" false 1 BGRA8 0 0 0 (Sample.toFloat "1") 6;
     mkRenderTarget "C" false 1 BGRA8 0 0 0 (Sample.toFloat "1") 7].

Definition quadNode : XMLNode :=
  XNode "DrawQuad" [("material", "combine.material.xml"); ("context", "COPY")] [].

Definition lightNode : XMLNode :=
  XNode "DoForwardLightLoop" [("noShadows", "1"); ("order", "none")] [].

Definition fogNode : XMLNode := XNode "Fog" [("density", "0.3")] [].

Definition targetNode : XMLNode :=
  XNode "RenderTarget"
    [("id", "HDR"); ("depthBuf", "1"); ("numColBufs", "1"); ("format", "rgba8");
     ("maxSamples", "16")] [].

Definition drawNode : XMLNode :=
  XNode "DrawGeometry" [("context", "LIGHT"); ("order", "Back_To_Front")] [].

Definition clearNode : XMLNode :=
  XNode "ClearTarget" [("depthBuf", "TRUE"); ("colBuf1", "1"); ("colBuf2", "yes")] [].

Definition bindNode : XMLNode :=
  XNode "BindBuffer" [("sampler", "buf0"); ("sourceRT", "BLUR"); ("bufIndex", "2")] [].

End Cases.

(** The outcome [o] of a call made after the events [evs]. *)
Definition following {W A : Type} (evs : list Event) (o : Outcome W A) : Outcome W A :=
  mkOutcome (value o) (after o) (evs ++ events o).

(** The identifier a node declares. *)
Definition idAttr (node : XMLNode) : string := XML.getAttributeDef node "id" "".

(** A log that holds calls of parse callbacks only. *)
Definition onlyParseCalls (evs : list Event) : bool :=
  forallb (fun e => match e with CallParseFunc _ _ => true | _ => false end) evs.

(** ** The errors [load] looks for *)

(** A RenderTarget node without [id], [depthBuf] or [numColBufs], or with a
    format the description format does not know. *)
Definition badTarget (node2 : XMLNode) : Prop :=
  XML.getAttribute node2 "id" = None \/
  XML.getAttribute node2 "depthBuf" = None \/
  XML.getAttribute node2 "numColBufs" = None \/
  unknownFormat node2.

(** A command node that lacks a required attribute, that refers to a render
    target whose identifier is not among [ids], or that the parse callback
    registered for its name rejects in every engine state. *)
Definition badCommand {W : Type} (pm : ExternalPipelineCommandsManager W)
    (ids : list string) (node1 : XMLNode) : Prop :=
  let name := XML.getName node1 in
  let lacks attr := XML.getAttribute node1 attr = None in
  (name = "SwitchTarget" /\
   (lacks "target" \/
    exists target, XML.getAttribute node1 "target" = Some target /\
                   target <> "" /\ ~ In target ids)) \/
  (name = "BindBuffer" /\
   (lacks "sampler" \/ lacks "sourceRT" \/ lacks "bufIndex" \/
    exists sourceRT, XML.getAttribute node1 "sourceRT" = Some sourceRT /\
                     (sourceRT = "" \/ ~ In sourceRT ids))) \/
  (name = "DrawGeometry" /\ lacks "context") \/
  (name = "DrawQuad" /\ (lacks "material" \/ lacks "context")) \/
  (name = "SetUniform" /\ (lacks "material" \/ lacks "uniform")) \/
  (isBuiltin name = false /\
   exists i entry pf,
     firstEntry pm name i entry pf /\
     forall w : W,
       fst (fst (pf name node1
                   (newPipelineCommand DefaultPipelineCommands.ExternalCommand) w)) <> "").

(** A description with one of the errors [load] looks for before it turns to
    the device: it is no XML document, its root is not named Pipeline, a
    RenderTarget node of its Setup section is bad, or a command node of one
    of its stages is bad, where the render targets one may refer to are those
    the resource [r] holds already and those the Setup section declares. *)
Definition badDescription {W B : Type} (pm : ExternalPipelineCommandsManager W)
    (r : PipelineResource B) (doc : option XMLNode) : Prop :=
  match doc with
  | None => True
  | Some root =>
      XML.getName root <> "Pipeline" \/
      Exists badTarget (targetNodes root) \/
      Exists (fun stage =>
                Exists (badCommand pm (map rt_id (_renderTargets r)
                                       ++ map idAttr (targetNodes root)))
                  (XML.childNodes stage))
        (stageNodes root)
  end.

(** * Properties *)

(** ** String comparison *)

Lemma code_inj (c d : ascii) : CStr.code c = CStr.code d -> c = d.
Proof.
  unfold CStr.code. intros Hcd. apply Nat2Z.inj in Hcd.
  rewrite <- (ascii_nat_embedding c), <- (ascii_nat_embedding d).
  now f_equal.
Qed.

Lemma strcmp_eqb (a b : string) : (CStr.strcmp a b =? 0) = String.eqb a b.
Proof.
  revert b. induction a as [|c a IH]; intros [|d b]; simpl; try reflexivity.
  destruct (Ascii.eqb c d) eqn:Hcd; [apply IH|].
  apply Z.eqb_neq. intros Heq.
  apply Ascii.eqb_neq in Hcd. apply Hcd, code_inj. lia.
Qed.

Lemma stricmp_eqb (a b : string) :
  (CStr._stricmp a b =? 0) = String.eqb (CStr.lower a) (CStr.lower b).
Proof.
  revert b. induction a as [|c a IH]; intros [|d b]; simpl; try reflexivity.
  destruct (Ascii.eqb (CStr.tolower c) (CStr.tolower d)) eqn:Hcd; [apply IH|].
  apply Z.eqb_neq. intros Heq.
  apply Ascii.eqb_neq in Hcd. apply Hcd, code_inj. lia.
Qed.

Lemma stricmp_zero (a b : string) : CStr._stricmp a b = 0 <-> equalsIgnoreCase a b.
Proof.
  unfold equalsIgnoreCase.
  rewrite <- Z.eqb_eq, stricmp_eqb. apply String.eqb_eq.
Qed.

(** ** The monad and its events *)

Section RunLemmas.
Context {W : Type}.

Lemma events_bind {A C} (m : Run W A) (f : A -> Run W C) (w : W) :
  events (bind m f w) = events (m w) ++ events (f (value (m w)) (after (m w))).
Proof. reflexivity. Qed.

Lemma value_bind {A C} (m : Run W A) (f : A -> Run W C) (w : W) :
  value (bind m f w) = value (f (value (m w)) (after (m w))).
Proof. reflexivity. Qed.

Lemma after_bind {A C} (m : Run W A) (f : A -> Run W C) (w : W) :
  after (bind m f w) = after (f (value (m w)) (after (m w))).
Proof. reflexivity. Qed.

End RunLemmas.

Lemma requests_app (l1 l2 : list Event) : requests (l1 ++ l2) = requests l1 ++ requests l2.
Proof.
  induction l1 as [|e l1 IH]; simpl; [reflexivity|].
  destruct e; simpl; now rewrite IH.
Qed.

Ltac run_simpl :=
  cbn [bind ret call ask emit value after events fst snd] in *.

(** ** Render-target realization *)

Section Realization.
Context {W : Type} {MW : Modules W}.
Variable ftoi_r : F32.float -> Z.

Lemma create_loop_spec (bw bh : Z) (rts : list RenderTarget) (w : W) :
  let o := createRenderTargets_loop ftoi_r bw bh rts w in
  map declaration (snd (value o)) = map declaration rts /\
  forallb isCreate (events o) = true /\
  (exists k, requests (events o) = take k (map (extents ftoi_r bw bh) rts)) /\
  (fst (value o) = true ->
     requests (events o) = map (extents ftoi_r bw bh) rts /\
     Forall (fun rt => rendBuf rt <> 0) (snd (value o)) /\
     existsb isFailedCreate (events o) = false) /\
  (fst (value o) = false ->
     Exists (fun rt => rendBuf rt = 0) (snd (value o)) /\
     existsb isFailedCreate (events o) = true).
Proof.
  revert w. induction rts as [|rt rts IH]; intros w.
  - cbn. split_and!; try discriminate; try reflexivity.
    + exists 0%nat. reflexivity.
    + intros _. split_and!; [reflexivity|constructor|reflexivity].
  - cbn [createRenderTargets_loop]. run_simpl.
    destruct (fst (rdi_createRenderBuffer _ _ _ _ _ _ _ w) =? 0) eqn:Hrb; run_simpl.
    + apply Z.eqb_eq in Hrb. split_and!; try discriminate; try reflexivity.
      * exists 1%nat. reflexivity.
      * intros _. split; [now constructor|]. cbn. now rewrite Hrb.
    + match goal with |- context [createRenderTargets_loop _ _ _ _ ?w'] =>
        specialize (IH w');
        destruct (createRenderTargets_loop ftoi_r bw bh rts w') as [[ok rest'] w2 ev]
      end.
      run_simpl. destruct IH as (Hd & Hc & [k Hk] & Ht & Hf).
      rewrite app_nil_r.
      cbn [map app requests forallb existsb isCreate isFailedCreate].
      rewrite Hrb. apply Z.eqb_neq in Hrb. cbn [orb andb].
      split_and!.
      * now rewrite Hd.
      * exact Hc.
      * exists (S k). cbn [take]. now rewrite Hk.
      * intros Hok. destruct (Ht Hok) as (-> & HF & ->).
        split_and!; [reflexivity|now constructor|reflexivity].
      * intros Hok. destruct (Hf Hok) as [HE ->]. split; [now constructor 2|reflexivity].
Qed.

End Realization.

Lemma quiet_app (l1 l2 : list Event) : quiet (l1 ++ l2) = quiet l1 && quiet l2.
Proof. apply forallb_app. Qed.

Lemma quiet_requests (l : list Event) : quiet l = true -> requests l = [].
Proof.
  induction l as [|e l IH]; simpl; [reflexivity|].
  destruct e; simpl; intros Hl; try discriminate; now apply IH.
Qed.

Lemma quiet_no_error (l : list Event) : quiet l = true -> existsb isWriteError l = false.
Proof.
  induction l as [|e l IH]; simpl; [reflexivity|].
  destruct e; simpl; intros Hl; try discriminate; now apply IH.
Qed.


Lemma length_zero_eqb (s : string) : (String.length s =? 0)%nat = String.eqb s "".
Proof. now destruct s. Qed.

(** ** The command registry *)

Section RegistryFacts.
Context {W : Type}.
Implicit Types (pm entries : list (PipelineCommandRegEntry W)).

Lemma parseCommand_loop_spec pm entries (i : nat) name node cmd (w : W) :
  (forall j, entries !! j = pm !! (i + j)%nat) ->
  let o := parseCommand_loop i entries name node cmd true w in
  quiet (events o) = true /\
  (snd (value o) = false -> fst (fst (value o)) <> "") /\
  (snd (value o) = true ->
     fst (fst (value o)) = "" /\
     (snd (fst (value o)) = cmd \/ setByParse pm (snd (fst (value o))))).
Proof.
  revert i. induction entries as [|entry rest IH]; intros i Hpm.
  - cbn. split_and!; [reflexivity|discriminate|]. intros _. split; [reflexivity|now left].
  - cbn [parseCommand_loop].
    destruct (String.eqb (comNameString entry) name) eqn:Hname.
    + destruct (parseFunc entry) as [pf|] eqn:Hpf.
      * run_simpl. apply String.eqb_eq in Hname. subst name.
        destruct (pf (comNameString entry) node cmd w) as [[msg cmd'] w'] eqn:Hcall.
        run_simpl. rewrite length_zero_eqb.
        destruct (String.eqb msg "") eqn:Hmsg; run_simpl.
        -- apply String.eqb_eq in Hmsg. subst msg.
           split_and!; [reflexivity|discriminate|]. intros _. split; [reflexivity|].
           right. exists i, entry, pf, node, cmd, cmd', w, w'.
           split_and!; try done. rewrite <- (Nat.add_0_r i), <- Hpm. reflexivity.
        -- apply String.eqb_neq in Hmsg.
           split_and!; [reflexivity|now intros _|discriminate].
      * apply IH. intros j. replace (S i + j)%nat with (i + S j)%nat by lia. apply (Hpm (S j)).
    + apply IH. intros j. replace (S i + j)%nat with (i + S j)%nat by lia. apply (Hpm (S j)).
Qed.

Lemma parseCommand_loop_unregistered entries (i : nat) name node cmd success (w : W) :
  unregistered entries name ->
  parseCommand_loop i entries name node cmd success w = mkOutcome ("", cmd, success) w [].
Proof.
  intros Hun. revert i. induction Hun as [|entry rest Hentry _ IH]; intros i; [reflexivity|].
  cbn [parseCommand_loop].
  destruct Hentry as [Hname| ->].
  - apply String.eqb_neq in Hname. rewrite Hname. apply IH.
  - destruct (String.eqb (comNameString entry) name); apply IH.
Qed.

End RegistryFacts.

(** ** Compilation of a stage *)

Ltac branch :=
  match goal with
  | |- context [if ?c then _ else _] => destruct c eqn:?
  | |- context [match ?x with _ => _ end] => destruct x eqn:?
  end.

Section Compile.
Context {W : Type} {MW : Modules W} {B : Type}.
Variable toFloat : string -> F32.float.
Variable atoi : string -> Z.
Implicit Types (pm : ExternalPipelineCommandsManager W) (r : PipelineResource B).

Lemma extends_refl pm st : extends pm st st.
Proof.
  split_and!; try reflexivity. exists []. rewrite app_nil_r. now split.
Qed.

Lemma extends_trans pm st1 st2 st3 : extends pm st1 st2 -> extends pm st2 st3 -> extends pm st1 st3.
Proof.
  intros (Hi & He & Hm & cs & Hc & Hok) (Hi' & He' & Hm' & cs' & Hc' & Hok').
  split_and!; try congruence.
  exists (cs ++ cs'). split; [rewrite Hc', Hc; now rewrite app_assoc|].
  now apply Forall_app.
Qed.

Lemma extends_push pm st c : commandOk pm c -> extends pm st (push_command st c).
Proof.
  intros Hc. split_and!; try reflexivity. exists [c]. split; [reflexivity|]. now constructor.
Qed.

Lemma builtin_ok pm cmd ps : commandOk pm (withParams cmd ps).
Proof. now left. Qed.

Lemma parseCommandNode_spec pm r node1 st (w : W) :
  let o := parseCommandNode toFloat atoi pm r node1 st w in
  quiet (events o) = true /\
  match value o with
  | inl msg => msg <> ""
  | inr st' => extends pm st st'
  end.
Proof.
  unfold parseCommandNode.
  repeat (branch; try (cbn; split; [reflexivity|];
                        first [discriminate | apply extends_push, builtin_ok
                              | apply extends_push; now left | apply extends_refl])).
  all: pose proof (parseCommand_loop_spec pm pm 0 (XML.getName node1) node1
                    (newPipelineCommand DefaultPipelineCommands.ExternalCommand) w
                    (fun j => eq_refl)) as (Hq & Hfalse & Htrue).
  all: unfold parseCommand in *; run_simpl.
  all: destruct (parseCommand_loop 0 pm (XML.getName node1) node1 _ true w)
         as [[[msg cmd'] success] w' ev].
  all: run_simpl; destruct success; run_simpl; try discriminate.
  all: rewrite ?app_nil_r; split; [exact Hq|].
  - injection Heqs as <-. now apply Hfalse.
  - injection Heqs as <-. apply extends_push.
    destruct (Htrue eq_refl) as [_ [-> | Hset]]; [now left|now right].
Qed.

Lemma parseCommandNode_bindBuffer pm r node1 st (w : W) :
  incompleteBindBuffer node1 ->
  parseCommandNode toFloat atoi pm r node1 st w
  = mkOutcome (inl "Missing BindBuffer attribute") w [].
Proof.
  intros [Hname Hattr]. unfold parseCommandNode. rewrite Hname, !strcmp_eqb.
  change (String.eqb "BindBuffer" "SwitchTarget") with false.
  change (String.eqb "BindBuffer" "BindBuffer") with true. cbv iota.
  destruct Hattr as [-> | [-> | ->]]; repeat branch; reflexivity.
Qed.

Lemma parseCommandNode_unknown pm r node1 st (w : W) :
  isBuiltin (XML.getName node1) = false ->
  unregistered pm (XML.getName node1) ->
  parseCommandNode toFloat atoi pm r node1 st w
  = mkOutcome (inr (if registeredCommandsCount pm >? 0
                    then push_command st
                           (newPipelineCommand DefaultPipelineCommands.ExternalCommand)
                    else st)) w [].
Proof.
  intros Hname Hun. unfold isBuiltin in Hname. cbn [existsb] in Hname.
  repeat (apply orb_false_elim in Hname; destruct Hname as [? Hname]).
  unfold parseCommandNode. rewrite !strcmp_eqb.
  repeat match goal with H : String.eqb _ _ = false |- _ => rewrite H; clear H end.
  destruct (registeredCommandsCount pm >? 0); [|reflexivity].
  unfold parseCommand, bind.
  rewrite parseCommand_loop_unregistered by exact Hun. reflexivity.
Qed.

Lemma parseCommands_spec pm r nodes st (w : W) :
  let o := parseCommands toFloat atoi pm r nodes st w in
  quiet (events o) = true /\
  extends pm st (snd (value o)) /\
  (Exists incompleteBindBuffer nodes -> fst (value o) <> "").
Proof.
  revert st w. induction nodes as [|node1 rest IH]; intros st w.
  - cbn. split_and!; [reflexivity|apply extends_refl|]. intros Hex. inversion Hex.
  - cbn [parseCommands]. run_simpl.
    pose proof (parseCommandNode_spec pm r node1 st w) as [Hq Hv].
    pose proof (parseCommandNode_bindBuffer pm r node1 st w) as Hbb.
    destruct (parseCommandNode toFloat atoi pm r node1 st w) as [[msg|st'] w' ev].
    + run_simpl. rewrite app_nil_r.
      split_and!; [exact Hq|apply extends_refl|now intros _].
    + run_simpl. destruct (IH st' w') as (Hq' & Hext & Hbad).
      rewrite quiet_app, Hq, Hq'.
      split_and!; [reflexivity|now apply extends_trans with st'|].
      intros Hex. apply Exists_cons in Hex as [Hhere|Hlater]; [|now apply Hbad].
      specialize (Hbb Hhere). discriminate Hbb.
Qed.


Lemma enabled_test (node : XMLNode) :
  (CStr._stricmp (XML.getAttributeDef node "enabled" "true") "false" =? 0) ||
  (CStr._stricmp (XML.getAttributeDef node "enabled" "1") "0" =? 0)
  = negb (enabledAttr node).
Proof.
  unfold XML.getAttributeDef, enabledAttr.
  destruct (XML.getAttribute node "enabled") as [v|]; [|reflexivity].
  rewrite !stricmp_eqb, negb_involutive. reflexivity.
Qed.

Lemma parseStage_spec pm r node (w : W) :
  let o := parseStage toFloat atoi pm r node newPipelineStage w in
  quiet (events o) = true /\
  enabled (snd (value o)) = enabledAttr node /\
  stage_id (snd (value o)) = XML.getAttributeDef node "id" "" /\
  Forall (commandOk pm) (commands (snd (value o))) /\
  (Exists incompleteBindBuffer (XML.childNodes node) -> fst (value o) <> "").
Proof.
  unfold parseStage. rewrite enabled_test. run_simpl.
  match goal with |- context [parseCommands _ _ _ _ _ ?st ?w'] =>
    destruct (parseCommands_spec pm r (XML.childNodes node) st w')
      as (Hq & (Hid & Hen & _ & cs & Hcs & Hok) & Hbad);
    set (st0 := st) in *; set (w0 := w') in *
  end.
  assert (Hst0 : enabled st0 = enabledAttr node /\
                 stage_id st0 = XML.getAttributeDef node "id" "" /\ commands st0 = []).
  { subst st0. destruct (negb (CStr.strcmp _ _ =? 0)); run_simpl;
      destruct (enabledAttr node); now cbn. }
  destruct Hst0 as (Hen0 & Hid0 & Hc0).
  split_and!.
  - rewrite quiet_app, Hq, andb_true_r.
    destruct (negb (CStr.strcmp _ _ =? 0)); reflexivity.
  - now rewrite Hen.
  - now rewrite Hid.
  - now rewrite Hcs, Hc0.
  - exact Hbad.
Qed.

End Compile.

(** ** The phases of load *)

Section Phases.
Context {W : Type} {MW : Modules W} {B : Type} {RB : Resource B W}.
Variable toFloat : string -> F32.float.
Variable atoi : string -> Z.
Variable ftoi_r : F32.float -> Z.
Implicit Types (pm : ExternalPipelineCommandsManager W) (r : PipelineResource B).

Lemma parseRenderTarget_spec r node2 (w : W) :
  let o := parseRenderTarget toFloat atoi r node2 w in
  events o = [] /\ sameFrame r (snd (value o)) /\ _stages (snd (value o)) = _stages r.
Proof.
  unfold parseRenderTarget, sameFrame. repeat branch; cbn; now split_and!.
Qed.

Lemma parseSetup_spec nodes r (w : W) :
  let o := parseSetup toFloat atoi nodes r w in
  events o = [] /\ sameFrame r (snd (value o)) /\ _stages (snd (value o)) = _stages r.
Proof.
  revert r w. induction nodes as [|node2 rest IH]; intros r w.
  - cbn. now split_and!.
  - cbn [parseSetup]. run_simpl.
    destruct (parseRenderTarget_spec r node2 w) as (He & (Hb & Hw & Hh) & Hs).
    destruct (parseRenderTarget toFloat atoi r node2 w) as [[[msg|] r'] w' ev]; run_simpl.
    + subst ev. now split_and!.
    + subst ev. destruct (IH r' w') as (He' & (Hb' & Hw' & Hh') & Hs').
      unfold sameFrame. rewrite He'. split_and!; [reflexivity|congruence..].
Qed.

Lemma parseSetupSection_spec root r (w : W) :
  let o := parseSetupSection toFloat atoi root r w in
  events o = [] /\ sameFrame r (snd (value o)) /\ _stages (snd (value o)) = _stages r.
Proof.
  unfold parseSetupSection.
  destruct (XML.getFirstChild root "Setup"); [apply parseSetup_spec|].
  cbn. now split_and!.
Qed.

Lemma parseStages_spec pm nodes r (w : W) :
  let o := parseStages toFloat atoi pm nodes r w in
  quiet (events o) = true /\
  sameFrame r (snd (value o)) /\
  _renderTargets (snd (value o)) = _renderTargets r /\
  (fst (value o) = None ->
     exists sts, _stages (snd (value o)) = _stages r ++ sts /\
       map enabled sts = map enabledAttr nodes /\
       Forall (fun st => Forall (commandOk pm) (commands st)) sts) /\
  (Exists (fun node => Exists incompleteBindBuffer (XML.childNodes node)) nodes ->
     fst (value o) <> None).
Proof.
  revert r w. induction nodes as [|node2 rest IH]; intros r w.
  - cbn. split_and!; try done.
    + intros _. exists []. now rewrite app_nil_r.
    + intros Hex. inversion Hex.
  - cbn [parseStages]. run_simpl.
    destruct (parseStage_spec toFloat atoi pm r node2 w) as (Hq & Hen & _ & Hok & Hbad).
    destruct (parseStage toFloat atoi pm r node2 newPipelineStage w) as [[msg st] w' ev].
    run_simpl.
    destruct (String.eqb msg "") eqn:Hmsg; cbn [negb]; run_simpl.
    + match goal with |- context [parseStages _ _ _ _ ?r1 _] =>
        destruct (IH r1 w') as (Hq' & (Hb & Hw & Hh) & Hrt & Hsts & Hbad')
      end.
      rewrite quiet_app, Hq, Hq'. unfold sameFrame.
      split_and!; try done.
      * intros Hnone. destruct (Hsts Hnone) as (sts & Hs & Hmap & Hall).
        exists (st :: sts). cbn [_stages set_stages] in Hs.
        split_and!.
        -- rewrite Hs, <- app_assoc. reflexivity.
        -- cbn [map]. now rewrite Hen, Hmap.
        -- now constructor.
      * intros Hex. apply Exists_cons in Hex as [Hhere|Hlater]; [|now apply Hbad'].
        apply String.eqb_eq in Hmsg. now apply Hbad in Hhere.
    + rewrite app_nil_r. unfold sameFrame. split_and!; try done.
Qed.

Lemma createRenderTargets_spec r (w : W) :
  let o := createRenderTargets ftoi_r r w in
  sameFrame r (snd (value o)) /\ _stages (snd (value o)) = _stages r /\
  map declaration (_renderTargets (snd (value o))) = map declaration (_renderTargets r) /\
  forallb isCreate (events o) = true /\
  (exists k, requests (events o)
             = take k (map (extents ftoi_r (_baseWidth r) (_baseHeight r)) (_renderTargets r))) /\
  (fst (value o) = true ->
     requests (events o)
     = map (extents ftoi_r (_baseWidth r) (_baseHeight r)) (_renderTargets r) /\
     Forall (fun rt => rendBuf rt <> 0) (_renderTargets (snd (value o))) /\
     existsb isFailedCreate (events o) = false) /\
  (fst (value o) = false ->
     Exists (fun rt => rendBuf rt = 0) (_renderTargets (snd (value o))) /\
     existsb isFailedCreate (events o) = true).
Proof.
  unfold createRenderTargets. run_simpl.
  pose proof (create_loop_spec ftoi_r (_baseWidth r) (_baseHeight r) (_renderTargets r) w)
    as (Hd & Hc & Hk & Ht & Hf).
  destruct (createRenderTargets_loop ftoi_r _ _ _ w) as [[ok rts] w' ev].
  run_simpl. rewrite app_nil_r. unfold sameFrame. split_and!; try done.
Qed.

Lemma isCreate_not_error (l : list Event) :
  forallb isCreate l = true -> existsb isWriteError l = false.
Proof.
  induction l as [|e l IH]; [reflexivity|].
  cbn. destruct e; cbn; try discriminate. exact IH.
Qed.

Lemma release_loop_quiet (rts : list RenderTarget) (w : W) :
  quiet (events (releaseRenderTargets_loop rts w)) = true.
Proof.
  revert w. induction rts as [|rt rts IH]; intros w; [reflexivity|].
  cbn [releaseRenderTargets_loop]. rewrite !events_bind, !quiet_app, IH.
  cbn [ret events quiet forallb]. rewrite !andb_true_r.
  destruct (negb (rendBuf rt =? 0)); reflexivity.
Qed.

Lemma release_loop_declaration (rts : list RenderTarget) (w : W) :
  map declaration (value (releaseRenderTargets_loop rts w)) = map declaration rts.
Proof.
  revert w. induction rts as [|rt rts IH]; intros w; [reflexivity|].
  cbn [releaseRenderTargets_loop]. rewrite !value_bind. cbn [ret value map].
  rewrite IH. f_equal.
  destruct (negb (rendBuf rt =? 0)); reflexivity.
Qed.

Lemma raiseError_spec r msg line (w : W) :
  let o := raiseError r msg line w in
  value o = (false, mkPipelineResource (base r) 320 240 [] []) /\
  exists evs, events o = evs ++ [WriteError (errorText (Resource_name (base r)) msg line)] /\
              quiet evs = true.
Proof.
  unfold raiseError, release, releaseRenderTargets. run_simpl.
  split; [reflexivity|].
  exists (events (releaseRenderTargets_loop (_renderTargets r) w)).
  split; [now rewrite !app_nil_r|apply release_loop_quiet].
Qed.

Lemma extents_declaration (bw bh : Z) (l1 l2 : list RenderTarget) :
  map declaration l1 = map declaration l2 ->
  map (extents ftoi_r bw bh) l1 = map (extents ftoi_r bw bh) l2.
Proof.
  intros Hd.
  assert (Hext : forall l, map (extents ftoi_r bw bh) l
                           = map (extents ftoi_r bw bh) (map declaration l)).
  { intros l. rewrite map_map. reflexivity. }
  rewrite (Hext l1), (Hext l2), Hd. reflexivity.
Qed.

(** The four ways [load] ends: refused by the base class, aborted by the
    compiler, aborted by the device, or loaded. *)
Lemma load_spec pm r doc (w : W) :
  let o := load toFloat atoi ftoi_r pm r doc w in
  let accepted := fst (fst (Resource_load (base r) w)) in
  (accepted = false /\ fst (value o) = false /\ events o = []) \/
  (accepted = true /\ fst (value o) = false /\ isDefault (snd (value o)) /\
   exists evs msg, events o = evs ++ [WriteError msg] /\ quiet evs = true) \/
  (accepted = true /\ fst (value o) = false /\ isDefault (snd (value o)) /\
   (exists root, doc = Some root /\ ~ hasIncompleteBindBuffer root) /\
   exists evs dvs msg,
     events o = evs ++ dvs ++ [WriteError msg] /\
     existsb isWriteError evs = false /\ existsb isFailedCreate evs = true /\
     quiet dvs = true) \/
  (accepted = true /\ fst (value o) = true /\
   exists root sts,
     doc = Some root /\ ~ hasIncompleteBindBuffer root /\
     _baseWidth (snd (value o)) = _baseWidth r /\
     _baseHeight (snd (value o)) = _baseHeight r /\
     _stages (snd (value o)) = _stages r ++ sts /\ compiledFrom pm root sts /\
     requests (events o)
     = map (extents ftoi_r (_baseWidth r) (_baseHeight r))
         (_renderTargets (snd (value o))) /\
     Forall (fun rt => rendBuf rt <> 0) (_renderTargets (snd (value o))) /\
     existsb isWriteError (events o) = false).
Proof.
  unfold load. run_simpl.
  destruct (Resource_load (base r) w) as [[ok b] w0] eqn:Hload. run_simpl.
  destruct ok; cbn [negb]; run_simpl; [|left; now split_and!].
  right.
  assert (Hraise : forall r' msg (w' : W) pre,
    quiet pre = true ->
    fst (value (raiseError r' msg noLine w')) = false /\
    isDefault (snd (value (raiseError r' msg noLine w'))) /\
    exists evs msg', pre ++ events (raiseError r' msg noLine w') = evs ++ [WriteError msg'] /\
                     quiet evs = true).
  { intros r' msg w' pre Hpre.
    destruct (raiseError_spec r' msg noLine w') as [-> (evs & -> & Hq)].
    split_and!; [reflexivity|now split_and!|].
    exists (pre ++ evs), (errorText (Resource_name (base r')) msg noLine).
    split; [now rewrite app_assoc|]. now rewrite quiet_app, Hpre, Hq. }
  destruct doc as [root|].
  2: { left. split; [reflexivity|]. now apply (Hraise _ _ _ []). }
  destruct (negb (CStr.strcmp (XML.getName root) "Pipeline" =? 0)).
  { left. split; [reflexivity|]. now apply (Hraise _ _ _ []). }
  run_simpl.
  match goal with |- context [parseSetupSection _ _ _ ?r0 _] =>
    destruct (parseSetupSection_spec root r0 w0) as (He1 & (Hb1 & Hw1 & Hh1) & Hs1);
    destruct (parseSetupSection toFloat atoi root r0 w0) as [[err1 r1] w1 ev1]
  end.
  run_simpl. subst ev1. cbn [app].
  destruct err1 as [msg1|].
  { left. split; [reflexivity|]. now apply (Hraise _ _ _ []). }
  run_simpl.
  destruct (parseStages_spec pm (stageNodes root) r1 w1)
    as (Hq2 & (Hb2 & Hw2 & Hh2) & Hrt2 & Hsts & Hbad).
  destruct (parseStages toFloat atoi pm (stageNodes root) r1 w1) as [[err2 r2] w2 ev2].
  run_simpl.
  destruct err2 as [msg2|].
  { left. split; [reflexivity|]. now apply Hraise. }
  run_simpl.
  destruct (createRenderTargets_spec r2 w2)
    as ((Hb3 & Hw3 & Hh3) & Hs3 & Hd3 & Hc3 & _ & Hok & Hfail).
  destruct (createRenderTargets ftoi_r r2 w2) as [[created r3] w3 ev3].
  run_simpl.
  assert (Hgood : ~ hasIncompleteBindBuffer root).
  { intros Hex. now apply Hbad in Hex. }
  destruct created; cbn [negb]; run_simpl; right; [right|left].
  - destruct (Hok eq_refl) as (Hreq & Hall & _).
    destruct (Hsts eq_refl) as (sts & Hs2 & Hmap & Hcmds).
    split_and!; try reflexivity.
    exists root, sts. rewrite app_nil_r.
    split_and!; try done.
    + rewrite Hw3, Hw2, Hw1. reflexivity.
    + rewrite Hh3, Hh2, Hh1. reflexivity.
    + rewrite Hs3, Hs2, Hs1. reflexivity.
    + rewrite requests_app, (quiet_requests _ Hq2), Hreq. cbn [app].
      rewrite Hw2, Hw1, Hh2, Hh1. cbn [_baseWidth _baseHeight set_base].
      apply extents_declaration. now rewrite Hd3.
    + rewrite existsb_app, (quiet_no_error _ Hq2), (isCreate_not_error _ Hc3). reflexivity.
  - destruct (Hfail eq_refl) as [_ Hfc].
    destruct (raiseError_spec r3 "Failed to create render target" noLine w3)
      as [-> (dvs & -> & Hqd)].
    split_and!; [reflexivity|reflexivity|now split_and!|now exists root|].
    exists (ev2 ++ ev3), dvs, (errorText (Resource_name (base r3))
                                 "Failed to create render target" noLine).
    split_and!; [now rewrite <- app_assoc| |now rewrite existsb_app, Hfc, orb_true_r|exact Hqd].
    rewrite existsb_app, (quiet_no_error _ Hq2), (isCreate_not_error _ Hc3). reflexivity.
Qed.

End Phases.

(** ** resize and the introspection accessors *)

Section Resize.
Context {W : Type} {MW : Modules W} {B : Type}.
Variable ftoi_r : F32.float -> Z.
Implicit Types (r : PipelineResource B).

Lemma Forall_Exists_absurd (l : list RenderTarget) :
  Forall (fun rt => rendBuf rt <> 0) l -> Exists (fun rt => rendBuf rt = 0) l -> False.
Proof.
  intros Hall Hex. induction Hex as [rt l H0|rt l _ IH]; inversion Hall; subst; auto.
Qed.

Lemma resize_spec r (width height : Z) (w : W) :
  let o := resize ftoi_r r width height w in
  _baseWidth (value o) = width /\ _baseHeight (value o) = height /\
  base (value o) = base r /\ _stages (value o) = _stages r /\
  map declaration (_renderTargets (value o)) = map declaration (_renderTargets r) /\
  existsb isWriteError (events o) = false /\
  (exists k, requests (events o)
             = take k (map (extents ftoi_r width height) (_renderTargets r))) /\
  (Forall (fun rt => rendBuf rt <> 0) (_renderTargets (value o)) ->
   requests (events o) = map (extents ftoi_r width height) (_renderTargets r)) /\
  (existsb isFailedCreate (events o) = true ->
   Exists (fun rt => rendBuf rt = 0) (_renderTargets (value o))).
Proof.
  unfold resize, releaseRenderTargets. run_simpl.
  set (r0 := set_baseSize r width height).
  pose proof (release_loop_quiet (_renderTargets r0) w) as Hq.
  pose proof (release_loop_declaration (_renderTargets r0) w) as Hrel.
  set (o1 := releaseRenderTargets_loop (_renderTargets r0) w) in *.
  set (r1 := set_renderTargets r0 (value o1)).
  destruct (createRenderTargets_spec ftoi_r r1 (after o1))
    as ((Hb & Hw & Hh) & Hs & Hd & Hc & Hk & Hok & Hfail).
  destruct (createRenderTargets ftoi_r r1 (after o1)) as [[ok r'] w' ev].
  run_simpl. rewrite !app_nil_r, requests_app, (quiet_requests _ Hq), !existsb_app.
  change (_renderTargets r1) with (value o1) in *.
  change (_baseWidth r1) with width in *. change (_baseHeight r1) with height in *.
  rewrite (extents_declaration ftoi_r width height _ _ Hrel) in Hk, Hok.
  rewrite Hrel in Hd.
  rewrite (quiet_no_error _ Hq), (isCreate_not_error _ Hc). cbn [app orb].
  assert (Hnf : existsb isFailedCreate (events o1) = false).
  { clear -Hq. induction (events o1) as [|e l IH]; [reflexivity|].
    cbn in *. destruct e; cbn in *; try discriminate; auto. }
  rewrite Hnf. cbn [orb].
  split_and!; try done.
  - intros Hall. destruct ok; [now apply Hok|].
    destruct (Hfail eq_refl) as [Hex _]. destruct (Forall_Exists_absurd _ Hall Hex).
  - intros Hfc. destruct ok; [|now apply Hfail].
    destruct (Hok eq_refl) as (_ & _ & Hno). congruence.
Qed.

End Resize.

(** ** Lists and look-ups *)

Lemma lookup_map {A C : Type} (f : A -> C) (l : list A) (i : nat) :
  map f l !! i = option_map f (l !! i).
Proof.
  revert i. induction l as [|x l IH]; intros [|i]; cbn; auto.
Qed.

Lemma lookup_take_inv {A : Type} (l : list A) (k i : nat) (x : A) :
  take k l !! i = Some x -> l !! i = Some x.
Proof.
  revert k i. induction l as [|y l IH]; intros [|k] [|i]; cbn; try discriminate; auto.
  apply IH.
Qed.

Lemma lookup_length {A : Type} (l : list A) (i : nat) (x : A) :
  l !! i = Some x -> (i < length l)%nat.
Proof.
  revert i. induction l as [|y l IH]; intros [|i]; cbn; try discriminate; [lia|].
  intros Hl. apply IH in Hl. lia.
Qed.

Lemma enabledAttr_false (node : XMLNode) :
  enabledAttr node = false <->
  exists v, XML.getAttribute node "enabled" = Some v /\
            (equalsIgnoreCase v "false" \/ equalsIgnoreCase v "0").
Proof.
  unfold enabledAttr, equalsIgnoreCase.
  destruct (XML.getAttribute node "enabled") as [v|].
  - rewrite negb_false_iff, orb_true_iff, !String.eqb_eq. split.
    + intros H. exists v. now split.
    + intros (v' & [= <-] & H). exact H.
  - split; [discriminate|]. intros (v & Hv & _). discriminate.
Qed.

Section Targets.
Context {B : Type}.
Implicit Types (r : PipelineResource B).

Lemma findRenderTarget_loop_None (i : nat) (rts : list RenderTarget) (id : string) :
  Forall (fun rt => rt_id rt <> id) rts -> findRenderTarget_loop i rts id = None.
Proof.
  intros Hall. revert i. induction Hall as [|rt rts Hrt _ IH]; intros i; [reflexivity|].
  cbn. apply String.eqb_neq in Hrt. rewrite Hrt. apply IH.
Qed.

Lemma findRenderTarget_loop_Some (i : nat) (rts : list RenderTarget) (id : string) :
  Exists (fun rt => rt_id rt = id) rts ->
  exists j rt, findRenderTarget_loop i rts id = Some (i + j)%nat /\
               rts !! j = Some rt /\ rt_id rt = id.
Proof.
  intros Hex. revert i. induction rts as [|rt rts IH]; intros i; [inversion Hex|].
  cbn. destruct (String.eqb (rt_id rt) id) eqn:Hid.
  - apply String.eqb_eq in Hid. exists 0%nat, rt. now rewrite Nat.add_0_r.
  - apply String.eqb_neq in Hid.
    apply Exists_cons in Hex as [Hhere|Hlater]; [contradiction|].
    destruct (IH Hlater (S i)) as (j & rt' & Hf & Hl & Hr).
    exists (S j), rt'. rewrite Hf. split_and!; [f_equal; lia|exact Hl|exact Hr].
Qed.

End Targets.

(** * Properties of the specification *)

Section Specification.
Context {W : Type} {MW : Modules W} {B : Type} {RB : Resource B W}.
Variable toFloat : string -> F32.float.
Variable atoi : string -> Z.
Variable ftoi_r : F32.float -> Z.
Variables StageElem StageNameStr StageActivationI : Z.
Implicit Types (pm : ExternalPipelineCommandsManager W) (r : PipelineResource B).


(** C5.  After a successful load at base resolution (W1,H1), resizing to
    (W2,H2) and back to (W1,H1) asks the device for the same extents as the
    load did, target by target; when the device serves them all, every
    render target is realized with the extents of the original load.  This
    holds for every sizing policy, in particular for derived sizing. *)
Theorem resize_round_trip pm r doc (w : W) (W2 H2 : Z) :
  let o1 := load toFloat atoi ftoi_r pm r doc w in
  fst (value o1) = true ->
  let o2 := resize ftoi_r (snd (value o1)) W2 H2 (after o1) in
  let o3 := resize ftoi_r (value o2) (_baseWidth r) (_baseHeight r) (after o2) in
  length (requests (events o1)) = length (_renderTargets (snd (value o1))) /\
  (exists k, requests (events o3) = take k (requests (events o1))) /\
  (Forall (fun rt => rendBuf rt <> 0) (_renderTargets (value o3)) ->
   requests (events o3) = requests (events o1)).
Proof.
  intros o1 Hok o2 o3.
  destruct (load_spec toFloat atoi ftoi_r pm r doc w)
    as [(_ & Hf & _) | [(_ & Hf & _) | [(_ & Hf & _)
       | (_ & _ & root & sts & _ & _ & _ & _ & _ & _ & Hreq & _)]]];
    try (fold o1 in Hf; congruence).
  fold o1 in Hreq.
  destruct (resize_spec ftoi_r (snd (value o1)) W2 H2 (after o1))
    as (_ & _ & _ & _ & Hd2 & _).
  fold o2 in Hd2.
  destruct (resize_spec ftoi_r (value o2) (_baseWidth r) (_baseHeight r) (after o2))
    as (_ & _ & _ & _ & _ & _ & Hk & Hall & _).
  fold o3 in Hk, Hall.
  rewrite (extents_declaration ftoi_r _ _ _ _ Hd2) in Hk, Hall.
  rewrite <- Hreq in Hk, Hall.
  split_and!; [now rewrite Hreq, length_map|exact Hk|exact Hall].
Qed.

(** C9.  [resize] always returns, with the new base width and height
    stored.  It logs no error and does not reset the resource: the stages
    and the render-target declarations are those from before, also when the
    device refuses a render buffer, in which case a target is left without
    device object. *)
Theorem resize_ignores_failure r (width height : Z) (w : W) :
  let o := resize ftoi_r r width height w in
  _baseWidth (value o) = width /\ _baseHeight (value o) = height /\
  _stages (value o) = _stages r /\
  map declaration (_renderTargets (value o)) = map declaration (_renderTargets r) /\
  existsb isWriteError (events o) = false /\
  (existsb isFailedCreate (events o) = true ->
   Exists (fun rt => rendBuf rt = 0) (_renderTargets (value o))).
Proof.
  destruct (resize_spec ftoi_r r width height w)
    as (Hw & Hh & _ & Hs & Hd & He & _ & _ & Hf).
  now split_and!.
Qed.

(** C10.  For an element index outside [0, stage count), with the stage
    count within the range of [int] as [getElemCount] reports it, the three
    accessors do nothing but call the handler of the base class: the answer is
    the handler's, and [setElemParamI] leaves the stages as they are. *)
Theorem introspection_out_of_range r (elem elemIdx param v : Z) (w : W) :
  Int.is_int32 elemIdx ->
  Z.of_nat (length (_stages r)) < 2 ^ 31 ->
  ~ (0 <= elemIdx < Z.of_nat (length (_stages r))) ->
  getElemParamI StageElem StageActivationI r elem elemIdx param w
  = mkOutcome (Some (fst (Resource_getElemParamI (base r) elem elemIdx param w)))
      (snd (Resource_getElemParamI (base r) elem elemIdx param w)) [] /\
  getElemParamStr StageElem StageNameStr r elem elemIdx param w
  = mkOutcome (Some (fst (Resource_getElemParamStr (base r) elem elemIdx param w)))
      (snd (Resource_getElemParamStr (base r) elem elemIdx param w)) [] /\
  setElemParamI StageElem StageActivationI r elem elemIdx param v w
  = mkOutcome
      (Some (set_base r (fst (Resource_setElemParamI (base r) elem elemIdx param v w))))
      (snd (Resource_setElemParamI (base r) elem elemIdx param v w)) [] /\
  (forall r', value (setElemParamI StageElem StageActivationI r elem elemIdx param v w)
              = Some r' ->
              _stages r' = _stages r).
Proof.
  intros Hint Hlen Hout.
  assert (Hin : inStages r elemIdx = false).
  { unfold inStages, Int.to_uint32. apply Z.ltb_ge. unfold Int.is_int32 in Hint.
    destruct (Z.lt_ge_cases elemIdx 0) as [Hneg|Hpos].
    - replace (elemIdx mod 2 ^ 32) with (elemIdx + 2 ^ 32); [lia|].
      apply Z.mod_unique with (-1); lia.
    - rewrite Z.mod_small by lia. lia. }
  unfold getElemParamI, getElemParamStr, setElemParamI. rewrite Hin.
  split_and!.
  - destruct (elem =? StageElem); reflexivity.
  - destruct (elem =? StageElem); reflexivity.
  - destruct (elem =? StageElem); reflexivity.
  - intros r'. destruct (elem =? StageElem); cbn; intros [= <-]; reflexivity.
Qed.

(** C8.  [executeCommand] on a command whose [externalCommandID] is -1 does
    nothing: no callback is called and the engine state is the same.  Hence a
    dispatch happens only for another index, and in a loaded resource such
    an index was written by [parseCommand] after the parse callback of that
    registry entry accepted the node. *)
Theorem execute_only_registered pm :
  (forall cmd (w : W),
     externalCommandID cmd = -1 -> executeCommand pm cmd w = mkOutcome (Some tt) w []) /\
  (forall cmd (w : W),
     events (executeCommand pm cmd w) <> [] -> externalCommandID cmd <> -1) /\
  (forall r doc (w : W),
     let o := load toFloat atoi ftoi_r pm r doc w in
     fst (value o) = true ->
     Forall (fun st => Forall (commandOk pm) (commands st)) (_stages r) ->
     forall st c, In st (_stages (snd (value o))) -> In c (commands st) ->
                  externalCommandID c <> -1 -> setByParse pm c).
Proof.
  assert (Hnoop : forall cmd (w : W),
    externalCommandID cmd = -1 -> executeCommand pm cmd w = mkOutcome (Some tt) w []).
  { intros cmd w Hid. unfold executeCommand. rewrite Hid. reflexivity. }
  split_and!.
  - exact Hnoop.
  - intros cmd w Hev Hid. rewrite (Hnoop cmd w Hid) in Hev. now apply Hev.
  - intros r doc w o Hok Hinit st c Hst Hc Hid. subst o.
    destruct (load_spec toFloat atoi ftoi_r pm r doc w)
      as [(_ & Hf & _) | [(_ & Hf & _) | [(_ & Hf & _)
         | (_ & _ & root & sts & _ & _ & _ & _ & Hs & [_ Hall] & _)]]];
      try congruence.
    rewrite Hs in Hst. apply in_app_or in Hst.
    assert (Hcmds : Forall (commandOk pm) (commands st)).
    { destruct Hst as [Hst|Hst].
      - rewrite List.Forall_forall in Hinit. now apply Hinit.
      - rewrite List.Forall_forall in Hall. now apply Hall. }
    rewrite List.Forall_forall in Hcmds.
    destruct (Hcmds c Hc) as [Hm1|Hset]; [congruence|exact Hset].
Qed.

(** C7.  After a successful load of a resource that held no stage, the stage
    compiled from the i-th Stage node is disabled exactly when the node has
    an [enabled] attribute equal to "false" or "0" up to case; otherwise,
    and without the attribute, it is enabled.  [getElemParamI] reports the
    flag of stage i as 0 or 1. *)
Theorem stage_enabled_flag pm r root (w : W) (i : nat) (node : XMLNode) :
  let o := load toFloat atoi ftoi_r pm r (Some root) w in
  fst (value o) = true ->
  _stages r = [] ->
  stageNodes root !! i = Some node ->
  Z.of_nat i < 2 ^ 31 ->
  exists st,
    _stages (snd (value o)) !! i = Some st /\
    (enabled st = false <->
     exists v, XML.getAttribute node "enabled" = Some v /\
               (equalsIgnoreCase v "false" \/ equalsIgnoreCase v "0")) /\
    forall w' : W,
      getElemParamI StageElem StageActivationI (snd (value o))
        StageElem (Z.of_nat i) StageActivationI w'
      = mkOutcome (Some (if enabled st then 1 else 0)) w' [].
Proof.
  intros o Hok Hempty Hnode Hi. subst o.
  destruct (load_spec toFloat atoi ftoi_r pm r (Some root) w)
    as [(_ & Hf & _) | [(_ & Hf & _) | [(_ & Hf & _)
       | (_ & _ & root' & sts & [= <-] & _ & _ & _ & Hs & [Hmap _] & _)]]];
    try congruence.
  rewrite Hempty in Hs. cbn [app] in Hs.
  assert (Hlook : map enabled sts !! i = Some (enabledAttr node)).
  { rewrite Hmap, lookup_map, Hnode. reflexivity. }
  rewrite lookup_map in Hlook.
  destruct (sts !! i) as [st|] eqn:Hst; [|discriminate].
  injection Hlook as Hen.
  exists st. rewrite Hs. split_and!; [exact Hst|now rewrite Hen, enabledAttr_false|].
  intros w'. pose proof (lookup_length _ _ _ Hst) as Hlt.
  unfold getElemParamI, inStages, stageAt, Int.to_uint32, Int.to_size_t.
  rewrite Hs, Z.eqb_refl, !Z.mod_small by lia.
  rewrite Nat2Z.id, Hst, Z.eqb_refl.
  destruct (Z.of_nat i <? Z.of_nat (length sts)) eqn:Hlt'; [reflexivity|].
  apply Z.ltb_ge in Hlt'. lia.
Qed.

(** C3 (amended).  A SwitchTarget node must carry the attribute [target]:
    without it the node answers with a missing-attribute message.  An empty
    [target] selects the default backbuffer (a null render-target
    parameter), a [target] naming a declared render target selects that
    target, and a non-empty [target] naming no declared render target is an
    error. *)
Theorem switchTarget_rule pm r node1 st (w : W) :
  XML.getName node1 = "SwitchTarget" ->
  let o := parseCommandNode toFloat atoi pm r node1 st w in
  match XML.getAttribute node1 "target" with
  | None => o = mkOutcome (inl "Missing SwitchTarget attribute 'target'") w []
  | Some target =>
      (target = "" ->
       o = mkOutcome
             (inr (push_command st
                     (withParams DefaultPipelineCommands.SwitchTarget [PtrParam None])))
             w []) /\
      (target <> "" ->
       Forall (fun rt => rt_id rt <> target) (_renderTargets r) ->
       o = mkOutcome (inl "Reference to undefined render target in SwitchTarget") w []) /\
      (target <> "" ->
       Exists (fun rt => rt_id rt = target) (_renderTargets r) ->
       exists i rt,
         _renderTargets r !! i = Some rt /\ rt_id rt = target /\
         o = mkOutcome
               (inr (push_command st
                       (withParams DefaultPipelineCommands.SwitchTarget
                          [PtrParam (Some i)])))
               w [])
  end.
Proof.
  intros Hname o. subst o. unfold parseCommandNode.
  rewrite Hname, !strcmp_eqb.
  change (String.eqb "SwitchTarget" "SwitchTarget") with true. cbv iota.
  destruct (XML.getAttribute node1 "target") as [target|]; [|reflexivity].
  rewrite strcmp_eqb. unfold findRenderTarget.
  split_and!.
  - intros ->. reflexivity.
  - intros Hne Hall. apply String.eqb_neq in Hne. rewrite Hne. cbn [negb].
    now rewrite findRenderTarget_loop_None.
  - intros Hne Hex. apply String.eqb_neq in Hne. rewrite Hne. cbn [negb].
    destruct (findRenderTarget_loop_Some 0 _ _ Hex) as (j & rt & -> & Hl & Hid).
    exists j, rt. now split_and!.
Qed.

(** C4 (amended).  The width [createRenderTargets] asks of the device for a
    render target is round(declaredWidth x scale) whenever that rounded
    product is non-zero, whatever the base width is, and
    round(baseWidth x scale) whenever the rounded product is zero, which for
    a finite scale includes every target declared with width 0; the same
    rule holds for the height.  A successful call asks for every target. *)
Theorem realized_extent_rule r (w : W) (i : nat) (rt : RenderTarget) (wd ht : Z) :
  let o := createRenderTargets ftoi_r r w in
  _renderTargets r !! i = Some rt ->
  requests (events o) !! i = Some (wd, ht) ->
  wd = (if rounded ftoi_r (rt_width rt) (scale rt) =? 0
        then rounded ftoi_r (_baseWidth r) (scale rt)
        else rounded ftoi_r (rt_width rt) (scale rt)) /\
  ht = (if rounded ftoi_r (rt_height rt) (scale rt) =? 0
        then rounded ftoi_r (_baseHeight r) (scale rt)
        else rounded ftoi_r (rt_height rt) (scale rt)) /\
  ((forall s, ftoi_r (S754_zero s) = 0) -> F32.is_finite (scale rt) = true ->
   (rt_width rt = 0 -> wd = rounded ftoi_r (_baseWidth r) (scale rt)) /\
   (rt_height rt = 0 -> ht = rounded ftoi_r (_baseHeight r) (scale rt))) /\
  (fst (value o) = true ->
   length (requests (events o)) = length (_renderTargets r)).
Proof.
  intros o Hrt Hreq. subst o.
  destruct (createRenderTargets_spec ftoi_r r w) as (_ & _ & _ & _ & [k Hk] & Hok & _).
  rewrite Hk in Hreq. apply lookup_take_inv in Hreq.
  rewrite lookup_map, Hrt in Hreq. injection Hreq as <- <-.
  assert (Hzero : (forall s, ftoi_r (S754_zero s) = 0) -> F32.is_finite (scale rt) = true ->
                  rounded ftoi_r 0 (scale rt) = 0).
  { intros Hz Hfin. unfold rounded.
    destruct (scale rt) as [s| | |s m e]; try discriminate; cbn; now rewrite Hz. }
  split_and!; try reflexivity.
  - intros Hz Hfin. unfold realizedExtent. fold (rounded ftoi_r (rt_width rt) (scale rt)).
    fold (rounded ftoi_r (rt_height rt) (scale rt)).
    split; intros ->; rewrite (Hzero Hz Hfin); reflexivity.
  - intros Hsucc. destruct (Hok Hsucc) as (-> & _). now rewrite length_map.
Qed.

End Specification.

(** * The properties on the sample engine *)

(** Each kind of error, on a sample description: [load] answers false and
    leaves the fresh default state behind. *)
Example load_xml_error :
  value (Scenario.load None 8) = (false, newPipelineResource (Sample.mkBase "pipe" true)).
Proof. reflexivity. Qed.

Example load_not_a_pipeline :
  value (Scenario.load (Some Scenario.notAPipeline) 8)
  = (false, newPipelineResource (Sample.mkBase "pipe" true)).
Proof. reflexivity. Qed.

Example load_unknown_format :
  value (Scenario.load (Some Scenario.unknownFormat) 8)
  = (false, newPipelineResource (Sample.mkBase "pipe" true)).
Proof. reflexivity. Qed.

Example load_dangling_target :
  value (Scenario.load (Some Scenario.danglingTarget) 8)
  = (false, newPipelineResource (Sample.mkBase "pipe" true)).
Proof. reflexivity. Qed.

Example load_rejected_by_callback :
  Scenario.load (Some Scenario.rejected) 8
  = mkOutcome (false, newPipelineResource (Sample.mkBase "pipe" true)) (Sample.world 8)
      [CallParseFunc 1 "Broken";
       WriteError "Pipeline resource 'pipe': Error in stage 'Ext': Broken is not supported"].
Proof. reflexivity. Qed.

Example load_device_failure :
  events (Scenario.load (Some Scenario.deferred) 1)
  = [CallParseFunc 0 "Sky";
     CreateRenderBuffer 160 120 BGRA8 true 2 0 0 1;
     CreateRenderBuffer 64 16 RGBA16F false 1 0 0 0;
     DestroyRenderBuffer 1;
     WriteError "Pipeline resource 'pipe': Failed to create render target"] /\
  value (Scenario.load (Some Scenario.deferred) 1)
  = (false, newPipelineResource (Sample.mkBase "pipe" true)).
Proof. split; reflexivity. Qed.

Example load_deferred :
  fst (value (Scenario.load (Some Scenario.deferred) 8)) = true /\
  requests (events (Scenario.load (Some Scenario.deferred) 8)) = [(160, 120); (64, 16)] /\
  map enabled (_stages (snd (value (Scenario.load (Some Scenario.deferred) 8))))
  = [false; true].
Proof. split_and!; reflexivity. Qed.


Example short_bindBuffer_message :
  events (Scenario.load (Some Scenario.shortBindBuffer) 8)
  = [WriteError
       "Pipeline resource 'pipe': Error in stage 'Combine': Missing BindBuffer attribute"].
Proof. reflexivity. Qed.

Lemma resize_round_trip_witness :
  let o1 := Scenario.load (Some Scenario.deferred) 8 in
  let o2 := resize Sample.ftoi_r (snd (value o1)) 1024 768 (after o1) in
  let o3 := resize Sample.ftoi_r (value o2) 320 240 (after o2) in
  fst (value o1) = true /\
  requests (events o2) = [(512, 384); (64, 16)] /\
  length (requests (events o1)) = length (_renderTargets (snd (value o1))) /\
  (exists k, requests (events o3) = take k (requests (events o1))) /\
  (Forall (fun rt => rendBuf rt <> 0) (_renderTargets (value o3)) ->
   requests (events o3) = requests (events o1)).
Proof.
  split; [reflexivity|]. split; [reflexivity|].
  apply (resize_round_trip Sample.toFloat Sample.atoi Sample.ftoi_r Scenario.registry Sample.fresh
           (Some Scenario.deferred) (Sample.world 8) 1024 768).
  reflexivity.
Defined.

Lemma resize_ignores_failure_witness :
  let r := snd (value (Scenario.load (Some Scenario.deferred) 2)) in
  let w := Sample.mkWorld 3 1 [] [] [] 0 in
  let o := resize Sample.ftoi_r r 1024 768 w in
  existsb isFailedCreate (events o) = true /\
  _baseWidth (value o) = 1024 /\ _baseHeight (value o) = 768 /\
  _stages (value o) = _stages r /\
  map declaration (_renderTargets (value o)) = map declaration (_renderTargets r) /\
  existsb isWriteError (events o) = false /\
  Exists (fun rt => rendBuf rt = 0) (_renderTargets (value o)).
Proof.
  intros r w o.
  pose proof (resize_ignores_failure Sample.ftoi_r r 1024 768 w)
    as (Hw & Hh & Hs & Hd & He & Hf).
  split; [reflexivity|]. split; [exact Hw|]. split; [exact Hh|]. split; [exact Hs|].
  split; [exact Hd|]. split; [exact He|]. apply Hf. reflexivity.
Defined.

Lemma introspection_out_of_range_witness :
  let r := snd (value (Scenario.load (Some Scenario.deferred) 8)) in
  Int.is_int32 (-1) /\ Z.of_nat (length (_stages r)) < 2 ^ 31 /\
  ~ (0 <= -1 < Z.of_nat (length (_stages r))) /\
  forall r',
    value (setElemParamI Sample.StageElem Sample.StageActivationI r
             Sample.StageElem (-1) Sample.StageActivationI 0 (Sample.world 8)) = Some r' ->
    _stages r' = _stages r.
Proof.
  intros r.
  assert (H1 : Int.is_int32 (-1)) by (unfold Int.is_int32; lia).
  assert (H2 : Z.of_nat (length (_stages r)) < 2 ^ 31) by (vm_compute; reflexivity).
  assert (H3 : ~ (0 <= -1 < Z.of_nat (length (_stages r)))) by lia.
  split; [exact H1|]. split; [exact H2|]. split; [exact H3|].
  apply (introspection_out_of_range Sample.StageElem Sample.StageNameStr
           Sample.StageActivationI r Sample.StageElem (-1) Sample.StageActivationI 0
           (Sample.world 8) H1 H2 H3).
Defined.

Lemma execute_only_registered_witness :
  let o := Scenario.load (Some Scenario.deferred) 8 in
  executeCommand Scenario.registry
    (newPipelineCommand DefaultPipelineCommands.ExternalCommand) (Sample.world 8)
  = mkOutcome (Some tt) (Sample.world 8) [] /\
  forall st c, In st (_stages (snd (value o))) -> In c (commands st) ->
               externalCommandID c <> -1 -> setByParse Scenario.registry c.
Proof.
  intros o.
  pose proof (execute_only_registered Sample.toFloat Sample.atoi Sample.ftoi_r Scenario.registry)
    as (Hnoop & _ & Hload).
  split; [apply Hnoop; reflexivity|].
  apply (Hload Sample.fresh (Some Scenario.deferred) (Sample.world 8)); [reflexivity|].
  constructor.
Defined.

Example sky_is_dispatched :
  let o := Scenario.load (Some Scenario.deferred) 8 in
  map (fun st => map externalCommandID (commands st)) (_stages (snd (value o)))
  = [[-1; -1; -1]; [-1; -1; 0; -1]] /\
  events (executeCommand Scenario.registry
            (set_externalCommandID
               (newPipelineCommand DefaultPipelineCommands.ExternalCommand) 0)
            (Sample.world 8))
  = [CallExecuteFunc 0].
Proof. split; reflexivity. Qed.

Lemma stage_enabled_flag_witness :
  let o := Scenario.load (Some Scenario.deferred) 8 in
  fst (value o) = true /\ _stages Sample.fresh = [] /\
  stageNodes Scenario.deferred !! 0%nat = Some Scenario.geometryStage /\
  Z.of_nat 0 < 2 ^ 31 /\
  XML.getAttribute Scenario.geometryStage "enabled" = Some "FALSE" /\
  exists st,
    _stages (snd (value o)) !! 0%nat = Some st /\
    (enabled st = false <->
     exists v, XML.getAttribute Scenario.geometryStage "enabled" = Some v /\
               (equalsIgnoreCase v "false" \/ equalsIgnoreCase v "0")) /\
    forall w' : Sample.World,
      getElemParamI Sample.StageElem Sample.StageActivationI (snd (value o))
        Sample.StageElem (Z.of_nat 0) Sample.StageActivationI w'
      = mkOutcome (Some (if enabled st then 1 else 0)) w' [].
Proof.
  intros o. split; [reflexivity|]. split; [reflexivity|]. split; [reflexivity|].
  split; [lia|]. split; [reflexivity|].
  apply (stage_enabled_flag Sample.toFloat Sample.atoi Sample.ftoi_r Sample.StageElem
           Sample.StageActivationI Scenario.registry Sample.fresh Scenario.deferred
           (Sample.world 8) 0%nat Scenario.geometryStage);
    [reflexivity|reflexivity|reflexivity|lia].
Defined.

Example disabled_stage_reports_zero :
  let r := snd (value (Scenario.load (Some Scenario.deferred) 8)) in
  value (getElemParamI Sample.StageElem Sample.StageActivationI r
           Sample.StageElem 0 Sample.StageActivationI (Sample.world 8)) = Some 0 /\
  value (getElemParamI Sample.StageElem Sample.StageActivationI r
           Sample.StageElem 1 Sample.StageActivationI (Sample.world 8)) = Some 1.
Proof. split; reflexivity. Qed.

(** C3, as stated, fails: a SwitchTarget node without [target] does not
    select the backbuffer; the load is aborted with a missing-attribute
    error. *)
Lemma switchTarget_without_target_fails :
  let o := Scenario.load (Some Scenario.bareSwitchTarget) 8 in
  XML.getAttribute (XNode "SwitchTarget" [] []) "target" = None /\
  value o = (false, newPipelineResource (Sample.mkBase "pipe" true)) /\
  events o
  = [WriteError ("Pipeline resource 'pipe': Error in stage 'Back': " +:+
                 "Missing SwitchTarget attribute 'target'")].
Proof. split_and!; reflexivity. Qed.

Lemma switchTarget_rule_witness :
  let node1 := XNode "SwitchTarget" [("target", "")] [] in
  XML.getName node1 = "SwitchTarget" /\
  parseCommandNode Sample.toFloat Sample.atoi Scenario.registry Sample.fresh node1 newPipelineStage
    (Sample.world 8)
  = mkOutcome
      (inr (push_command newPipelineStage
              (withParams DefaultPipelineCommands.SwitchTarget [PtrParam None])))
      (Sample.world 8) [].
Proof.
  intros node1. split; [reflexivity|].
  apply (switchTarget_rule Sample.toFloat Sample.atoi Scenario.registry Sample.fresh node1
           newPipelineStage (Sample.world 8) eq_refl).
  reflexivity.
Defined.

(** C4, as stated, fails: a target declared one pixel wide at scale 0.25 has
    a non-zero declared width, yet the width asked of the device is
    round(320 x 0.25) = 80, not round(1 x 0.25) = 0. *)
Lemma sliver_takes_base_width :
  rt_width Scenario.sliver <> 0 /\
  _baseWidth Scenario.withSliver = 320 /\
  rounded Sample.ftoi_r (rt_width Scenario.sliver) (scale Scenario.sliver) = 0 /\
  events (createRenderTargets Sample.ftoi_r Scenario.withSliver (Sample.world 8))
  = [CreateRenderBuffer 80 16 BGRA8 false 1 0 0 1] /\
  80 <> rounded Sample.ftoi_r (rt_width Scenario.sliver) (scale Scenario.sliver).
Proof. split_and!; try reflexivity; discriminate. Qed.

Lemma realized_extent_rule_witness :
  let o := createRenderTargets Sample.ftoi_r Scenario.withBoth (Sample.world 8) in
  _renderTargets Scenario.withBoth !! 1%nat = Some Scenario.halfSize /\
  requests (events o) !! 1%nat = Some (160, 120) /\
  rt_width Scenario.halfSize = 0 /\ rt_height Scenario.halfSize = 0 /\
  160 = rounded Sample.ftoi_r 320 (scale Scenario.halfSize) /\
  120 = rounded Sample.ftoi_r 240 (scale Scenario.halfSize) /\
  length (requests (events o)) = length (_renderTargets Scenario.withBoth).
Proof.
  intros o.
  pose proof (realized_extent_rule Sample.ftoi_r Scenario.withBoth (Sample.world 8)
                1%nat Scenario.halfSize 160 120 eq_refl eq_refl) as (_ & _ & Hzero & Hall).
  destruct (Hzero (fun s => eq_refl) eq_refl) as [Hw Hh].
  split; [reflexivity|]. split; [reflexivity|]. split; [reflexivity|].
  split; [reflexivity|]. split; [exact (Hw eq_refl)|]. split; [exact (Hh eq_refl)|].
  apply Hall. reflexivity.
Defined.

(** C2, on the code: with a registry that holds other commands, the Fog node
    is not skipped; a command of kind ExternalCommand with index -1 is
    appended for it.  With an empty registry the node is skipped.  In both
    cases the nodes after it are compiled. *)
Theorem unknown_command_is_appended :
  isBuiltin "Fog" = false /\
  unregistered Scenario.registry "Fog" /\
  map commands
    (_stages (snd (value (Scenario.load (Some Scenario.unknownCommand) 8))))
  = [[newPipelineCommand DefaultPipelineCommands.ExternalCommand;
      newPipelineCommand DefaultPipelineCommands.UnbindBuffers]] /\
  map commands
    (_stages (snd (value (load Sample.toFloat Sample.atoi Sample.ftoi_r [] Sample.fresh
                            (Some Scenario.unknownCommand) (Sample.world 8)))))
  = [[newPipelineCommand DefaultPipelineCommands.UnbindBuffers]].
Proof.
  split_and!; try reflexivity.
  repeat constructor; discriminate.
Qed.

(** * Further properties of the code *)

(** ** Look-up of render targets *)

Section TargetLookup.
Context {B : Type}.
Implicit Types (r : PipelineResource B).

Lemma findRenderTarget_loop_iff (k : nat) (rts : list RenderTarget) (id : string) (i : nat) :
  findRenderTarget_loop k rts id = Some i <-> (k <= i)%nat /\ firstWithId rts id (i - k).
Proof.
  revert k. induction rts as [|rt rts IH]; intros k.
  - cbn. split; [discriminate|]. intros [_ [(rt & Hl & _) _]]. discriminate.
  - cbn [findRenderTarget_loop]. destruct (String.eqb (rt_id rt) id) eqn:Hid.
    + apply String.eqb_eq in Hid. split.
      * intros [= <-]. rewrite Nat.sub_diag. split; [lia|]. split.
        -- exists rt. now split.
        -- intros j rt' Hj. lia.
      * intros [Hk [_ Hmin]]. f_equal.
        destruct (i - k)%nat as [|n] eqn:Hn; [lia|].
        destruct (Hmin 0%nat rt); [lia|reflexivity|exact Hid].
    + apply String.eqb_neq in Hid. rewrite IH. split.
      * intros [Hk [(rt' & Hl & Hr) Hmin]].
        split; [lia|]. replace (i - k)%nat with (S (i - S k)) by lia. split.
        -- exists rt'. now split.
        -- intros [|j] rt'' Hj Hl'; [now injection Hl' as <-|].
           apply (Hmin j); [lia|exact Hl'].
      * intros [Hk [(rt' & Hl & Hr) Hmin]].
        destruct (i - k)%nat as [|n] eqn:Hn.
        -- injection Hl as <-. contradiction.
        -- replace (i - S k)%nat with n by lia. split; [lia|]. split.
           ++ exists rt'. now split.
           ++ intros j rt'' Hj Hl'. apply (Hmin (S j)); [lia|exact Hl'].
Qed.

Lemma findRenderTarget_loop_None_iff (k : nat) (rts : list RenderTarget) (id : string) :
  findRenderTarget_loop k rts id = None <-> Forall (fun rt => rt_id rt <> id) rts.
Proof.
  split; [|apply findRenderTarget_loop_None].
  revert k. induction rts as [|rt rts IH]; intros k; [constructor|].
  cbn. destruct (String.eqb (rt_id rt) id) eqn:Hid; [discriminate|].
  apply String.eqb_neq in Hid. intros Hn. constructor; [exact Hid|now apply (IH (S k))].
Qed.

Lemma findRenderTarget_loop_app (k : nat) (rts : list RenderTarget) (x : RenderTarget)
    (id : string) :
  findRenderTarget_loop k (rts ++ [x]) id
  = match findRenderTarget_loop k rts id with
    | Some i => Some i
    | None => if String.eqb (rt_id x) id then Some (k + length rts)%nat else None
    end.
Proof.
  revert k. induction rts as [|rt rts IH]; intros k.
  - cbn. now rewrite Nat.add_0_r.
  - cbn. destruct (String.eqb (rt_id rt) id); [reflexivity|].
    rewrite IH. replace (S k + length rts)%nat with (k + S (length rts))%nat by lia.
    reflexivity.
Qed.

Lemma findRenderTarget_first_core r (id : string) :
  findRenderTarget r id = None <->
  id = "" \/ Forall (fun rt => rt_id rt <> id) (_renderTargets r).
Proof.
  unfold findRenderTarget. destruct (String.eqb id "") eqn:Hid.
  - apply String.eqb_eq in Hid. split; [now left|reflexivity].
  - apply String.eqb_neq in Hid. rewrite findRenderTarget_loop_None_iff.
    split; [now right|]. intros [Hempty|Hall]; [contradiction|exact Hall].
Qed.

Lemma findRenderTarget_cases r (id : string) (i : nat) :
  findRenderTarget r id = Some i <-> id <> "" /\ firstWithId (_renderTargets r) id i.
Proof.
  unfold findRenderTarget. destruct (String.eqb id "") eqn:Hid.
  - apply String.eqb_eq in Hid. split; [discriminate|]. now intros [Hne _].
  - apply String.eqb_neq in Hid. rewrite findRenderTarget_loop_iff, Nat.sub_0_r. split.
    + intros [_ Hf]. now split.
    + intros [_ Hf]. split; [lia|exact Hf].
Qed.

(** X1.  [findRenderTarget] answers the first render target declared under
    the identifier: the pointer it returns is the least index whose target
    has that identifier, and it is null exactly for the empty identifier and
    for an identifier no target has. *)
Theorem findRenderTarget_first r (id : string) :
  (forall i, findRenderTarget r id = Some i <->
             id <> "" /\ firstWithId (_renderTargets r) id i) /\
  (findRenderTarget r id = None <->
   id = "" \/ Forall (fun rt => rt_id rt <> id) (_renderTargets r)).
Proof.
  split; [intros i; apply findRenderTarget_cases|apply findRenderTarget_first_core].
Qed.

(** X2.  Declaring one more render target leaves every pointer that
    [findRenderTarget] answered as it was; the new target is found, at the
    end of the sequence, only under a non-empty identifier that no earlier
    target has. *)
Theorem addRenderTarget_lookup r (id' : string) (depthBuf : bool) (numColBufs : Z)
    (fmt : TextureFormat) (samples width height : Z) (scale : F32.float) (id : string) :
  findRenderTarget
    (addRenderTarget r id' depthBuf numColBufs fmt samples width height scale) id
  = match findRenderTarget r id with
    | Some i => Some i
    | None =>
        if String.eqb id' id && negb (String.eqb id "")
        then Some (length (_renderTargets r))
        else None
    end.
Proof.
  unfold findRenderTarget, addRenderTarget. cbn [_renderTargets set_renderTargets].
  destruct (String.eqb id "") eqn:Hid; [now rewrite andb_false_r|].
  rewrite findRenderTarget_loop_app, andb_true_r. reflexivity.
Qed.

End TargetLookup.

(** ** The registry: first match, registration, dispatch *)

Section RegistryMore.
Context {W : Type}.
Implicit Types (pm : ExternalPipelineCommandsManager W).

Lemma parseCommand_loop_skip (k : nat) (pre rest : list (PipelineCommandRegEntry W))
    name node cmd success :
  unregistered pre name ->
  parseCommand_loop k (pre ++ rest) name node cmd success
  = parseCommand_loop (k + length pre) rest name node cmd success.
Proof.
  intros Hun. revert k. induction Hun as [|entry pre Hentry _ IH]; intros k.
  - cbn. now rewrite Nat.add_0_r.
  - cbn [app parseCommand_loop length].
    replace (k + S (length pre))%nat with (S k + length pre)%nat by lia.
    destruct Hentry as [Hname| ->].
    + apply String.eqb_neq in Hname. rewrite Hname. apply IH.
    + destruct (String.eqb (comNameString entry) name); apply IH.
Qed.

Lemma firstEntry_split pm name i entry pf :
  firstEntry pm name i entry pf ->
  pm = take i pm ++ entry :: drop (S i) pm /\ length (take i pm) = i.
Proof.
  intros (Hl & _). split; [symmetry; now apply take_drop_middle|].
  apply lookup_length in Hl. rewrite length_take. lia.
Qed.

Lemma parseCommand_first_match_core pm name (i : nat) entry pf node cmd success (w : W) :
  firstEntry pm name i entry pf ->
  parseCommand pm name node cmd success w
  = mkOutcome
      (if String.eqb (fst (fst (pf name node cmd w))) ""
       then (fst (fst (pf name node cmd w)),
             set_externalCommandID (snd (fst (pf name node cmd w)))
               (Int.to_int32 (Z.of_nat i)),
             success)
       else (fst (fst (pf name node cmd w)), snd (fst (pf name node cmd w)), false))
      (snd (pf name node cmd w))
      [CallParseFunc i name].
Proof.
  intros Hfirst. destruct (firstEntry_split _ _ _ _ _ Hfirst) as [Hpm Hlen].
  destruct Hfirst as (_ & Hname & Hpf & Hun).
  unfold parseCommand. rewrite Hpm, parseCommand_loop_skip by exact Hun.
  rewrite Hlen. cbn [Nat.add parseCommand_loop].
  apply String.eqb_eq in Hname. rewrite Hname, Hpf.
  unfold bind, emit, call, ret. cbn [value after events].
  destruct (pf name node cmd w) as [[msg cmd'] w']. cbn [fst snd].
  rewrite length_zero_eqb. destruct (String.eqb msg ""); reflexivity.
Qed.

(** X3.  [parseCommand] consults the first registry entry that carries the
    node's name and a parse callback, and no other: that callback is called
    once; if it answers the empty message the command gets the index of that
    entry, whatever the callback wrote there, and [success] stays as it was;
    otherwise the message is passed on and [success] is cleared. *)
Theorem parseCommand_first_match pm name (i : nat) entry pf node cmd success (w : W) :
  firstEntry pm name i entry pf ->
  parseCommand pm name node cmd success w
  = mkOutcome
      (if String.eqb (fst (fst (pf name node cmd w))) ""
       then (fst (fst (pf name node cmd w)),
             set_externalCommandID (snd (fst (pf name node cmd w)))
               (Int.to_int32 (Z.of_nat i)),
             success)
       else (fst (fst (pf name node cmd w)), snd (fst (pf name node cmd w)), false))
      (snd (pf name node cmd w))
      [CallParseFunc i name].
Proof. apply parseCommand_first_match_core. Qed.

Lemma unregistered_app (l1 l2 : list (PipelineCommandRegEntry W)) name :
  unregistered (l1 ++ l2) name <-> unregistered l1 name /\ unregistered l2 name.
Proof. apply Forall_app. Qed.

Lemma take_app_keep {A : Type} (l l' : list A) (i : nat) :
  (i <= length l)%nat -> take i (l ++ l') = take i l.
Proof.
  revert i. induction l as [|x l IH]; intros [|i] Hi; cbn in *; try reflexivity; try lia.
  f_equal. apply IH. lia.
Qed.

Lemma lookup_app_keep {A : Type} (l l' : list A) (i : nat) (x : A) :
  l !! i = Some x -> (l ++ l') !! i = Some x.
Proof.
  revert i. induction l as [|y l IH]; intros [|i]; cbn; try discriminate; auto.
Qed.

Lemma lookup_app_end {A : Type} (l : list A) (x : A) : (l ++ [x]) !! length l = Some x.
Proof. induction l as [|y l IH]; cbn; auto. Qed.

(** X4.  A registration that passes its assertions appends one entry: the
    count grows by one, every entry keeps its index, a name that was
    registered keeps resolving to the same entry (a second registration of a
    name is never consulted), a new name resolves to the new entry, and a
    command that carries an index written by an earlier parse still does. *)
Theorem registration_extends pm pm' name pf ef :
  registerPipelineCommand pm name pf ef = Some pm' ->
  name <> "" /\
  registeredCommandsCount pm' = registeredCommandsCount pm + 1 /\
  (forall i entry, pm !! i = Some entry -> pm' !! i = Some entry) /\
  (forall name' i entry pf',
     firstEntry pm name' i entry pf' -> firstEntry pm' name' i entry pf') /\
  (unregistered pm name ->
   exists p, pf = Some p /\
             firstEntry pm' name (length pm) (mkRegEntry name pf ef) p) /\
  (forall c, setByParse pm c -> setByParse pm' c).
Proof.
  unfold registerPipelineCommand.
  destruct (String.eqb name "") eqn:Hname; [discriminate|].
  destruct pf as [p|]; [|destruct ef; discriminate].
  destruct ef as [e|]; [|discriminate].
  intros [= <-]. apply String.eqb_neq in Hname.
  split_and!.
  - exact Hname.
  - unfold registeredCommandsCount. rewrite length_app. cbn. lia.
  - intros i entry. apply lookup_app_keep.
  - intros name' i entry pf' (Hl & Hn & Hp & Hun).
    split_and!; try done; [now apply lookup_app_keep|].
    rewrite take_app_keep; [exact Hun|]. apply lookup_length in Hl. lia.
  - intros Hun. exists p. split; [reflexivity|].
    split_and!; try reflexivity; [apply lookup_app_end|].
    rewrite take_app_keep by lia. now rewrite firstn_all.
  - intros c (i & entry & pf' & node & c0 & c' & w & w' & Hl & Hp & Hcall & Hc).
    exists i, entry, pf', node, c0, c', w, w'.
    split_and!; try done. now apply lookup_app_keep.
Qed.

Lemma executeCommand_dispatch_core pm :
  (forall cmd (i : nat) entry ef (w : W),
     pm !! i = Some entry -> executeFunc entry = Some ef ->
     Int.is_int32 (externalCommandID cmd) ->
     externalCommandID cmd = Z.of_nat i ->
     executeCommand pm cmd w = mkOutcome (Some tt) (ef cmd w) [CallExecuteFunc i]) /\
  (forall cmd (w : W),
     Int.is_int32 (externalCommandID cmd) -> externalCommandID cmd <> -1 ->
     Z.of_nat (length pm) < 2 ^ 63 ->
     externalCommandID cmd < 0 \/ Z.of_nat (length pm) <= externalCommandID cmd ->
     executeCommand pm cmd w = mkOutcome None w []).
Proof.
  split.
  - intros cmd i entry ef w Hl Hef Hint Hid.
    unfold executeCommand, Int.is_int32 in *. rewrite Hid in *.
    destruct (Z.of_nat i =? -1) eqn:Hm1; [apply Z.eqb_eq in Hm1; lia|].
    cbn [negb]. unfold Int.to_size_t.
    rewrite Z.mod_small by lia. rewrite Nat2Z.id, Hl, Hef. reflexivity.
  - intros cmd w Hint Hne Hlen Hout.
    unfold executeCommand, Int.is_int32 in *.
    apply Z.eqb_neq in Hne. rewrite Hne. cbn [negb]. unfold Int.to_size_t. cbv zeta.
    assert (Hnone : pm !! Z.to_nat (externalCommandID cmd mod 2 ^ 64) = None).
    { apply lookup_ge_None_2. destruct Hout as [Hneg|Hbig].
      - replace (externalCommandID cmd mod 2 ^ 64) with (externalCommandID cmd + 2 ^ 64);
          [lia|]. apply Z.mod_unique with (-1); lia.
      - rewrite Z.mod_small by lia. lia. }
    rewrite Hnone. reflexivity.
Qed.

(** X5.  [executeCommand] on a command whose index names a registry entry
    calls the execute callback of that entry, once, on that command, and
    nothing else.  An index other than -1 that names no entry makes it read
    outside the registry. *)
Theorem executeCommand_dispatch pm :
  (forall cmd (i : nat) entry ef (w : W),
     pm !! i = Some entry -> executeFunc entry = Some ef ->
     Int.is_int32 (externalCommandID cmd) ->
     externalCommandID cmd = Z.of_nat i ->
     executeCommand pm cmd w = mkOutcome (Some tt) (ef cmd w) [CallExecuteFunc i]) /\
  (forall cmd (w : W),
     Int.is_int32 (externalCommandID cmd) -> externalCommandID cmd <> -1 ->
     Z.of_nat (length pm) < 2 ^ 63 ->
     externalCommandID cmd < 0 \/ Z.of_nat (length pm) <= externalCommandID cmd ->
     executeCommand pm cmd w = mkOutcome None w []).
Proof. exact (executeCommand_dispatch_core pm). Qed.

(** X6.  Parse and dispatch agree: a command that [parseCommand] accepted
    through entry [i] of the registry is executed by the execute callback of
    that same entry. *)
Theorem parse_then_execute pm name (i : nat) entry pf ef node cmd (w w' : W) :
  firstEntry pm name i entry pf ->
  fst (fst (pf name node cmd w)) = "" ->
  executeFunc entry = Some ef ->
  Z.of_nat i < 2 ^ 31 ->
  let parsed := snd (fst (value (parseCommand pm name node cmd true w))) in
  snd (value (parseCommand pm name node cmd true w)) = true /\
  externalCommandID parsed = Z.of_nat i /\
  executeCommand pm parsed w' = mkOutcome (Some tt) (ef parsed w') [CallExecuteFunc i].
Proof.
  intros Hfirst Hmsg Hef Hi parsed. subst parsed.
  rewrite (parseCommand_first_match_core _ _ _ _ _ _ _ _ _ Hfirst), Hmsg.
  cbn [value fst snd String.eqb].
  assert (Hid : Int.to_int32 (Z.of_nat i) = Z.of_nat i).
  { unfold Int.to_int32. rewrite Z.mod_small by lia. lia. }
  split_and!; [reflexivity|exact Hid|].
  destruct Hfirst as (Hl & _).
  apply (proj1 (executeCommand_dispatch_core pm) _ i entry ef w' Hl Hef).
  - cbn. rewrite Hid. unfold Int.is_int32. lia.
  - exact Hid.
Qed.

End RegistryMore.

(** ** Device objects: release, resize and load *)

Lemma created_app (l1 l2 : list Event) : created (l1 ++ l2) = created l1 ++ created l2.
Proof.
  induction l1 as [|e l1 IH]; [reflexivity|]. destruct e; cbn; now rewrite IH.
Qed.

Lemma destroyed_app (l1 l2 : list Event) :
  destroyed (l1 ++ l2) = destroyed l1 ++ destroyed l2.
Proof.
  induction l1 as [|e l1 IH]; [reflexivity|]. destruct e; cbn; now rewrite IH.
Qed.

Lemma destroyed_map (rbs : list Z) : destroyed (map DestroyRenderBuffer rbs) = rbs.
Proof. induction rbs as [|rb rbs IH]; cbn; now rewrite ?IH. Qed.

Lemma created_map_destroy (rbs : list Z) : created (map DestroyRenderBuffer rbs) = [].
Proof. induction rbs as [|rb rbs IH]; cbn; now rewrite ?IH. Qed.

Lemma requests_map_destroy (rbs : list Z) : requests (map DestroyRenderBuffer rbs) = [].
Proof. induction rbs as [|rb rbs IH]; cbn; now rewrite ?IH. Qed.

Lemma quiet_created (l : list Event) : quiet l = true -> created l = [].
Proof.
  induction l as [|e l IH]; [reflexivity|].
  destruct e; cbn; intros Hq; try discriminate; now apply IH.
Qed.

Lemma creates_not_destroyed (l : list Event) : forallb isCreate l = true -> destroyed l = [].
Proof.
  induction l as [|e l IH]; [reflexivity|].
  destruct e; cbn; intros Hq; try discriminate; now apply IH.
Qed.

Lemma handles_cons (rt : RenderTarget) (rts : list RenderTarget) :
  handles (rt :: rts)
  = if negb (rendBuf rt =? 0) then rendBuf rt :: handles rts else handles rts.
Proof. reflexivity. Qed.

Lemma handles_unrealized (rts : list RenderTarget) :
  Forall (fun rt => rendBuf rt = 0) rts -> handles rts = [].
Proof.
  induction 1 as [|rt rts Hrt _ IH]; [reflexivity|].
  rewrite handles_cons, Hrt, IH. reflexivity.
Qed.

Lemma handles_app (l1 l2 : list RenderTarget) : handles (l1 ++ l2) = handles l1 ++ handles l2.
Proof. unfold handles. now rewrite map_app, List.filter_app. Qed.

Section DeviceObjects.
Context {W : Type} {MW : Modules W}.
Variable ftoi_r : F32.float -> Z.

Lemma release_loop_run (rts : list RenderTarget) (w : W) :
  events (releaseRenderTargets_loop rts w) = map DestroyRenderBuffer (handles rts) /\
  after (releaseRenderTargets_loop rts w) = destroyAll (handles rts) w.
Proof.
  revert w. induction rts as [|rt rts IH]; intros w; [now split|].
  cbn [releaseRenderTargets_loop]. rewrite !events_bind, !after_bind, handles_cons.
  destruct (negb (rendBuf rt =? 0)); run_simpl.
  - destruct (IH (snd (rdi_destroyRenderBuffer (rendBuf rt) w))) as [-> ->].
    rewrite !app_nil_r. now split.
  - destruct (IH w) as [-> ->]. rewrite !app_nil_r. now split.
Qed.

Lemma release_loop_cleared (rts : list RenderTarget) (w : W) :
  (forall rb w', fst (rdi_destroyRenderBuffer rb w') = 0) ->
  Forall (fun rt => rendBuf rt = 0) (value (releaseRenderTargets_loop rts w)).
Proof.
  intros Hclear. revert w. induction rts as [|rt rts IH]; intros w; [constructor|].
  cbn [releaseRenderTargets_loop]. rewrite !value_bind. cbn [ret value].
  constructor; [|apply IH].
  destruct (rendBuf rt =? 0) eqn:Hrb; cbn [negb]; run_simpl.
  - now apply Z.eqb_eq.
  - apply Hclear.
Qed.

Lemma create_loop_run (bw bh : Z) (rts : list RenderTarget) (w : W) :
  let o := createRenderTargets_loop ftoi_r bw bh rts w in
  let n := length (requests (events o)) in
  drop n (snd (value o)) = drop n rts /\
  map rendBuf (take n (snd (value o))) = created (events o) /\
  (Forall (fun rt => rendBuf rt = 0) rts ->
   handles (snd (value o)) = List.filter (fun rb => negb (rb =? 0)) (created (events o))) /\
  (fst (value o) = true -> n = length rts).
Proof.
  revert w. induction rts as [|rt rts IH]; intros w.
  - cbn. now split_and!.
  - cbn [createRenderTargets_loop]. run_simpl.
    destruct (fst (rdi_createRenderBuffer _ _ _ _ _ _ _ w) =? 0) eqn:Hrb; run_simpl.
    + apply Z.eqb_eq in Hrb.
      cbn [app requests created length drop take map rendBuf set_rendBuf].
      rewrite Hrb. split_and!; try done.
      intros Hall. inversion Hall; subst. rewrite handles_cons.
      cbn [rendBuf set_rendBuf Z.eqb negb List.filter].
      now apply handles_unrealized.
    + match goal with |- context [createRenderTargets_loop _ _ _ _ ?w'] =>
        specialize (IH w');
        destruct (createRenderTargets_loop ftoi_r bw bh rts w') as [[ok rest'] w2 ev]
      end.
      run_simpl. rewrite app_nil_r. cbn [app requests created length drop take map].
      destruct IH as (Hd & Hm & Hh & Hn).
      split_and!.
      * exact Hd.
      * cbn. now rewrite Hm.
      * intros Hall. inversion Hall; subst. rewrite handles_cons. cbn [rendBuf set_rendBuf].
        cbn [List.filter]. rewrite Hrb. cbn [negb]. now rewrite Hh.
      * intros Hok. now rewrite Hn.
Qed.

End DeviceObjects.

Section DeviceObjectsOfResource.
Context {W : Type} {MW : Modules W} {B : Type} {RB : Resource B W}.
Variable toFloat : string -> F32.float.
Variable atoi : string -> Z.
Variable ftoi_r : F32.float -> Z.
Implicit Types (pm : ExternalPipelineCommandsManager W) (r : PipelineResource B).

Lemma raiseError_run r msg (line : Z) (w : W) :
  raiseError r msg line w
  = mkOutcome (false, mkPipelineResource (base r) 320 240 [] [])
      (destroyAll (handles (_renderTargets r)) w)
      (map DestroyRenderBuffer (handles (_renderTargets r))
       ++ [WriteError (errorText (Resource_name (base r)) msg line)]).
Proof.
  destruct (release_loop_run (_renderTargets r) w) as [He Ha].
  unfold raiseError, release, releaseRenderTargets, bind, ret, emit.
  cbn [value after events]. now rewrite He, Ha, !app_nil_r.
Qed.

(** X7.  [release] destroys every device object the resource holds, each
    once and in declaration order, forgets all render targets and stages,
    and keeps the base resolution; [raiseError] does the same, restores
    320x240, logs one message and answers false. *)
Theorem release_destroys_all r msg (line : Z) (w : W) :
  release r w
  = mkOutcome (mkPipelineResource (base r) (_baseWidth r) (_baseHeight r) [] [])
      (destroyAll (handles (_renderTargets r)) w)
      (map DestroyRenderBuffer (handles (_renderTargets r))) /\
  raiseError r msg line w
  = mkOutcome (false, mkPipelineResource (base r) 320 240 [] [])
      (destroyAll (handles (_renderTargets r)) w)
      (map DestroyRenderBuffer (handles (_renderTargets r))
       ++ [WriteError (errorText (Resource_name (base r)) msg line)]).
Proof.
  destruct (release_loop_run (_renderTargets r) w) as [He Ha].
  unfold raiseError, release, releaseRenderTargets, bind, ret, emit.
  cbn [value after events]. rewrite He, Ha, !app_nil_r. now split.
Qed.

Lemma resize_releases_first_core r (width height : Z) (w : W) :
  destroyed (events (resize ftoi_r r width height w)) = handles (_renderTargets r).
Proof.
  unfold resize, releaseRenderTargets. run_simpl.
  set (r0 := set_baseSize r width height).
  destruct (release_loop_run (_renderTargets r0) w) as [He Ha].
  change (_renderTargets r0) with (_renderTargets r) in *.
  set (o1 := releaseRenderTargets_loop (_renderTargets r) w) in *.
  set (r1 := set_renderTargets r0 (value o1)).
  destruct (createRenderTargets_spec ftoi_r r1 (after o1)) as (_ & _ & _ & Hc & _).
  destruct (createRenderTargets ftoi_r r1 (after o1)) as [[ok r'] w' ev].
  run_simpl. rewrite !app_nil_r, He.
  now rewrite destroyed_app, destroyed_map, (creates_not_destroyed _ Hc), app_nil_r.
Qed.

(** X8.  [resize] destroys every device object of the previous realization
    before it asks for the first new one, and asks for at most one buffer
    per target. *)
Theorem resize_releases_first r (width height : Z) (w : W) :
  let o := resize ftoi_r r width height w in
  destroyed (events o) = handles (_renderTargets r) /\
  exists creates,
    events o = map DestroyRenderBuffer (handles (_renderTargets r)) ++ creates /\
    forallb isCreate creates = true /\
    (length creates <= length (_renderTargets r))%nat.
Proof.
  unfold resize, releaseRenderTargets. run_simpl.
  set (r0 := set_baseSize r width height).
  destruct (release_loop_run (_renderTargets r0) w) as [He Ha].
  pose proof (release_loop_declaration (_renderTargets r0) w) as Hrel.
  change (_renderTargets r0) with (_renderTargets r) in *.
  set (o1 := releaseRenderTargets_loop (_renderTargets r) w) in *.
  set (r1 := set_renderTargets r0 (value o1)).
  destruct (createRenderTargets_spec ftoi_r r1 (after o1))
    as (_ & _ & _ & Hc & [k Hk] & _).
  destruct (createRenderTargets ftoi_r r1 (after o1)) as [[ok r'] w' ev].
  run_simpl. rewrite !app_nil_r, He.
  assert (Hlen : (length ev <= length (_renderTargets r))%nat).
  { assert (Hreq : length (requests ev) = length ev).
    { clear -Hc. induction ev as [|e ev IH]; [reflexivity|].
      destruct e; cbn in *; try discriminate. f_equal. now apply IH. }
    rewrite <- Hreq, Hk, length_take, length_map.
    change (_renderTargets r1) with (value o1).
    rewrite <- (length_map declaration (value o1)), Hrel, length_map. lia. }
  split.
  - now rewrite destroyed_app, destroyed_map, (creates_not_destroyed _ Hc), app_nil_r.
  - exists ev. now split_and!.
Qed.

(** X9.  On a device whose [destroyRenderBuffer] clears the handle it is
    handed, [resize] leaves no handle of the previous realization behind,
    also when the device refuses a buffer: the targets it asked the device
    for hold the handles answered in this call, in order, and every target
    behind them holds 0. *)
Theorem resize_leaves_no_stale_handle r (width height : Z) (w : W) :
  (forall rb w', fst (rdi_destroyRenderBuffer rb w') = 0) ->
  let o := resize ftoi_r r width height w in
  let n := length (requests (events o)) in
  map rendBuf (take n (_renderTargets (value o))) = created (events o) /\
  Forall (fun rt => rendBuf rt = 0) (drop n (_renderTargets (value o))).
Proof.
  intros Hclear o n. subst n o.
  unfold resize, releaseRenderTargets, createRenderTargets. run_simpl.
  set (r0 := set_baseSize r width height).
  destruct (release_loop_run (_renderTargets r0) w) as [He _].
  pose proof (release_loop_cleared (_renderTargets r0) w Hclear) as Hz.
  set (o1 := releaseRenderTargets_loop (_renderTargets r0) w) in *.
  pose proof (create_loop_run ftoi_r (_baseWidth r0) (_baseHeight r0)
                (value o1) (after o1)) as (Hd & Hm & _).
  cbn [set_renderTargets _renderTargets _baseWidth _baseHeight] in *.
  destruct (createRenderTargets_loop ftoi_r _ _ (value o1) (after o1))
    as [[ok rts] w' ev].
  run_simpl. rewrite !app_nil_r, requests_app, created_app, He.
  rewrite requests_map_destroy, created_map_destroy.
  cbn [app set_renderTargets _renderTargets].
  split; [exact Hm|]. rewrite Hd. now apply Forall_drop.
Qed.

End DeviceObjectsOfResource.

(** ** The course of load *)

Section LoadCourse.
Context {W : Type} {MW : Modules W} {B : Type} {RB : Resource B W}.
Variable toFloat : string -> F32.float.
Variable atoi : string -> Z.
Variable ftoi_r : F32.float -> Z.
Variables StageElem StageNameStr StageActivationI : Z.
Implicit Types (pm : ExternalPipelineCommandsManager W) (r : PipelineResource B).

Lemma parseSetupSection_nodes root r :
  parseSetupSection toFloat atoi root r = parseSetup toFloat atoi (targetNodes root) r.
Proof.
  unfold parseSetupSection, targetNodes. now destruct (XML.getFirstChild root "Setup").
Qed.

(** [load], phase by phase. *)
Lemma load_course pm r doc (w : W) :
  load toFloat atoi ftoi_r pm r doc w
  = let accepted := fst (fst (Resource_load (base r) w)) in
    let r0 := set_base r (snd (fst (Resource_load (base r) w))) in
    let w0 := snd (Resource_load (base r) w) in
    if negb accepted then mkOutcome (false, r0) w0 []
    else
      match doc with
      | None => raiseError r0 "XML parsing error" noLine w0
      | Some root =>
          if negb (String.eqb (XML.getName root) "Pipeline")
          then raiseError r0 "Not a pipeline resource file" noLine w0
          else
            let o1 := parseSetup toFloat atoi (targetNodes root) r0 w0 in
            match fst (value o1) with
            | Some msg =>
                following (events o1) (raiseError (snd (value o1)) msg noLine (after o1))
            | None =>
                let o2 := parseStages toFloat atoi pm (stageNodes root) (snd (value o1))
                            (after o1) in
                match fst (value o2) with
                | Some msg =>
                    following (events o1 ++ events o2)
                      (raiseError (snd (value o2)) msg noLine (after o2))
                | None =>
                    let o3 := createRenderTargets ftoi_r (snd (value o2)) (after o2) in
                    if fst (value o3)
                    then mkOutcome (true, snd (value o3)) (after o3)
                           (events o1 ++ events o2 ++ events o3)
                    else following (events o1 ++ events o2 ++ events o3)
                           (raiseError (snd (value o3)) "Failed to create render target"
                              noLine (after o3))
                end
            end
      end.
Proof.
  unfold load, bind, call, ret. cbn [value after events fst snd].
  destruct (Resource_load (base r) w) as [[ok b] w0]. cbn [fst snd app].
  destruct ok; cbn [negb value after events]; [|reflexivity].
  destruct doc as [root|]; [|now destruct (raiseError _ _ _ w0)].
  rewrite strcmp_eqb.
  destruct (negb (String.eqb (XML.getName root) "Pipeline"));
    [now destruct (raiseError _ _ _ w0)|].
  rewrite parseSetupSection_nodes.
  destruct (parseSetup toFloat atoi (targetNodes root) (set_base r b) w0) as [[err1 r1] w1 ev1].
  cbn [value after events fst snd].
  destruct err1 as [msg1|]; [reflexivity|].
  destruct (parseStages toFloat atoi pm (stageNodes root) r1 w1) as [[err2 r2] w2 ev2].
  cbn [value after events fst snd].
  destruct err2 as [msg2|]; [unfold following; now rewrite app_assoc|].
  destruct (createRenderTargets ftoi_r r2 w2) as [[created3 r3] w3 ev3].
  cbn [value after events fst snd].
  destruct created3; cbn [negb value after events].
  - now rewrite app_nil_r.
  - unfold following. now rewrite !app_assoc.
Qed.

End LoadCourse.

(** ** What a load leaves behind *)

Lemma onlyParseCalls_app (l1 l2 : list Event) :
  onlyParseCalls (l1 ++ l2) = onlyParseCalls l1 && onlyParseCalls l2.
Proof. apply forallb_app. Qed.

Lemma onlyParseCalls_inert (l : list Event) :
  onlyParseCalls l = true -> created l = [] /\ destroyed l = [].
Proof.
  induction l as [|e l IH]; [now split|].
  destruct e; cbn; intros Hq; try discriminate; now apply IH.
Qed.

Lemma declaration_ids (l1 l2 : list RenderTarget) :
  map declaration l1 = map declaration l2 -> map rt_id l1 = map rt_id l2.
Proof.
  intros Hd.
  assert (Hid : forall l, map rt_id l = map rt_id (map declaration l)).
  { intros l. rewrite map_map. reflexivity. }
  rewrite (Hid l1), (Hid l2), Hd. reflexivity.
Qed.

Section ParseCalls.
Context {W : Type} {MW : Modules W} {B : Type}.
Variable toFloat : string -> F32.float.
Variable atoi : string -> Z.
Implicit Types (pm : ExternalPipelineCommandsManager W) (r : PipelineResource B).

Lemma parseCommand_loop_calls (k : nat) (entries : list (PipelineCommandRegEntry W))
    name node cmd success (w : W) :
  onlyParseCalls (events (parseCommand_loop k entries name node cmd success w)) = true.
Proof.
  revert k. induction entries as [|entry rest IH]; intros k; [reflexivity|].
  cbn [parseCommand_loop].
  destruct (if String.eqb (comNameString entry) name then parseFunc entry else None)
    as [pf|]; [|apply IH].
  run_simpl. destruct (pf name node cmd w) as [[msg cmd'] w']. run_simpl.
  destruct (String.length msg =? 0)%nat; reflexivity.
Qed.

Lemma parseCommandNode_calls pm r node1 st (w : W) :
  onlyParseCalls (events (parseCommandNode toFloat atoi pm r node1 st w)) = true.
Proof.
  unfold parseCommandNode.
  repeat match goal with
         | |- context [if ?c then _ else _] =>
             lazymatch c with
             | context [parseCommand] => fail
             | _ => destruct c
             end
         | |- context [match XML.getAttribute ?n ?a with _ => _ end] =>
             destruct (XML.getAttribute n a)
         | |- context [match findRenderTarget ?x ?y with _ => _ end] =>
             destruct (findRenderTarget x y)
         end; try reflexivity.
  unfold parseCommand. run_simpl.
  pose proof (parseCommand_loop_calls 0 pm (XML.getName node1) node1
                (newPipelineCommand DefaultPipelineCommands.ExternalCommand) true w) as Hc.
  destruct (parseCommand_loop 0 pm (XML.getName node1) node1 _ true w)
    as [[[msg cmd'] success] w' ev].
  run_simpl. rewrite onlyParseCalls_app, Hc. now destruct success.
Qed.

Lemma parseCommands_calls pm r nodes st (w : W) :
  onlyParseCalls (events (parseCommands toFloat atoi pm r nodes st w)) = true.
Proof.
  revert st w. induction nodes as [|node1 rest IH]; intros st w; [reflexivity|].
  cbn [parseCommands]. rewrite events_bind, onlyParseCalls_app, parseCommandNode_calls.
  destruct (value (parseCommandNode toFloat atoi pm r node1 st w)); [reflexivity|apply IH].
Qed.

Lemma parseStage_calls pm r node st (w : W) :
  onlyParseCalls (events (parseStage toFloat atoi pm r node st w)) = true.
Proof.
  unfold parseStage. rewrite events_bind, onlyParseCalls_app, parseCommands_calls.
  rewrite andb_true_r. destruct (negb (CStr.strcmp _ _ =? 0)); reflexivity.
Qed.

Lemma parseStages_calls pm nodes r (w : W) :
  onlyParseCalls (events (parseStages toFloat atoi pm nodes r w)) = true.
Proof.
  revert r w. induction nodes as [|node2 rest IH]; intros r w; [reflexivity|].
  cbn [parseStages]. rewrite events_bind, onlyParseCalls_app, parseStage_calls.
  destruct (value (parseStage toFloat atoi pm r node2 newPipelineStage w)) as [msg st].
  destruct (negb (String.eqb msg "")); [reflexivity|apply IH].
Qed.

Lemma parseStages_headers pm nodes r (w : W) :
  let o := parseStages toFloat atoi pm nodes r w in
  fst (value o) = None ->
  exists sts, _stages (snd (value o)) = _stages r ++ sts /\
              map stage_id sts = map idAttr nodes /\
              map enabled sts = map enabledAttr nodes.
Proof.
  revert r w. induction nodes as [|node2 rest IH]; intros r w.
  - cbn. intros _. exists []. now rewrite app_nil_r.
  - cbn [parseStages]. run_simpl.
    destruct (parseStage_spec toFloat atoi pm r node2 w) as (_ & Hen & Hid & _).
    destruct (parseStage toFloat atoi pm r node2 newPipelineStage w) as [[msg st] w' ev].
    run_simpl. destruct (String.eqb msg ""); cbn [negb]; run_simpl; [|discriminate].
    intros Hnone. destruct (IH _ _ Hnone) as (sts & Hs & Hids & Hens).
    exists (st :: sts). cbn [_stages set_stages] in Hs.
    split_and!; [now rewrite Hs, <- app_assoc|cbn; now rewrite Hid, Hids
                |cbn; now rewrite Hen, Hens].
Qed.

Lemma parseRenderTarget_targets r node2 (w : W) :
  let o := parseRenderTarget toFloat atoi r node2 w in
  after o = w /\
  match fst (value o) with
  | Some _ => snd (value o) = r
  | None => exists rt, snd (value o) = set_renderTargets r (_renderTargets r ++ [rt]) /\
                       rt_id rt = idAttr node2 /\ rendBuf rt = 0
  end.
Proof.
  unfold parseRenderTarget.
  destruct (XML.getAttribute node2 "id") as [id|] eqn:Hid; [|now split].
  assert (Hattr : idAttr node2 = id).
  { unfold idAttr, XML.getAttributeDef. now rewrite Hid. }
  destruct (XML.getAttribute node2 "depthBuf"); [|now split].
  destruct (XML.getAttribute node2 "numColBufs"); [|now split].
  match goal with |- context [match ?f with Some _ => _ | None => ret (Some _, r) end] =>
    destruct f as [fmt|]
  end; [|now split].
  cbn. split; [reflexivity|]. eexists. split; [reflexivity|]. now split.
Qed.

Lemma parseSetup_targets nodes r (w : W) :
  let o := parseSetup toFloat atoi nodes r w in
  after o = w /\
  exists new, _renderTargets (snd (value o)) = _renderTargets r ++ new /\
              Forall (fun rt => rendBuf rt = 0) new /\
              (fst (value o) = None -> map rt_id new = map idAttr nodes).
Proof.
  revert r w. induction nodes as [|node2 rest IH]; intros r w.
  - cbn. split; [reflexivity|]. exists []. now rewrite app_nil_r.
  - cbn [parseSetup]. run_simpl.
    destruct (parseRenderTarget_targets r node2 w) as [Ha Hv].
    destruct (parseRenderTarget toFloat atoi r node2 w) as [[[msg|] r'] w' ev]; run_simpl.
    + subst. split; [reflexivity|]. exists []. rewrite app_nil_r.
      split_and!; [reflexivity|constructor|discriminate].
    + subst w'. destruct Hv as (rt & -> & Hid & Hrb).
      destruct (IH (set_renderTargets r (_renderTargets r ++ [rt])) w)
        as (Ha' & new & Hn & Hall & Hids).
      split; [exact Ha'|]. exists (rt :: new). cbn [_renderTargets set_renderTargets] in Hn.
      split_and!.
      * now rewrite Hn, <- app_assoc.
      * now constructor.
      * intros Hnone. cbn. now rewrite Hid, Hids.
Qed.

End ParseCalls.

Section AfterLoad.
Context {W : Type} {MW : Modules W} {B : Type} {RB : Resource B W}.
Variable toFloat : string -> F32.float.
Variable atoi : string -> Z.
Variable ftoi_r : F32.float -> Z.
Variables StageElem StageNameStr StageActivationI : Z.
Implicit Types (pm : ExternalPipelineCommandsManager W) (r : PipelineResource B).

Lemma raiseError_false r msg (line : Z) (w : W) :
  fst (value (raiseError r msg line w)) = false.
Proof. now rewrite raiseError_run. Qed.

(** What a successful load consists of. *)
Lemma load_true_inv pm r doc (w : W) :
  let o := load toFloat atoi ftoi_r pm r doc w in
  fst (value o) = true ->
  exists root,
    doc = Some root /\
    let r0 := set_base r (snd (fst (Resource_load (base r) w))) in
    let o1 := parseSetup toFloat atoi (targetNodes root) r0 (snd (Resource_load (base r) w)) in
    let o2 := parseStages toFloat atoi pm (stageNodes root) (snd (value o1)) (after o1) in
    let o3 := createRenderTargets ftoi_r (snd (value o2)) (after o2) in
    fst (value o1) = None /\ fst (value o2) = None /\ fst (value o3) = true /\
    o = mkOutcome (true, snd (value o3)) (after o3) (events o1 ++ events o2 ++ events o3).
Proof.
  intros o. subst o. rewrite load_course. cbv zeta.
  destruct (negb (fst (fst (Resource_load (base r) w)))); [discriminate|].
  destruct doc as [root|]; [|now rewrite raiseError_run].
  destruct (negb (String.eqb (XML.getName root) "Pipeline")); [now rewrite raiseError_run|].
  destruct (fst (value (parseSetup toFloat atoi (targetNodes root) _ _))) eqn:H1;
    [now rewrite raiseError_run|].
  destruct (fst (value (parseStages toFloat atoi pm (stageNodes root) _ _))) eqn:H2;
    [now rewrite raiseError_run|].
  destruct (fst (value (createRenderTargets ftoi_r _ _))) eqn:H3;
    [|now rewrite raiseError_run].
  intros _. exists root. now split_and!.
Qed.

(** X10.  A load into a resource without device objects never leaks one: when
    it fails, every render buffer the device handed out during the call has
    been destroyed again, in the order of creation; when it succeeds, nothing
    is destroyed. *)
Theorem load_balances_device pm r doc (w : W) :
  Forall (fun rt => rendBuf rt = 0) (_renderTargets r) ->
  let o := load toFloat atoi ftoi_r pm r doc w in
  destroyed (events o)
  = if fst (value o) then []
    else List.filter (fun rb => negb (rb =? 0)) (created (events o)).
Proof.
  intros Hfresh o. subst o. rewrite load_course. cbv zeta.
  set (r0 := set_base r (snd (fst (Resource_load (base r) w)))).
  set (w0 := snd (Resource_load (base r) w)).
  assert (Hr0 : handles (_renderTargets r0) = []) by now apply handles_unrealized.
  assert (Hraise : forall r' msg (w' : W) pre,
    handles (_renderTargets r') = List.filter (fun rb => negb (rb =? 0)) (created pre) ->
    destroyed pre = [] ->
    destroyed (events (following pre (raiseError r' msg noLine w')))
    = List.filter (fun rb => negb (rb =? 0))
        (created (events (following pre (raiseError r' msg noLine w'))))).
  { intros r' msg w' pre Hh Hd. rewrite raiseError_run. cbn [following events].
    rewrite !destroyed_app, !created_app, destroyed_map, created_map_destroy, Hd.
    cbn. now rewrite !app_nil_r. }
  assert (Hraise0 : forall msg,
    destroyed (events (raiseError r0 msg noLine w0))
    = List.filter (fun rb => negb (rb =? 0)) (created (events (raiseError r0 msg noLine w0)))).
  { intros msg. rewrite raiseError_run. cbn [events value fst].
    rewrite Hr0. reflexivity. }
  destruct (negb (fst (fst (Resource_load (base r) w)))); [reflexivity|].
  destruct doc as [root|]; [|rewrite raiseError_false; apply Hraise0].
  destruct (negb (String.eqb (XML.getName root) "Pipeline"));
    [rewrite raiseError_false; apply Hraise0|].
  destruct (parseSetup_spec toFloat atoi (targetNodes root) r0 w0) as (He1 & _).
  destruct (parseSetup_targets toFloat atoi (targetNodes root) r0 w0)
    as (_ & new & Hn1 & Hzero & _).
  set (o1 := parseSetup toFloat atoi (targetNodes root) r0 w0) in *.
  assert (Hfresh1 : Forall (fun rt => rendBuf rt = 0) (_renderTargets (snd (value o1)))).
  { rewrite Hn1. apply Forall_app. now split. }
  rewrite He1. cbn [app].
  destruct (fst (value o1)).
  { cbn [following value]. rewrite raiseError_false.
    apply (Hraise _ _ _ []); [|reflexivity]. now apply handles_unrealized. }
  destruct (parseStages_spec toFloat atoi pm (stageNodes root) (snd (value o1)) (after o1))
    as (_ & _ & Hrt2 & _).
  pose proof (parseStages_calls toFloat atoi pm (stageNodes root) (snd (value o1)) (after o1))
    as Hcalls.
  set (o2 := parseStages toFloat atoi pm (stageNodes root) (snd (value o1)) (after o1)) in *.
  destruct (onlyParseCalls_inert _ Hcalls) as [Hc2 Hd2].
  destruct (fst (value o2)).
  { cbn [following value]. rewrite raiseError_false. apply Hraise; [|exact Hd2].
    rewrite Hc2, Hrt2. now apply handles_unrealized. }
  destruct (createRenderTargets_spec ftoi_r (snd (value o2)) (after o2))
    as (_ & _ & _ & Hcr & _).
  assert (Hh3 : handles (_renderTargets (snd (value
                  (createRenderTargets ftoi_r (snd (value o2)) (after o2)))))
                = List.filter (fun rb => negb (rb =? 0))
                    (created (events (createRenderTargets ftoi_r (snd (value o2))
                                        (after o2))))).
  { unfold createRenderTargets. run_simpl.
    pose proof (create_loop_run ftoi_r (_baseWidth (snd (value o2)))
                  (_baseHeight (snd (value o2))) (_renderTargets (snd (value o2)))
                  (after o2)) as (_ & _ & Hh & _).
    rewrite Hrt2 in Hh at 1. specialize (Hh Hfresh1).
    destruct (createRenderTargets_loop ftoi_r _ _ _ (after o2)) as [[ok rts] w' ev].
    run_simpl. now rewrite app_nil_r. }
  set (o3 := createRenderTargets ftoi_r (snd (value o2)) (after o2)) in *.
  destruct (fst (value o3)).
  - cbn [events value fst]. rewrite !destroyed_app, Hd2.
    now rewrite (creates_not_destroyed _ Hcr).
  - cbn [following value]. rewrite raiseError_false. apply Hraise.
    + now rewrite created_app, Hc2.
    + now rewrite destroyed_app, Hd2, (creates_not_destroyed _ Hcr).
Qed.

(** X11.  After a successful load into a resource without render targets,
    the render targets are those the RenderTarget nodes of the Setup section
    declare, in document order, and each holds the non-zero handle the device
    answered for it. *)
Theorem load_realizes_declared pm r doc (w : W) :
  let o := load toFloat atoi ftoi_r pm r doc w in
  fst (value o) = true ->
  _renderTargets r = [] ->
  exists root,
    doc = Some root /\
    map rt_id (_renderTargets (snd (value o))) = map idAttr (targetNodes root) /\
    map rendBuf (_renderTargets (snd (value o))) = created (events o) /\
    Forall (fun rb => rb <> 0) (created (events o)).
Proof.
  intros o Hok Hempty.
  destruct (load_true_inv pm r doc w Hok) as (root & Hdoc & H1 & H2 & H3 & Ho).
  fold o in Ho. cbv zeta in *.
  set (r0 := set_base r (snd (fst (Resource_load (base r) w)))) in *.
  set (w0 := snd (Resource_load (base r) w)) in *.
  destruct (parseSetup_spec toFloat atoi (targetNodes root) r0 w0) as (He1 & _).
  destruct (parseSetup_targets toFloat atoi (targetNodes root) r0 w0)
    as (_ & new & Hn1 & _ & Hids).
  set (o1 := parseSetup toFloat atoi (targetNodes root) r0 w0) in *.
  destruct (parseStages_spec toFloat atoi pm (stageNodes root) (snd (value o1)) (after o1))
    as (Hq2 & _ & Hrt2 & _).
  set (o2 := parseStages toFloat atoi pm (stageNodes root) (snd (value o1)) (after o1)) in *.
  destruct (createRenderTargets_spec ftoi_r (snd (value o2)) (after o2))
    as (_ & _ & Hd3 & _ & _ & Hsucc & _).
  assert (Hh3 : map rendBuf (_renderTargets (snd (value
                  (createRenderTargets ftoi_r (snd (value o2)) (after o2)))))
                = created (events (createRenderTargets ftoi_r (snd (value o2)) (after o2)))).
  { revert H3. unfold createRenderTargets. run_simpl.
    pose proof (create_loop_run ftoi_r (_baseWidth (snd (value o2)))
                  (_baseHeight (snd (value o2))) (_renderTargets (snd (value o2)))
                  (after o2)) as (_ & Hm & _ & Hn).
    pose proof (create_loop_spec ftoi_r (_baseWidth (snd (value o2)))
                  (_baseHeight (snd (value o2))) (_renderTargets (snd (value o2)))
                  (after o2)) as (Hdecl & _).
    destruct (createRenderTargets_loop ftoi_r _ _ _ (after o2)) as [[ok rts] w' ev].
    run_simpl. intros ->. rewrite app_nil_r, <- Hm, (Hn eq_refl).
    assert (Hlen : length rts = length (_renderTargets (snd (value o2)))).
    { rewrite <- (length_map declaration rts), Hdecl. apply length_map. }
    now rewrite <- Hlen, firstn_all. }
  set (o3 := createRenderTargets ftoi_r (snd (value o2)) (after o2)) in *.
  destruct (Hsucc H3) as (_ & Hall & _).
  exists root. rewrite Ho. cbn [value snd events].
  rewrite He1, !created_app, (quiet_created _ Hq2). cbn [app].
  split_and!.
  - exact Hdoc.
  - rewrite (declaration_ids _ _ Hd3), Hrt2, Hn1.
    subst r0. cbn [_renderTargets set_base]. rewrite Hempty. cbn [app]. now apply Hids.
  - exact Hh3.
  - rewrite <- Hh3. now apply Forall_map.
Qed.

(** X12.  After a successful load into a resource without stages,
    [getElemCount] for the stage element is the number of Stage nodes of the
    CommandQueue section (as long as that number fits in an [int]). *)
Theorem load_stage_count pm r doc (w : W) :
  let o := load toFloat atoi ftoi_r pm r doc w in
  fst (value o) = true ->
  _stages r = [] ->
  exists root,
    doc = Some root /\
    length (_stages (snd (value o))) = length (stageNodes root) /\
    (Z.of_nat (length (stageNodes root)) < 2 ^ 31 ->
     forall w' : W,
       getElemCount StageElem (snd (value o)) StageElem w'
       = mkOutcome (Z.of_nat (length (stageNodes root))) w' []).
Proof.
  intros o Hok Hempty.
  destruct (load_true_inv pm r doc w Hok) as (root & Hdoc & H1 & H2 & H3 & Ho).
  fold o in Ho. cbv zeta in *.
  set (o1 := parseSetup toFloat atoi (targetNodes root) _ _) in *.
  destruct (parseSetup_spec toFloat atoi (targetNodes root)
              (set_base r (snd (fst (Resource_load (base r) w))))
              (snd (Resource_load (base r) w))) as (_ & _ & Hs1).
  fold o1 in Hs1.
  destruct (parseStages_headers toFloat atoi pm (stageNodes root) (snd (value o1)) (after o1) H2)
    as (sts & Hs2 & Hids & _).
  set (o2 := parseStages toFloat atoi pm (stageNodes root) (snd (value o1)) (after o1)) in *.
  destruct (createRenderTargets_spec ftoi_r (snd (value o2)) (after o2)) as (_ & Hs3 & _).
  assert (Hlen : length (_stages (snd (value o))) = length (stageNodes root)).
  { rewrite Ho. cbn [value snd]. rewrite Hs3, Hs2, Hs1. cbn [_stages set_base].
    rewrite Hempty. cbn [app].
    rewrite <- (length_map stage_id sts), Hids. apply length_map. }
  exists root. split_and!; [exact Hdoc|exact Hlen|].
  intros Hint w'. unfold getElemCount. rewrite Z.eqb_refl, Hlen.
  unfold ret, Int.to_int32. rewrite Z.mod_small by lia. f_equal. lia.
Qed.

(** X13.  After a successful load into a resource without stages,
    [getElemParamStr] answers for stage i the [id] attribute of the i-th
    Stage node, and the empty string when the node has none. *)
Theorem load_stage_name pm r doc (w : W) (i : nat) :
  let o := load toFloat atoi ftoi_r pm r doc w in
  fst (value o) = true ->
  _stages r = [] ->
  Z.of_nat i < 2 ^ 31 ->
  exists root,
    doc = Some root /\
    forall node, stageNodes root !! i = Some node ->
    forall w' : W,
      getElemParamStr StageElem StageNameStr (snd (value o))
        StageElem (Z.of_nat i) StageNameStr w'
      = mkOutcome (Some (XML.getAttributeDef node "id" "")) w' [].
Proof.
  intros o Hok Hempty Hi.
  destruct (load_true_inv pm r doc w Hok) as (root & Hdoc & H1 & H2 & H3 & Ho).
  fold o in Ho. cbv zeta in *.
  set (o1 := parseSetup toFloat atoi (targetNodes root) _ _) in *.
  destruct (parseSetup_spec toFloat atoi (targetNodes root)
              (set_base r (snd (fst (Resource_load (base r) w))))
              (snd (Resource_load (base r) w))) as (_ & _ & Hs1).
  fold o1 in Hs1.
  destruct (parseStages_headers toFloat atoi pm (stageNodes root) (snd (value o1)) (after o1) H2)
    as (sts & Hs2 & Hids & _).
  set (o2 := parseStages toFloat atoi pm (stageNodes root) (snd (value o1)) (after o1)) in *.
  destruct (createRenderTargets_spec ftoi_r (snd (value o2)) (after o2)) as (_ & Hs3 & _).
  assert (Hst : _stages (snd (value o)) = sts).
  { rewrite Ho. cbn [value snd]. rewrite Hs3, Hs2, Hs1. cbn [_stages set_base].
    now rewrite Hempty. }
  exists root. split; [exact Hdoc|]. intros node Hnode w'.
  assert (Hlook : map stage_id sts !! i = Some (idAttr node)).
  { rewrite Hids, lookup_map, Hnode. reflexivity. }
  rewrite lookup_map in Hlook.
  destruct (sts !! i) as [st|] eqn:Hsti; [|discriminate].
  injection Hlook as Hid. pose proof (lookup_length _ _ _ Hsti) as Hlt.
  unfold getElemParamStr, inStages, stageAt, Int.to_uint32, Int.to_size_t.
  rewrite Hst, Z.eqb_refl, !Z.mod_small by lia.
  rewrite Nat2Z.id, Hsti, Z.eqb_refl, Hid.
  destruct (Z.of_nat i <? Z.of_nat (length sts)) eqn:Hlt'; [reflexivity|].
  apply Z.ltb_ge in Hlt'. lia.
Qed.

End AfterLoad.

(** ** Every error aborts the load *)

Section Errors.
Context {W : Type} {MW : Modules W} {B : Type} {RB : Resource B W}.
Variable toFloat : string -> F32.float.
Variable atoi : string -> Z.
Variable ftoi_r : F32.float -> Z.
Implicit Types (pm : ExternalPipelineCommandsManager W) (r : PipelineResource B).

Lemma parseRenderTarget_bad r node2 (w : W) :
  badTarget node2 -> fst (value (parseRenderTarget toFloat atoi r node2 w)) <> None.
Proof.
  unfold parseRenderTarget.
  intros [Hid | [Hd | [Hn | (f & Hf & H8 & H16 & H32)]]].
  - now rewrite Hid.
  - destruct (XML.getAttribute node2 "id"); [|discriminate]. now rewrite Hd.
  - destruct (XML.getAttribute node2 "id"); [|discriminate].
    destruct (XML.getAttribute node2 "depthBuf"); [|discriminate]. now rewrite Hn.
  - destruct (XML.getAttribute node2 "id"); [|discriminate].
    destruct (XML.getAttribute node2 "depthBuf"); [|discriminate].
    destruct (XML.getAttribute node2 "numColBufs"); [|discriminate].
    rewrite Hf, !(stricmp_eqb f).
    unfold equalsIgnoreCase in *.
    apply String.eqb_neq in H8, H16, H32. rewrite H8, H16, H32. discriminate.
Qed.

Lemma parseSetup_bad nodes r (w : W) :
  Exists badTarget nodes -> fst (value (parseSetup toFloat atoi nodes r w)) <> None.
Proof.
  intros Hex. revert r w. induction Hex as [node2 rest Hbad|node2 rest _ IH]; intros r w.
  - cbn [parseSetup]. run_simpl.
    pose proof (parseRenderTarget_bad r node2 w Hbad) as Hne.
    destruct (parseRenderTarget toFloat atoi r node2 w) as [[[msg|] r'] w' ev]; run_simpl.
    + discriminate.
    + now destruct Hne.
  - cbn [parseSetup]. run_simpl.
    destruct (parseRenderTarget toFloat atoi r node2 w) as [[[msg|] r'] w' ev]; run_simpl.
    + discriminate.
    + apply IH.
Qed.

Lemma findRenderTarget_undeclared r (ids : list string) (id : string) :
  Forall (fun rt => In (rt_id rt) ids) (_renderTargets r) ->
  id = "" \/ ~ In id ids -> findRenderTarget r id = None.
Proof.
  intros Hall Hid. apply findRenderTarget_first_core.
  destruct Hid as [Hid|Hid]; [now left|right].
  eapply Forall_impl; [exact Hall|]. intros rt Hin Heq. apply Hid. now rewrite <- Heq.
Qed.

Lemma parseCommandNode_bad pm r (ids : list string) node1 st (w : W) :
  Forall (fun rt => In (rt_id rt) ids) (_renderTargets r) ->
  badCommand pm ids node1 ->
  exists msg, value (parseCommandNode toFloat atoi pm r node1 st w) = inl msg.
Proof.
  intros Hall Hbad. unfold badCommand in Hbad. cbv zeta in Hbad.
  destruct Hbad as [[Hname H] | [[Hname H] | [[Hname H] | [[Hname H] | [[Hname H] | [Hname H]]]]]].
  - unfold parseCommandNode. rewrite Hname, !strcmp_eqb.
    change (String.eqb "SwitchTarget" "SwitchTarget") with true. cbv iota.
    destruct H as [-> | (target & -> & Hne & Hin)]; [now eexists|].
    rewrite strcmp_eqb. apply String.eqb_neq in Hne. rewrite Hne. cbn [negb].
    rewrite (findRenderTarget_undeclared r ids target Hall (or_intror Hin)). now eexists.
  - unfold parseCommandNode. rewrite Hname, !strcmp_eqb.
    change (String.eqb "BindBuffer" "SwitchTarget") with false.
    change (String.eqb "BindBuffer" "BindBuffer") with true. cbv iota.
    destruct H as [-> | [-> | [-> | (sourceRT & -> & Hin)]]].
    + now eexists.
    + destruct (XML.getAttribute node1 "sampler"); now eexists.
    + destruct (XML.getAttribute node1 "sampler"), (XML.getAttribute node1 "sourceRT");
        now eexists.
    + destruct (XML.getAttribute node1 "sampler"); [|now eexists].
      destruct (XML.getAttribute node1 "bufIndex"); [|now eexists].
      rewrite (findRenderTarget_undeclared r ids sourceRT Hall Hin). now eexists.
  - unfold parseCommandNode. rewrite Hname, !strcmp_eqb.
    change (String.eqb "DrawGeometry" "SwitchTarget") with false.
    change (String.eqb "DrawGeometry" "BindBuffer") with false.
    change (String.eqb "DrawGeometry" "UnbindBuffers") with false.
    change (String.eqb "DrawGeometry" "ClearTarget") with false.
    change (String.eqb "DrawGeometry" "DrawGeometry") with true. cbv iota.
    rewrite H. now eexists.
  - unfold parseCommandNode. rewrite Hname, !strcmp_eqb.
    change (String.eqb "DrawQuad" "SwitchTarget") with false.
    change (String.eqb "DrawQuad" "BindBuffer") with false.
    change (String.eqb "DrawQuad" "UnbindBuffers") with false.
    change (String.eqb "DrawQuad" "ClearTarget") with false.
    change (String.eqb "DrawQuad" "DrawGeometry") with false.
    change (String.eqb "DrawQuad" "DrawQuad") with true. cbv iota.
    destruct H as [-> | ->]; [now eexists|].
    destruct (XML.getAttribute node1 "material"); now eexists.
  - unfold parseCommandNode. rewrite Hname, !strcmp_eqb.
    change (String.eqb "SetUniform" "SwitchTarget") with false.
    change (String.eqb "SetUniform" "BindBuffer") with false.
    change (String.eqb "SetUniform" "UnbindBuffers") with false.
    change (String.eqb "SetUniform" "ClearTarget") with false.
    change (String.eqb "SetUniform" "DrawGeometry") with false.
    change (String.eqb "SetUniform" "DrawQuad") with false.
    change (String.eqb "SetUniform" "DoForwardLightLoop") with false.
    change (String.eqb "SetUniform" "DoDeferredLightLoop") with false.
    change (String.eqb "SetUniform" "SetUniform") with true. cbv iota.
    destruct H as [-> | ->]; [now eexists|].
    destruct (XML.getAttribute node1 "material"); now eexists.
  - destruct H as (i & entry & pf & Hfirst & Hreject).
    unfold isBuiltin in Hname. cbn [existsb] in Hname.
    repeat (apply orb_false_elim in Hname; destruct Hname as [? Hname]).
    unfold parseCommandNode. rewrite !strcmp_eqb.
    repeat match goal with H : String.eqb _ _ = false |- _ => rewrite H; clear H end.
    assert (Hcount : (registeredCommandsCount pm >? 0) = true).
    { destruct Hfirst as (Hl & _). apply lookup_length in Hl.
      unfold registeredCommandsCount. apply Z.gtb_lt. lia. }
    rewrite Hcount. unfold bind.
    rewrite (parseCommand_first_match_core _ _ _ _ _ _ _ _ _ Hfirst).
    cbn [value after events].
    specialize (Hreject w). apply String.eqb_neq in Hreject. rewrite Hreject.
    now eexists.
Qed.

Lemma parseCommands_bad pm r (ids : list string) nodes st (w : W) :
  Forall (fun rt => In (rt_id rt) ids) (_renderTargets r) ->
  Exists (badCommand pm ids) nodes ->
  fst (value (parseCommands toFloat atoi pm r nodes st w)) <> "".
Proof.
  intros Hall Hex. revert st w.
  induction Hex as [node1 rest Hbad|node1 rest _ IH]; intros st w.
  - cbn [parseCommands]. run_simpl.
    destruct (parseCommandNode_bad pm r ids node1 st w Hall Hbad) as [msg Hmsg].
    pose proof (parseCommandNode_spec toFloat atoi pm r node1 st w) as [_ Hv].
    destruct (parseCommandNode toFloat atoi pm r node1 st w) as [[msg'|st'] w' ev];
      run_simpl; [exact Hv|discriminate].
  - cbn [parseCommands]. run_simpl.
    pose proof (parseCommandNode_spec toFloat atoi pm r node1 st w) as [_ Hv].
    destruct (parseCommandNode toFloat atoi pm r node1 st w) as [[msg'|st'] w' ev];
      run_simpl; [exact Hv|apply IH].
Qed.

Lemma parseStage_bad pm r (ids : list string) node st (w : W) :
  Forall (fun rt => In (rt_id rt) ids) (_renderTargets r) ->
  Exists (badCommand pm ids) (XML.childNodes node) ->
  fst (value (parseStage toFloat atoi pm r node st w)) <> "".
Proof.
  intros Hall Hex. unfold parseStage. rewrite value_bind.
  now apply (parseCommands_bad pm r ids).
Qed.

Lemma parseStages_bad pm (ids : list string) nodes r (w : W) :
  Forall (fun rt => In (rt_id rt) ids) (_renderTargets r) ->
  Exists (fun node => Exists (badCommand pm ids) (XML.childNodes node)) nodes ->
  fst (value (parseStages toFloat atoi pm nodes r w)) <> None.
Proof.
  intros Hall Hex. revert r w Hall.
  induction Hex as [node2 rest Hbad|node2 rest _ IH]; intros r w Hall.
  - cbn [parseStages]. run_simpl.
    pose proof (parseStage_bad pm r ids node2 newPipelineStage w Hall Hbad) as Hne.
    destruct (parseStage toFloat atoi pm r node2 newPipelineStage w) as [[msg st] w' ev].
    run_simpl. apply String.eqb_neq in Hne. rewrite Hne. cbn. discriminate.
  - cbn [parseStages]. run_simpl.
    destruct (parseStage toFloat atoi pm r node2 newPipelineStage w) as [[msg st] w' ev].
    run_simpl. destruct (negb (String.eqb msg "")); [cbn; discriminate|].
    apply IH. exact Hall.
Qed.

Lemma load_true_root pm r root (w : W) :
  fst (value (load toFloat atoi ftoi_r pm r (Some root) w)) = true ->
  XML.getName root = "Pipeline".
Proof.
  rewrite load_course. cbv zeta.
  destruct (negb (fst (fst (Resource_load (base r) w)))); [discriminate|].
  destruct (String.eqb (XML.getName root) "Pipeline") eqn:Hname;
    [intros _; now apply String.eqb_eq|].
  cbn [negb]. now rewrite raiseError_run.
Qed.

(** A description with an error is not loaded, and neither is one for which
    the device refuses a buffer. *)
Lemma load_bad_fails pm r doc (w : W) :
  let o := load toFloat atoi ftoi_r pm r doc w in
  badDescription pm r doc \/ existsb isFailedCreate (events o) = true ->
  fst (value o) = false.
Proof.
  intros o Herr. destruct (fst (value o)) eqn:Hres; [exfalso|reflexivity].
  pose proof (load_true_inv toFloat atoi ftoi_r pm r doc w Hres)
    as (root & -> & H1 & H2 & H3 & Ho).
  pose proof (load_true_root pm r root w Hres) as Hname.
  set (r0 := set_base r (snd (fst (Resource_load (base r) w)))) in *.
  set (w0 := snd (Resource_load (base r) w)) in *.
  destruct (parseSetup_spec toFloat atoi (targetNodes root) r0 w0) as (He1 & _).
  destruct (parseSetup_targets toFloat atoi (targetNodes root) r0 w0)
    as (_ & new & Hrts & _ & Hids).
  set (o1 := parseSetup toFloat atoi (targetNodes root) r0 w0) in *.
  destruct (parseStages_spec toFloat atoi pm (stageNodes root) (snd (value o1)) (after o1))
    as (Hq2 & _).
  set (o2 := parseStages toFloat atoi pm (stageNodes root) (snd (value o1)) (after o1)) in *.
  destruct (createRenderTargets_spec ftoi_r (snd (value o2)) (after o2))
    as (_ & _ & _ & _ & _ & Hok & _).
  destruct (Hok H3) as (_ & _ & Hno).
  destruct Herr as [Hbad | Hrefused].
  - cbn [badDescription] in Hbad. destruct Hbad as [Hroot | [Htarget | Hstage]].
    + contradiction.
    + now apply (parseSetup_bad (targetNodes root) r0 w0).
    + apply (parseStages_bad pm
               (map rt_id (_renderTargets r) ++ map idAttr (targetNodes root))
               (stageNodes root) (snd (value o1)) (after o1));
        [|exact Hstage|exact H2].
      rewrite Hrts, <- (Hids H1). change (_renderTargets r0) with (_renderTargets r).
      apply Forall_app. split; apply List.Forall_forall; intros rt Hin;
        apply in_or_app; [left|right]; now apply in_map.
  - subst o. rewrite Ho in Hrefused. cbn [events] in Hrefused.
    rewrite !existsb_app, He1, Hno in Hrefused. cbn [existsb orb] in Hrefused.
    rewrite orb_false_r in Hrefused.
    clear -Hq2 Hrefused. induction (events o2) as [|e l IH]; [discriminate|].
    cbn in *. destruct e; cbn in *; try discriminate; auto.
Qed.

(** C1.  Whenever [load] detects an error, it returns false and the resource
    is in the empty default state: base resolution 320x240, no stage, no
    render target.  The errors are those of the description (it is not XML,
    its root is not Pipeline, a RenderTarget node lacks [id], [depthBuf] or
    [numColBufs] or names an unknown format, a command node lacks a required
    attribute, refers to a render target that is not declared, or is
    rejected by its parse callback) and a render buffer the device refuses;
    each of them makes [load] return false.  Once the base class has accepted
    the buffer, a failed load has logged an error and has reset the
    resource; and a load that logs an error has failed and has reset the
    resource. *)
Theorem load_error_resets pm r doc (w : W) :
  let o := load toFloat atoi ftoi_r pm r doc w in
  let reset :=
    _baseWidth (snd (value o)) = 320 /\ _baseHeight (snd (value o)) = 240 /\
    _stages (snd (value o)) = [] /\ _renderTargets (snd (value o)) = [] in
  (badDescription pm r doc \/ existsb isFailedCreate (events o) = true ->
   fst (value o) = false /\
   (fst (fst (Resource_load (base r) w)) = true ->
    reset /\ existsb isWriteError (events o) = true)) /\
  (existsb isWriteError (events o) = true -> fst (value o) = false /\ reset) /\
  (fst (fst (Resource_load (base r) w)) = true -> fst (value o) = false ->
   reset /\ existsb isWriteError (events o) = true).
Proof.
  intros o reset. subst reset.
  pose proof (load_bad_fails pm r doc w) as Hfails. cbv zeta in Hfails. fold o in Hfails.
  assert (Hlogged :
    (existsb isWriteError (events o) = true ->
     fst (value o) = false /\
     _baseWidth (snd (value o)) = 320 /\ _baseHeight (snd (value o)) = 240 /\
     _stages (snd (value o)) = [] /\ _renderTargets (snd (value o)) = []) /\
    (fst (fst (Resource_load (base r) w)) = true -> fst (value o) = false ->
     (_baseWidth (snd (value o)) = 320 /\ _baseHeight (snd (value o)) = 240 /\
      _stages (snd (value o)) = [] /\ _renderTargets (snd (value o)) = []) /\
     existsb isWriteError (events o) = true)).
  { subst o.
    destruct (load_spec toFloat atoi ftoi_r pm r doc w)
      as [(Hno & _ & He) | [(_ & Hf & Hdef & evs & msg & -> & Hq)
         | [(_ & Hf & Hdef & _ & evs & dvs & msg & -> & _ & _ & _)
         | (_ & Ht & root & sts & _ & _ & _ & _ & _ & _ & _ & _ & Hne)]]].
    - rewrite He. split; [discriminate|congruence].
    - split; [intros _; now split|intros _ _]. split; [exact Hdef|].
      rewrite existsb_app. cbn. now rewrite orb_true_r.
    - split; [intros _; now split|intros _ _]. split; [exact Hdef|].
      rewrite !existsb_app. cbn. now rewrite !orb_true_r.
    - rewrite Ht, Hne. split; discriminate. }
  destruct Hlogged as [Hlog Hacc].
  split_and!.
  - intros Herr. split; [now apply Hfails|]. intros Hok. apply (Hacc Hok). now apply Hfails.
  - exact Hlog.
  - exact Hacc.
Qed.

End Errors.

(** The errors of the sample descriptions, by kind. *)
Lemma rejected_is_bad :
  badDescription Scenario.registry Sample.fresh (Some Scenario.rejected).
Proof.
  right. right. apply List.Exists_exists. eexists. split; [left; reflexivity|].
  apply List.Exists_exists. eexists. split; [left; reflexivity|].
  do 5 right. split; [reflexivity|].
  eexists 1%nat, _, _. split.
  - split; [reflexivity|]. split; [reflexivity|]. split; [reflexivity|].
    constructor; [left; discriminate|]. constructor.
  - intros w. discriminate.
Defined.

Lemma dangling_is_bad :
  badDescription Scenario.registry Sample.fresh (Some Scenario.danglingTarget).
Proof.
  right. right. apply List.Exists_exists. eexists. split; [left; reflexivity|].
  apply List.Exists_exists. eexists. split; [left; reflexivity|].
  left. split; [reflexivity|]. right. exists "HDR".
  split; [reflexivity|]. split; [discriminate|].
  intros [H|[H|[]]]; discriminate H.
Defined.

Lemma unknown_format_is_bad :
  badDescription Scenario.registry Sample.fresh (Some Scenario.unknownFormat).
Proof.
  right. left. apply List.Exists_exists. eexists. split; [left; reflexivity|].
  do 3 right. exists "RGB10". split; [reflexivity|]. split_and!; discriminate.
Defined.

Lemma load_error_resets_witness :
  let aborted doc capacity :=
    let o := Scenario.load doc capacity in
    fst (value o) = false /\
    (_baseWidth (snd (value o)) = 320 /\ _baseHeight (snd (value o)) = 240 /\
     _stages (snd (value o)) = [] /\ _renderTargets (snd (value o)) = []) /\
    existsb isWriteError (events o) = true in
  badDescription Scenario.registry Sample.fresh (Some Scenario.rejected) /\
  aborted (Some Scenario.rejected) 8 /\
  badDescription Scenario.registry Sample.fresh (Some Scenario.danglingTarget) /\
  aborted (Some Scenario.danglingTarget) 8 /\
  badDescription Scenario.registry Sample.fresh (Some Scenario.unknownFormat) /\
  aborted (Some Scenario.unknownFormat) 8 /\
  badDescription Scenario.registry Sample.fresh None /\
  aborted None 8 /\
  existsb isFailedCreate (events (Scenario.load (Some Scenario.deferred) 1)) = true /\
  aborted (Some Scenario.deferred) 1.
Proof.
  intros aborted.
  assert (Hrule : forall doc capacity,
    badDescription Scenario.registry Sample.fresh doc \/
    existsb isFailedCreate (events (Scenario.load doc capacity)) = true ->
    aborted doc capacity).
  { intros doc capacity Herr.
    destruct (load_error_resets Sample.toFloat Sample.atoi Sample.ftoi_r Scenario.registry
                Sample.fresh doc (Sample.world capacity)) as [Hfails _].
    destruct (Hfails Herr) as [Hfalse Hreset].
    split; [exact Hfalse|exact (Hreset eq_refl)]. }
  assert (Hrefused :
    existsb isFailedCreate (events (Scenario.load (Some Scenario.deferred) 1)) = true)
    by (vm_compute; reflexivity).
  split; [exact rejected_is_bad|]. split; [exact (Hrule _ 8 (or_introl rejected_is_bad))|].
  split; [exact dangling_is_bad|]. split; [exact (Hrule _ 8 (or_introl dangling_is_bad))|].
  split; [exact unknown_format_is_bad|].
  split; [exact (Hrule _ 8 (or_introl unknown_format_is_bad))|].
  split; [exact I|]. split; [exact (Hrule None 8 (or_introl I))|].
  split; [exact Hrefused|exact (Hrule _ 1 (or_intror Hrefused))].
Defined.



(** ** Toggling a stage *)

Section Toggle.
Context {W : Type} {B : Type} {RB : Resource B W}.
Variables StageElem StageNameStr StageActivationI : Z.
Implicit Types (r : PipelineResource B).

(** X14.  [setElemParamI] on the activation parameter of stage i writes the
    flag of that stage and nothing else, without any call to the engine: the
    flag is off for the value 0 and on for every other value, [getElemParamI]
    reads it back as 0 or 1, and the identifier, the material link and the
    commands of the stage, all other stages, the render targets and the base
    resolution are as before. *)
Theorem setElemParamI_toggles r (i : nat) (st : PipelineStage) (v : Z) (w : W) :
  _stages r !! i = Some st ->
  Z.of_nat i < 2 ^ 31 ->
  exists r',
    setElemParamI StageElem StageActivationI r StageElem (Z.of_nat i) StageActivationI v w
    = mkOutcome (Some r') w [] /\
    _stages r' !! i
    = Some (mkPipelineStage (stage_id st) (negb (v =? 0)) (matLink st) (commands st)) /\
    (forall j, j <> i -> _stages r' !! j = _stages r !! j) /\
    length (_stages r') = length (_stages r) /\
    _renderTargets r' = _renderTargets r /\ sameFrame r r' /\
    forall w' : W,
      getElemParamI StageElem StageActivationI r' StageElem (Z.of_nat i) StageActivationI w'
      = mkOutcome (Some (if v =? 0 then 0 else 1)) w' [].
Proof.
  intros Hst Hi. pose proof (lookup_length _ _ _ Hst) as Hlt.
  assert (Hin : forall r0, length (_stages r0) = length (_stages r) ->
                           inStages r0 (Z.of_nat i) = true).
  { intros r0 Hlen. unfold inStages, Int.to_uint32. rewrite Hlen, Z.mod_small by lia.
    apply Z.ltb_lt. lia. }
  assert (Hidx : Z.to_nat (Int.to_size_t (Z.of_nat i)) = i).
  { unfold Int.to_size_t. rewrite Z.mod_small by lia. apply Nat2Z.id. }
  eexists. split.
  { unfold setElemParamI, stageAt. rewrite Z.eqb_refl, (Hin r eq_refl), Z.eqb_refl, Hidx, Hst.
    reflexivity. }
  cbn [_stages set_stages _renderTargets].
  assert (Hset : set_enabled st (if v =? 0 then false else true)
                 = mkPipelineStage (stage_id st) (negb (v =? 0)) (matLink st) (commands st)).
  { unfold set_enabled. now destruct (v =? 0). }
  rewrite Hset.
  split_and!.
  - now apply list_lookup_insert_eq.
  - intros j Hj. now apply list_lookup_insert_ne.
  - apply length_insert.
  - reflexivity.
  - now split_and!.
  - intros w'. unfold getElemParamI, stageAt.
    rewrite Z.eqb_refl, Hin by (cbn [_stages set_stages]; apply length_insert).
    rewrite Z.eqb_refl, Hidx. cbn [_stages set_stages].
    rewrite list_lookup_insert_eq by exact Hlt. cbn [enabled].
    now destruct (v =? 0).
Qed.

End Toggle.

(** ** The built-in command nodes *)

Lemma trueLike_iff (node : XMLNode) (attr : string) :
  trueLike node attr = true <-> saysTrue node attr.
Proof.
  unfold trueLike, saysTrue, XML.getAttributeDef, equalsIgnoreCase.
  destruct (XML.getAttribute node attr) as [v|].
  - rewrite orb_true_iff, !stricmp_eqb, !String.eqb_eq. split.
    + intros H. exists v. now split.
    + intros (v' & [= <-] & H). exact H.
  - split; [discriminate|]. intros (v & Hv & _). discriminate.
Qed.

Section Nodes.
Context {W : Type} {MW : Modules W} {B : Type}.
Variable toFloat : string -> F32.float.
Variable atoi : string -> Z.
Implicit Types (pm : ExternalPipelineCommandsManager W) (r : PipelineResource B).

(** X15.  A BindBuffer node with its three attributes compiles exactly when
    [sourceRT] names a declared render target: the command then points at the
    first target of that name and carries the sampler and the buffer index
    read by [atoi]; an empty or undeclared [sourceRT] is an error. *)
Theorem bindBuffer_rule pm r node1 st (w : W) (sampler sourceRT bufIndex : string) :
  XML.getName node1 = "BindBuffer" ->
  XML.getAttribute node1 "sampler" = Some sampler ->
  XML.getAttribute node1 "sourceRT" = Some sourceRT ->
  XML.getAttribute node1 "bufIndex" = Some bufIndex ->
  parseCommandNode toFloat atoi pm r node1 st w
  = mkOutcome
      match findRenderTarget r sourceRT with
      | Some p =>
          inr (push_command st
                 {| command := DefaultPipelineCommands.BindBuffer;
                    externalCommandID := -1;
                    params := [PtrParam (Some p); StringParam sampler;
                               IntParam (atoi bufIndex)] |})
      | None => inl "Reference to undefined render target in BindBuffer"
      end w [] /\
  (findRenderTarget r sourceRT = None <->
   sourceRT = "" \/ Forall (fun rt => rt_id rt <> sourceRT) (_renderTargets r)).
Proof.
  intros Hname Hs Hrt Hb. split; [|apply findRenderTarget_first_core].
  unfold parseCommandNode. rewrite Hname, !strcmp_eqb.
  change (String.eqb "BindBuffer" "SwitchTarget") with false.
  change (String.eqb "BindBuffer" "BindBuffer") with true. cbv iota.
  rewrite Hs, Hrt, Hb. now destruct (findRenderTarget r sourceRT).
Qed.

(** X16.  A DrawGeometry node needs [context] and nothing else.  Its [order]
    is read without regard to case; FRONT_TO_BACK, BACK_TO_FRONT and NONE
    select their order, and every other value, as well as no value, selects
    StateChanges without an error. *)
Theorem drawGeometry_rule pm r node1 st (w : W) :
  XML.getName node1 = "DrawGeometry" ->
  let o := parseCommandNode toFloat atoi pm r node1 st w in
  let order := XML.getAttributeDef node1 "order" "" in
  match XML.getAttribute node1 "context" with
  | None => o = mkOutcome (inl "Missing DrawGeometry attribute 'context'") w []
  | Some context =>
      exists selected,
        o = mkOutcome
              (inr (push_command st
                      {| command := DefaultPipelineCommands.DrawGeometry;
                         externalCommandID := -1;
                         params :=
                           [StringParam context;
                            IntParam (fst (matClass_addClass
                                             (XML.getAttributeDef node1 "class" "") w));
                            OrderParam selected] |}))
              (snd (matClass_addClass (XML.getAttributeDef node1 "class" "") w)) [] /\
        (selected = RenderingOrder.FrontToBack <-> equalsIgnoreCase order "FRONT_TO_BACK") /\
        (selected = RenderingOrder.BackToFront <-> equalsIgnoreCase order "BACK_TO_FRONT") /\
        (selected = RenderingOrder.None <-> equalsIgnoreCase order "NONE") /\
        (selected = RenderingOrder.StateChanges <->
         ~ equalsIgnoreCase order "FRONT_TO_BACK" /\
         ~ equalsIgnoreCase order "BACK_TO_FRONT" /\ ~ equalsIgnoreCase order "NONE")
  end.
Proof.
  intros Hname o order. subst o. unfold parseCommandNode.
  rewrite Hname, !strcmp_eqb.
  change (String.eqb "DrawGeometry" "SwitchTarget") with false.
  change (String.eqb "DrawGeometry" "BindBuffer") with false.
  change (String.eqb "DrawGeometry" "UnbindBuffers") with false.
  change (String.eqb "DrawGeometry" "ClearTarget") with false.
  change (String.eqb "DrawGeometry" "DrawGeometry") with true. cbv iota.
  destruct (XML.getAttribute node1 "context") as [context|]; [|reflexivity].
  exists (parseOrder order). split; [reflexivity|].
  unfold parseOrder, equalsIgnoreCase. rewrite !stricmp_eqb.
  change (CStr.lower "FRONT_TO_BACK") with "front_to_back".
  change (CStr.lower "BACK_TO_FRONT") with "back_to_front".
  change (CStr.lower "NONE") with "none".
  destruct (String.eqb (CStr.lower order) "front_to_back") eqn:H1.
  { apply String.eqb_eq in H1. rewrite H1.
    split_and!; split; try discriminate; try reflexivity; intros H; try discriminate H.
    now destruct H. }
  destruct (String.eqb (CStr.lower order) "back_to_front") eqn:H2.
  { apply String.eqb_eq in H2. rewrite H2.
    split_and!; split; try discriminate; try reflexivity; intros H; try discriminate H.
    now destruct H as (_ & H & _). }
  destruct (String.eqb (CStr.lower order) "none") eqn:H3.
  { apply String.eqb_eq in H3. rewrite H3.
    split_and!; split; try discriminate; try reflexivity; intros H; try discriminate H.
    now destruct H as (_ & _ & H). }
  apply String.eqb_neq in H1, H2, H3.
  split_and!; split; try discriminate; try contradiction; try reflexivity.
  intros _. now split_and!.
Qed.

(** X17.  A ClearTarget node never fails and never touches the engine.  It
    compiles to nine parameters: the five buffer flags, each on exactly when
    its attribute is "true" or "1" without regard to case, followed by the
    four colour components, which default to the reading of "0". *)
Theorem clearTarget_rule pm r node1 st (w : W) :
  XML.getName node1 = "ClearTarget" ->
  exists depth col0 col1 col2 col3,
    parseCommandNode toFloat atoi pm r node1 st w
    = mkOutcome
        (inr (push_command st
                {| command := DefaultPipelineCommands.ClearTarget;
                   externalCommandID := -1;
                   params :=
                     [BoolParam depth; BoolParam col0; BoolParam col1; BoolParam col2;
                      BoolParam col3;
                      FloatParam (toFloat (XML.getAttributeDef node1 "col_R" "0"));
                      FloatParam (toFloat (XML.getAttributeDef node1 "col_G" "0"));
                      FloatParam (toFloat (XML.getAttributeDef node1 "col_B" "0"));
                      FloatParam (toFloat (XML.getAttributeDef node1 "col_A" "0"))] |}))
        w [] /\
    (depth = true <-> saysTrue node1 "depthBuf") /\
    (col0 = true <-> saysTrue node1 "colBuf0") /\
    (col1 = true <-> saysTrue node1 "colBuf1") /\
    (col2 = true <-> saysTrue node1 "colBuf2") /\
    (col3 = true <-> saysTrue node1 "colBuf3").
Proof.
  intros Hname.
  exists (trueLike node1 "depthBuf"), (trueLike node1 "colBuf0"),
    (trueLike node1 "colBuf1"), (trueLike node1 "colBuf2"), (trueLike node1 "colBuf3").
  split; [|split_and!; apply trueLike_iff].
  unfold parseCommandNode. rewrite Hname, !strcmp_eqb.
  change (String.eqb "ClearTarget" "SwitchTarget") with false.
  change (String.eqb "ClearTarget" "BindBuffer") with false.
  change (String.eqb "ClearTarget" "UnbindBuffers") with false.
  change (String.eqb "ClearTarget" "ClearTarget") with true. reflexivity.
Qed.

(** X18.  A node that is not built in and whose name is registered is
    handed to the parse callback of the first entry of that name.  If the
    callback answers the empty message, its command is appended with the
    index of that entry; otherwise the turn ends with the callback's message
    and the stage is left as it was. *)
Theorem registered_node_rule pm r node1 st (w : W) (i : nat) entry pf :
  isBuiltin (XML.getName node1) = false ->
  firstEntry pm (XML.getName node1) i entry pf ->
  let answer :=
    pf (XML.getName node1) node1
      (newPipelineCommand DefaultPipelineCommands.ExternalCommand) w in
  parseCommandNode toFloat atoi pm r node1 st w
  = mkOutcome
      (if String.eqb (fst (fst answer)) ""
       then inr (push_command st
                   (set_externalCommandID (snd (fst answer)) (Int.to_int32 (Z.of_nat i))))
       else inl (fst (fst answer)))
      (snd answer) [CallParseFunc i (XML.getName node1)].
Proof.
  intros Hname Hfirst answer. subst answer.
  unfold isBuiltin in Hname. cbn [existsb] in Hname.
  repeat (apply orb_false_elim in Hname; destruct Hname as [? Hname]).
  unfold parseCommandNode. rewrite !strcmp_eqb.
  repeat match goal with H : String.eqb _ _ = false |- _ => rewrite H; clear H end.
  assert (Hcount : (registeredCommandsCount pm >? 0) = true).
  { destruct Hfirst as (Hl & _). apply lookup_length in Hl.
    unfold registeredCommandsCount. apply Z.gtb_lt. lia. }
  rewrite Hcount. unfold bind.
  rewrite (parseCommand_first_match_core _ _ _ _ _ _ _ _ _ Hfirst).
  cbn [value after events].
  destruct (String.eqb (fst (fst (pf _ node1 _ w))) ""); reflexivity.
Qed.

(** X21.  DrawQuad needs [material] and [context], SetUniform needs
    [material] and [uniform]; the missing [material] is reported first.  With
    both attributes the material is requested from the resource manager and
    the resolved resource becomes the first parameter. *)
Theorem material_nodes_rule pm r node1 st (w : W) :
  let o := parseCommandNode toFloat atoi pm r node1 st w in
  let resource name := value (addMaterial name w) in
  let engine name := after (addMaterial name w) in
  (XML.getName node1 = "DrawQuad" ->
   match XML.getAttribute node1 "material", XML.getAttribute node1 "context" with
   | None, _ => o = mkOutcome (inl "Missing DrawQuad attribute 'material'") w []
   | Some _, None => o = mkOutcome (inl "Missing DrawQuad attribute 'context'") w []
   | Some material, Some context =>
       o = mkOutcome
             (inr (push_command st
                     {| command := DefaultPipelineCommands.DrawQuad;
                        externalCommandID := -1;
                        params := [ResourceParam (resource material);
                                   StringParam context] |}))
             (engine material) []
   end) /\
  (XML.getName node1 = "SetUniform" ->
   match XML.getAttribute node1 "material", XML.getAttribute node1 "uniform" with
   | None, _ => o = mkOutcome (inl "Missing SetUniform attribute 'material'") w []
   | Some _, None => o = mkOutcome (inl "Missing SetUniform attribute 'uniform'") w []
   | Some material, Some uniform =>
       o = mkOutcome
             (inr (push_command st
                     {| command := DefaultPipelineCommands.SetUniform;
                        externalCommandID := -1;
                        params :=
                          [ResourceParam (resource material); StringParam uniform;
                           FloatParam (toFloat (XML.getAttributeDef node1 "a" "0"));
                           FloatParam (toFloat (XML.getAttributeDef node1 "b" "0"));
                           FloatParam (toFloat (XML.getAttributeDef node1 "c" "0"));
                           FloatParam (toFloat (XML.getAttributeDef node1 "d" "0"))] |}))
             (engine material) []
   end).
Proof.
  intros o resource engine. subst o resource engine. split; intros Hname.
  - unfold parseCommandNode. rewrite Hname, !strcmp_eqb.
    change (String.eqb "DrawQuad" "SwitchTarget") with false.
    change (String.eqb "DrawQuad" "BindBuffer") with false.
    change (String.eqb "DrawQuad" "UnbindBuffers") with false.
    change (String.eqb "DrawQuad" "ClearTarget") with false.
    change (String.eqb "DrawQuad" "DrawGeometry") with false.
    change (String.eqb "DrawQuad" "DrawQuad") with true. cbv iota.
    destruct (XML.getAttribute node1 "material"); [|reflexivity].
    destruct (XML.getAttribute node1 "context"); reflexivity.
  - unfold parseCommandNode. rewrite Hname, !strcmp_eqb.
    change (String.eqb "SetUniform" "SwitchTarget") with false.
    change (String.eqb "SetUniform" "BindBuffer") with false.
    change (String.eqb "SetUniform" "UnbindBuffers") with false.
    change (String.eqb "SetUniform" "ClearTarget") with false.
    change (String.eqb "SetUniform" "DrawGeometry") with false.
    change (String.eqb "SetUniform" "DrawQuad") with false.
    change (String.eqb "SetUniform" "DoForwardLightLoop") with false.
    change (String.eqb "SetUniform" "DoDeferredLightLoop") with false.
    change (String.eqb "SetUniform" "SetUniform") with true. cbv iota.
    destruct (XML.getAttribute node1 "material"); [|reflexivity].
    destruct (XML.getAttribute node1 "uniform"); reflexivity.
Qed.

(** X22.  The light-loop nodes never fail, whatever attributes they carry,
    and [noShadows] is on exactly for the value "true" up to case: unlike the
    flags of ClearTarget, "1" does not switch it on. *)
Theorem lightLoop_rule pm r node1 st (w : W) :
  XML.getName node1 = "DoForwardLightLoop" \/ XML.getName node1 = "DoDeferredLightLoop" ->
  exists cmd noShadows,
    value (parseCommandNode toFloat atoi pm r node1 st w) = inr (push_command st cmd) /\
    events (parseCommandNode toFloat atoi pm r node1 st w) = [] /\
    externalCommandID cmd = -1 /\
    In (BoolParam noShadows) (params cmd) /\
    (forall b, In (BoolParam b) (params cmd) -> b = noShadows) /\
    (noShadows = true <->
     exists v, XML.getAttribute node1 "noShadows" = Some v /\ equalsIgnoreCase v "true").
Proof.
  assert (Hflag : (CStr._stricmp (XML.getAttributeDef node1 "noShadows" "false") "true" =? 0)
                  = true <->
                  exists v, XML.getAttribute node1 "noShadows" = Some v /\
                            equalsIgnoreCase v "true").
  { unfold XML.getAttributeDef, equalsIgnoreCase. rewrite stricmp_eqb.
    destruct (XML.getAttribute node1 "noShadows") as [v|].
    - rewrite String.eqb_eq. split.
      + intros H. exists v. now split.
      + intros (v' & [= <-] & H). exact H.
    - split; [discriminate|]. intros (v & Hv & _). discriminate. }
  intros [Hname|Hname]; unfold parseCommandNode; rewrite Hname, !strcmp_eqb.
  - change (String.eqb "DoForwardLightLoop" "SwitchTarget") with false.
    change (String.eqb "DoForwardLightLoop" "BindBuffer") with false.
    change (String.eqb "DoForwardLightLoop" "UnbindBuffers") with false.
    change (String.eqb "DoForwardLightLoop" "ClearTarget") with false.
    change (String.eqb "DoForwardLightLoop" "DrawGeometry") with false.
    change (String.eqb "DoForwardLightLoop" "DrawQuad") with false.
    change (String.eqb "DoForwardLightLoop" "DoForwardLightLoop") with true. cbv iota.
    eexists. eexists. split; [reflexivity|]. split; [reflexivity|].
    split; [reflexivity|]. cbn [params withParams].
    split; [right; right; left; reflexivity|]. split; [|exact Hflag].
    intros b [Hb|[Hb|[Hb|[Hb|[]]]]]; try discriminate. now injection Hb.
  - change (String.eqb "DoDeferredLightLoop" "SwitchTarget") with false.
    change (String.eqb "DoDeferredLightLoop" "BindBuffer") with false.
    change (String.eqb "DoDeferredLightLoop" "UnbindBuffers") with false.
    change (String.eqb "DoDeferredLightLoop" "ClearTarget") with false.
    change (String.eqb "DoDeferredLightLoop" "DrawGeometry") with false.
    change (String.eqb "DoDeferredLightLoop" "DrawQuad") with false.
    change (String.eqb "DoDeferredLightLoop" "DoForwardLightLoop") with false.
    change (String.eqb "DoDeferredLightLoop" "DoDeferredLightLoop") with true. cbv iota.
    eexists. eexists. split; [reflexivity|]. split; [reflexivity|].
    split; [reflexivity|]. cbn [params withParams].
    split; [right; left; reflexivity|]. split; [|exact Hflag].
    intros b [Hb|[Hb|[]]]; try discriminate. now injection Hb.
Qed.

End Nodes.

(** ** Declaration and readback of render targets *)

Section Declarations.
Context {W : Type} {MW : Modules W} {B : Type}.
Variable toFloat : string -> F32.float.
Variable atoi : string -> Z.
Implicit Types (r : PipelineResource B).

(** X19.  A RenderTarget node with [id], [depthBuf] and [numColBufs] is an
    error only for a [format] that is none of RGBA8, RGBA16F and RGBA32F up
    to case; the resource is then as before.  Otherwise one target is
    appended, not yet realized: it has a depth buffer exactly when [depthBuf]
    is "true" up to case, the format BGRA8 unless RGBA16F or RGBA32F is asked
    for, and the smaller of [maxSamples] and the configured sample count as
    its sample count, converted to [uint32]. *)
Theorem renderTarget_node_rule r node2 (w : W) (id depth cols : string) :
  XML.getAttribute node2 "id" = Some id ->
  XML.getAttribute node2 "depthBuf" = Some depth ->
  XML.getAttribute node2 "numColBufs" = Some cols ->
  let o := parseRenderTarget toFloat atoi r node2 w in
  after o = w /\ events o = [] /\
  (unknownFormat node2 -> value o = (Some "Unknown RenderTarget format", r)) /\
  (~ unknownFormat node2 ->
   exists rt,
     value o = (None, set_renderTargets r (_renderTargets r ++ [rt])) /\
     rt_id rt = id /\ rendBuf rt = 0 /\
     (hasDepthBuf rt = true <-> equalsIgnoreCase depth "true") /\
     numColBufs rt = Int.to_uint32 (atoi cols) /\
     (format rt = RGBA16F <-> asksFormat node2 "RGBA16F") /\
     (format rt = RGBA32F <-> asksFormat node2 "RGBA32F") /\
     samples rt
     = Int.to_uint32 (Z.min (atoi (XML.getAttributeDef node2 "maxSamples" "0"))
                            (config_sampleCount w)) /\
     rt_width rt = Int.to_uint32 (atoi (XML.getAttributeDef node2 "width" "0")) /\
     rt_height rt = Int.to_uint32 (atoi (XML.getAttributeDef node2 "height" "0")) /\
     scale rt = toFloat (XML.getAttributeDef node2 "scale" "1")).
Proof.
  intros Hid Hdepth Hcols o. subst o.
  unfold parseRenderTarget, unknownFormat, asksFormat, equalsIgnoreCase.
  rewrite Hid, Hdepth, Hcols.
  change (CStr.lower "RGBA8") with "rgba8". change (CStr.lower "RGBA16F") with "rgba16f".
  change (CStr.lower "RGBA32F") with "rgba32f". change (CStr.lower "true") with "true".
  assert (Hadded : forall fmt,
    (fmt = RGBA16F <-> exists f, XML.getAttribute node2 "format" = Some f /\
                                 CStr.lower f = "rgba16f") ->
    (fmt = RGBA32F <-> exists f, XML.getAttribute node2 "format" = Some f /\
                                 CStr.lower f = "rgba32f") ->
    exists rt,
      (@None string,
       addRenderTarget r id (CStr._stricmp depth "true" =? 0)
         (Int.to_uint32 (atoi cols)) fmt
         (Int.to_uint32 (Z.min (atoi (XML.getAttributeDef node2 "maxSamples" "0"))
                               (config_sampleCount w)))
         (Int.to_uint32 (atoi (XML.getAttributeDef node2 "width" "0")))
         (Int.to_uint32 (atoi (XML.getAttributeDef node2 "height" "0")))
         (toFloat (XML.getAttributeDef node2 "scale" "1")))
      = (None, set_renderTargets r (_renderTargets r ++ [rt])) /\
      rt_id rt = id /\ rendBuf rt = 0 /\
      (hasDepthBuf rt = true <-> CStr.lower depth = "true") /\
      numColBufs rt = Int.to_uint32 (atoi cols) /\
      (format rt = RGBA16F <-> exists f, XML.getAttribute node2 "format" = Some f /\
                                         CStr.lower f = "rgba16f") /\
      (format rt = RGBA32F <-> exists f, XML.getAttribute node2 "format" = Some f /\
                                         CStr.lower f = "rgba32f") /\
      samples rt
      = Int.to_uint32 (Z.min (atoi (XML.getAttributeDef node2 "maxSamples" "0"))
                             (config_sampleCount w)) /\
      rt_width rt = Int.to_uint32 (atoi (XML.getAttributeDef node2 "width" "0")) /\
      rt_height rt = Int.to_uint32 (atoi (XML.getAttributeDef node2 "height" "0")) /\
      scale rt = toFloat (XML.getAttributeDef node2 "scale" "1")).
  { intros fmt H16 H32. eexists. split; [reflexivity|]. cbn.
    split_and!; try reflexivity; try assumption.
    rewrite stricmp_eqb. apply String.eqb_eq. }
  destruct (XML.getAttribute node2 "format") as [f|] eqn:Hf.
  - rewrite !(stricmp_eqb f).
    change (CStr.lower "RGBA8") with "rgba8". change (CStr.lower "RGBA16F") with "rgba16f".
    change (CStr.lower "RGBA32F") with "rgba32f".
    destruct (String.eqb (CStr.lower f) "rgba8") eqn:H8.
    { apply String.eqb_eq in H8. unfold bind, ask, ret; cbn [value after events app]. split_and!; try reflexivity.
      - intros (f' & [= <-] & Hn8 & _). contradiction.
      - intros _. apply Hadded; (split; [discriminate|]);
          intros (f' & [= <-] & Hf'); congruence. }
    destruct (String.eqb (CStr.lower f) "rgba16f") eqn:H16.
    { apply String.eqb_eq in H16. unfold bind, ask, ret; cbn [value after events app]. split_and!; try reflexivity.
      - intros (f' & [= <-] & _ & Hn16 & _). contradiction.
      - intros _. apply Hadded.
        + split; [intros _; now exists f|reflexivity].
        + split; [discriminate|]. intros (f' & [= <-] & Hf'). congruence. }
    destruct (String.eqb (CStr.lower f) "rgba32f") eqn:H32.
    { apply String.eqb_eq in H32. unfold bind, ask, ret; cbn [value after events app]. split_and!; try reflexivity.
      - intros (f' & [= <-] & _ & _ & Hn32). contradiction.
      - intros _. apply Hadded.
        + split; [discriminate|]. intros (f' & [= <-] & Hf'). congruence.
        + split; [intros _; now exists f|reflexivity]. }
    apply String.eqb_neq in H8, H16, H32. cbn.
    split_and!; try reflexivity.
    intros Hknown. destruct Hknown. exists f. now split_and!.
  - unfold bind, ask, ret; cbn [value after events app]. split_and!; try reflexivity.
    + intros (f & Hf' & _). discriminate.
    + intros _. apply Hadded; (split; [discriminate|]); intros (f & Hf' & _); discriminate.
Qed.

End Declarations.

Section ReadbackFacts.
Context {W : Type} {Data : Type} {RD : RenderBufferData W Data} {B : Type}.
Implicit Types (r : PipelineResource B).

(** X20.  [getRenderTargetData] asks the device about the backbuffer (render
    buffer 0) for the empty target name and about the device object of the
    first render target of that name otherwise, and passes the device's
    answer on; for a name no render target has it answers false without
    asking the device.  It never reads outside the render targets. *)
Theorem getRenderTargetData_rule r (target : string) (bufIndex bufferSize : Z) (w : W) :
  let o := getRenderTargetData r target bufIndex bufferSize w in
  let query rbObj :=
    mkOutcome
      (Some (fst (fst (rdi_getRenderBufferData rbObj bufIndex bufferSize w)),
             Some (snd (fst (rdi_getRenderBufferData rbObj bufIndex bufferSize w)))))
      (snd (rdi_getRenderBufferData rbObj bufIndex bufferSize w)) [] in
  (target = "" -> o = query 0) /\
  (target <> "" -> Forall (fun rt => rt_id rt <> target) (_renderTargets r) ->
   o = mkOutcome (Some (false, None)) w []) /\
  (forall i rt, target <> "" -> firstWithId (_renderTargets r) target i ->
                _renderTargets r !! i = Some rt -> o = query (rendBuf rt)) /\
  value o <> None.
Proof.
  intros o query. subst o query. unfold getRenderTargetData.
  assert (Hq : forall rbObj,
    bind (call (rdi_getRenderBufferData rbObj bufIndex bufferSize))
      (fun pat => let (ok, data) := pat in ret (Some (ok, Some data))) w
    = mkOutcome
        (Some (fst (fst (rdi_getRenderBufferData rbObj bufIndex bufferSize w)),
               Some (snd (fst (rdi_getRenderBufferData rbObj bufIndex bufferSize w)))))
        (snd (rdi_getRenderBufferData rbObj bufIndex bufferSize w)) []).
  { intros rbObj. unfold bind, call, ret. cbn [value after events].
    now destruct (rdi_getRenderBufferData rbObj bufIndex bufferSize w) as [[ok data] w']. }
  split_and!.
  - intros ->. cbn [String.eqb negb]. apply Hq.
  - intros Hne Hall. apply String.eqb_neq in Hne. rewrite Hne. cbn [negb].
    now rewrite (proj2 (findRenderTarget_first_core r target) (or_intror Hall)).
  - intros i rt Hne Hfirst Hrt.
    rewrite (proj2 (findRenderTarget_cases r target i) (conj Hne Hfirst)).
    apply String.eqb_neq in Hne. rewrite Hne. cbn [negb].
    unfold rendBufAt. rewrite Hrt. cbn [option_map]. apply Hq.
  - destruct (negb (String.eqb target "")); [|now rewrite Hq].
    destruct (findRenderTarget r target) as [p|] eqn:Hfind; [|discriminate].
    apply findRenderTarget_cases in Hfind as (_ & (rt & Hrt & _) & _).
    unfold rendBufAt. rewrite Hrt. cbn [option_map]. now rewrite Hq.
Qed.

End ReadbackFacts.

(** * The further properties on the sample engine *)

Lemma fog_is_first : firstEntry Cases.fogRegistry "Fog" 2 Cases.fogEntry Cases.fogParse.
Proof.
  split; [reflexivity|]. split; [reflexivity|]. split; [reflexivity|].
  constructor; [left; discriminate|]. constructor; [left; discriminate|]. constructor.
Defined.

Lemma fog_is_new : unregistered Scenario.registry "Fog".
Proof.
  constructor; [left; discriminate|]. constructor; [left; discriminate|]. constructor.
Defined.

Lemma parseCommand_first_match_witness :
  firstEntry Cases.fogRegistry "Fog" 2 Cases.fogEntry Cases.fogParse /\
  parseCommand Cases.fogRegistry "Fog" Cases.fogNode
    (newPipelineCommand DefaultPipelineCommands.ExternalCommand) true (Sample.world 8)
  = mkOutcome
      ("", {| command := DefaultPipelineCommands.ExternalCommand; externalCommandID := 2;
              params := [StringParam "0.3"] |}, true)
      (Sample.world 8) [CallParseFunc 2 "Fog"].
Proof.
  split; [exact fog_is_first|].
  exact (eq_trans
           (parseCommand_first_match Cases.fogRegistry "Fog" 2 Cases.fogEntry Cases.fogParse
              Cases.fogNode (newPipelineCommand DefaultPipelineCommands.ExternalCommand)
              true (Sample.world 8) fog_is_first) eq_refl).
Defined.

Lemma registration_extends_witness :
  registerPipelineCommand Scenario.registry "Fog" (Some Cases.fogParse)
    (Some Cases.fogExecute) = Some Cases.fogRegistry /\
  registeredCommandsCount Cases.fogRegistry = 3 /\
  exists p, Some Cases.fogParse = Some p /\
            firstEntry Cases.fogRegistry "Fog" 2 Cases.fogEntry p.
Proof.
  pose proof (registration_extends Scenario.registry Cases.fogRegistry "Fog"
                (Some Cases.fogParse) (Some Cases.fogExecute) eq_refl)
    as (_ & Hcount & _ & _ & Hnew & _).
  split; [reflexivity|]. split; [exact Hcount|]. exact (Hnew fog_is_new).
Defined.

Example registration_asserts :
  registerPipelineCommand Scenario.registry "" (Some Cases.fogParse)
    (Some Cases.fogExecute) = None /\
  registerPipelineCommand Scenario.registry "Fog" None (Some Cases.fogExecute) = None /\
  registerPipelineCommand Scenario.registry "Fog" (Some Cases.fogParse) None = None.
Proof. split_and!; reflexivity. Qed.

Lemma executeCommand_dispatch_witness :
  let cmd := set_externalCommandID
               (newPipelineCommand DefaultPipelineCommands.ExternalCommand) 2 in
  let lost := set_externalCommandID
                (newPipelineCommand DefaultPipelineCommands.ExternalCommand) 3 in
  executeCommand Cases.fogRegistry cmd (Sample.world 8)
  = mkOutcome (Some tt) (Cases.fogExecute cmd (Sample.world 8)) [CallExecuteFunc 2] /\
  executeCommand Cases.fogRegistry lost (Sample.world 8) = mkOutcome None (Sample.world 8) [].
Proof.
  intros cmd lost.
  pose proof (executeCommand_dispatch Cases.fogRegistry) as [Hcall Hlost].
  split.
  - apply (Hcall cmd 2%nat Cases.fogEntry Cases.fogExecute (Sample.world 8));
      [reflexivity|reflexivity|unfold Int.is_int32; cbn; lia|reflexivity].
  - apply (Hlost lost (Sample.world 8));
      [unfold Int.is_int32; cbn; lia|cbn; lia|cbn; lia|right; cbn; lia].
Defined.

Lemma parse_then_execute_witness :
  let parsed :=
    snd (fst (value (parseCommand Cases.fogRegistry "Fog" Cases.fogNode
                       (newPipelineCommand DefaultPipelineCommands.ExternalCommand) true
                       (Sample.world 8)))) in
  firstEntry Cases.fogRegistry "Fog" 2 Cases.fogEntry Cases.fogParse /\
  externalCommandID parsed = 2 /\
  executeCommand Cases.fogRegistry parsed (Sample.world 8)
  = mkOutcome (Some tt) (Cases.fogExecute parsed (Sample.world 8)) [CallExecuteFunc 2].
Proof.
  intros parsed.
  assert (Hi : Z.of_nat 2 < 2 ^ 31) by (cbn; lia).
  pose proof (parse_then_execute Cases.fogRegistry "Fog" 2 Cases.fogEntry Cases.fogParse
                Cases.fogExecute Cases.fogNode
                (newPipelineCommand DefaultPipelineCommands.ExternalCommand)
                (Sample.world 8) (Sample.world 8) fog_is_first eq_refl eq_refl Hi)
    as (_ & Hid & Hexec).
  split; [exact fog_is_first|]. split; [exact Hid|exact Hexec].
Defined.

Example release_twins :
  events (release Cases.twins (Sample.world 8))
  = [DestroyRenderBuffer 5; DestroyRenderBuffer 7].
Proof. reflexivity. Qed.

Lemma resize_leaves_no_stale_handle_witness :
  let o := resize Sample.ftoi_r Cases.three 640 480 (Sample.world 1) in
  (forall rb w', fst (Sample.destroyRenderBuffer rb w') = 0) /\
  created (events o) = [1; 0] /\
  map rendBuf (_renderTargets (value o)) = [1; 0; 0] /\
  map rendBuf (take 2 (_renderTargets (value o))) = created (events o) /\
  Forall (fun rt => rendBuf rt = 0) (drop 2 (_renderTargets (value o))).
Proof.
  intros o.
  assert (Hclear : forall rb w', fst (Sample.destroyRenderBuffer rb w') = 0)
    by (intros rb w'; reflexivity).
  split; [exact Hclear|]. split; [vm_compute; reflexivity|].
  split; [vm_compute; reflexivity|].
  exact (resize_leaves_no_stale_handle Sample.ftoi_r Cases.three 640 480 (Sample.world 1)
           Hclear).
Defined.

Lemma load_balances_device_witness :
  let o := Scenario.load (Some Scenario.deferred) 1 in
  Forall (fun rt => rendBuf rt = 0) (_renderTargets Sample.fresh) /\
  created (events o) = [1; 0] /\
  destroyed (events o) = [1].
Proof.
  intros o.
  assert (Hfresh : Forall (fun rt => rendBuf rt = 0) (_renderTargets Sample.fresh))
    by constructor.
  split; [exact Hfresh|]. split; [reflexivity|].
  exact (eq_trans
           (load_balances_device Sample.toFloat Sample.atoi Sample.ftoi_r Scenario.registry
              Sample.fresh (Some Scenario.deferred) (Sample.world 1) Hfresh) eq_refl).
Defined.

Lemma load_realizes_declared_witness :
  let o := Scenario.load (Some Scenario.deferred) 8 in
  fst (value o) = true /\ _renderTargets Sample.fresh = [] /\
  map idAttr (targetNodes Scenario.deferred) = ["GBUF"; "BLUR"] /\
  exists root,
    Some Scenario.deferred = Some root /\
    map rt_id (_renderTargets (snd (value o))) = map idAttr (targetNodes root) /\
    map rendBuf (_renderTargets (snd (value o))) = created (events o) /\
    Forall (fun rb => rb <> 0) (created (events o)).
Proof.
  intros o. split; [reflexivity|]. split; [reflexivity|]. split; [reflexivity|].
  exact (load_realizes_declared Sample.toFloat Sample.atoi Sample.ftoi_r Scenario.registry Sample.fresh
           (Some Scenario.deferred) (Sample.world 8) eq_refl eq_refl).
Defined.

Lemma load_stage_count_witness :
  let o := Scenario.load (Some Scenario.deferred) 8 in
  fst (value o) = true /\ _stages Sample.fresh = [] /\
  exists root,
    Some Scenario.deferred = Some root /\
    length (_stages (snd (value o))) = length (stageNodes root) /\
    (Z.of_nat (length (stageNodes root)) < 2 ^ 31 ->
     forall w' : Sample.World,
       getElemCount Sample.StageElem (snd (value o)) Sample.StageElem w'
       = mkOutcome (Z.of_nat (length (stageNodes root))) w' []).
Proof.
  intros o. split; [reflexivity|]. split; [reflexivity|].
  exact (load_stage_count Sample.toFloat Sample.atoi Sample.ftoi_r Sample.StageElem Scenario.registry
           Sample.fresh (Some Scenario.deferred) (Sample.world 8) eq_refl eq_refl).
Defined.

Example count_of_deferred :
  value (getElemCount Sample.StageElem Cases.loaded Sample.StageElem Cases.engine) = 2.
Proof. reflexivity. Qed.

Lemma load_stage_name_witness :
  let o := Scenario.load (Some Scenario.deferred) 8 in
  fst (value o) = true /\ _stages Sample.fresh = [] /\ Z.of_nat 1 < 2 ^ 31 /\
  stageNodes Scenario.deferred !! 1%nat = Some Scenario.combineStage /\
  exists root,
    Some Scenario.deferred = Some root /\
    forall node, stageNodes root !! 1%nat = Some node ->
    forall w' : Sample.World,
      getElemParamStr Sample.StageElem Sample.StageNameStr (snd (value o))
        Sample.StageElem (Z.of_nat 1) Sample.StageNameStr w'
      = mkOutcome (Some (XML.getAttributeDef node "id" "")) w' [].
Proof.
  intros o.
  assert (Hi : Z.of_nat 1 < 2 ^ 31) by (cbn; lia).
  split; [reflexivity|]. split; [reflexivity|]. split; [exact Hi|]. split; [reflexivity|].
  exact (load_stage_name Sample.toFloat Sample.atoi Sample.ftoi_r Sample.StageElem Sample.StageNameStr
           Scenario.registry Sample.fresh (Some Scenario.deferred) (Sample.world 8) 1%nat
           eq_refl eq_refl Hi).
Defined.

Example name_of_combine :
  value (getElemParamStr Sample.StageElem Sample.StageNameStr Cases.loaded
           Sample.StageElem 1 Sample.StageNameStr Cases.engine) = Some "Combine".
Proof. reflexivity. Qed.

Lemma setElemParamI_toggles_witness :
  exists st,
    _stages Cases.loaded !! 0%nat = Some st /\ Z.of_nat 0 < 2 ^ 31 /\ enabled st = false /\
    exists r',
      setElemParamI Sample.StageElem Sample.StageActivationI Cases.loaded
        Sample.StageElem (Z.of_nat 0) Sample.StageActivationI 5 Cases.engine
      = mkOutcome (Some r') Cases.engine [] /\
      _stages r' !! 0%nat
      = Some (mkPipelineStage (stage_id st) (negb (5 =? 0)) (matLink st) (commands st)) /\
      (forall j, j <> 0%nat -> _stages r' !! j = _stages Cases.loaded !! j) /\
      length (_stages r') = length (_stages Cases.loaded) /\
      _renderTargets r' = _renderTargets Cases.loaded /\ sameFrame Cases.loaded r' /\
      forall w' : Sample.World,
        getElemParamI Sample.StageElem Sample.StageActivationI r'
          Sample.StageElem (Z.of_nat 0) Sample.StageActivationI w'
        = mkOutcome (Some (if 5 =? 0 then 0 else 1)) w' [].
Proof.
  assert (Hi : Z.of_nat 0 < 2 ^ 31) by (cbn; lia).
  destruct (_stages Cases.loaded !! 0%nat) as [st|] eqn:Hst; [|vm_compute in Hst; discriminate].
  exists st. split; [reflexivity|]. split; [exact Hi|].
  split; [vm_compute in Hst; injection Hst as <-; reflexivity|].
  exact (setElemParamI_toggles Sample.StageElem Sample.StageActivationI Cases.loaded 0%nat
           st 5 Cases.engine Hst Hi).
Defined.

Lemma bindBuffer_rule_witness :
  XML.getName Cases.bindNode = "BindBuffer" /\
  parseCommandNode Sample.toFloat Sample.atoi Scenario.registry Cases.loaded Cases.bindNode
    newPipelineStage Cases.engine
  = mkOutcome
      (inr (push_command newPipelineStage
              {| command := DefaultPipelineCommands.BindBuffer; externalCommandID := -1;
                 params := [PtrParam (Some 1%nat); StringParam "buf0"; IntParam 2] |}))
      Cases.engine [].
Proof.
  split; [reflexivity|].
  exact (eq_trans
           (proj1 (bindBuffer_rule Sample.toFloat Sample.atoi Scenario.registry Cases.loaded
                     Cases.bindNode newPipelineStage Cases.engine "buf0" "BLUR" "2"
                     eq_refl eq_refl eq_refl eq_refl)) eq_refl).
Defined.

Lemma drawGeometry_rule_witness :
  XML.getName Cases.drawNode = "DrawGeometry" /\
  exists selected,
    value (parseCommandNode Sample.toFloat Sample.atoi Scenario.registry Cases.loaded Cases.drawNode
             newPipelineStage Cases.engine)
    = inr (push_command newPipelineStage
             {| command := DefaultPipelineCommands.DrawGeometry; externalCommandID := -1;
                params := [StringParam "LIGHT"; IntParam 0; OrderParam selected] |}) /\
    (selected = RenderingOrder.BackToFront <->
     equalsIgnoreCase "Back_To_Front" "BACK_TO_FRONT").
Proof.
  split; [reflexivity|].
  destruct (drawGeometry_rule Sample.toFloat Sample.atoi Scenario.registry Cases.loaded Cases.drawNode
              newPipelineStage Cases.engine eq_refl) as (selected & Ho & _ & Hback & _).
  exists selected. split; [exact (f_equal value Ho)|exact Hback].
Defined.

Lemma clearTarget_rule_witness :
  XML.getName Cases.clearNode = "ClearTarget" /\
  saysTrue Cases.clearNode "depthBuf" /\ saysTrue Cases.clearNode "colBuf1" /\
  exists depth col0 col1 col2 col3,
    value (parseCommandNode Sample.toFloat Sample.atoi Scenario.registry Cases.loaded Cases.clearNode
             newPipelineStage Cases.engine)
    = inr (push_command newPipelineStage
             {| command := DefaultPipelineCommands.ClearTarget; externalCommandID := -1;
                params :=
                  [BoolParam depth; BoolParam col0; BoolParam col1; BoolParam col2;
                   BoolParam col3;
                   FloatParam (S754_zero false); FloatParam (S754_zero false);
                   FloatParam (S754_zero false); FloatParam (S754_zero false)] |}) /\
    depth = true /\ col1 = true.
Proof.
  assert (Hd : saysTrue Cases.clearNode "depthBuf")
    by (exists "TRUE"; split; [reflexivity|left; reflexivity]).
  assert (Hc : saysTrue Cases.clearNode "colBuf1")
    by (exists "1"; split; [reflexivity|right; reflexivity]).
  split; [reflexivity|]. split; [exact Hd|]. split; [exact Hc|].
  destruct (clearTarget_rule Sample.toFloat Sample.atoi Scenario.registry Cases.loaded Cases.clearNode
              newPipelineStage Cases.engine eq_refl)
    as (depth & col0 & col1 & col2 & col3 & Ho & Hdepth & _ & Hcol1 & _).
  exists depth, col0, col1, col2, col3.
  split; [exact (f_equal value Ho)|]. split; [now apply Hdepth|now apply Hcol1].
Defined.

Lemma registered_node_rule_witness :
  isBuiltin (XML.getName Cases.fogNode) = false /\
  firstEntry Cases.fogRegistry (XML.getName Cases.fogNode) 2 Cases.fogEntry Cases.fogParse /\
  parseCommandNode Sample.toFloat Sample.atoi Cases.fogRegistry Cases.loaded Cases.fogNode
    newPipelineStage Cases.engine
  = mkOutcome
      (inr (push_command newPipelineStage
              {| command := DefaultPipelineCommands.ExternalCommand;
                 externalCommandID := 2; params := [StringParam "0.3"] |}))
      Cases.engine [CallParseFunc 2 "Fog"].
Proof.
  split; [reflexivity|]. split; [exact fog_is_first|].
  exact (eq_trans
           (registered_node_rule Sample.toFloat Sample.atoi Cases.fogRegistry Cases.loaded Cases.fogNode
              newPipelineStage Cases.engine 2 Cases.fogEntry Cases.fogParse eq_refl
              fog_is_first) eq_refl).
Defined.

Lemma renderTarget_node_rule_witness :
  let o := parseRenderTarget Sample.toFloat Sample.atoi Sample.fresh Cases.targetNode
             (Sample.mkWorld 1 8 [] [] [] 4) in
  XML.getAttribute Cases.targetNode "id" = Some "HDR" /\
  XML.getAttribute Cases.targetNode "depthBuf" = Some "1" /\
  XML.getAttribute Cases.targetNode "numColBufs" = Some "1" /\
  ~ unknownFormat Cases.targetNode /\
  exists rt,
    value o = (None, set_renderTargets Sample.fresh (_renderTargets Sample.fresh ++ [rt])) /\
    rt_id rt = "HDR" /\ rendBuf rt = 0 /\
    (hasDepthBuf rt = true <-> equalsIgnoreCase "1" "true") /\
    samples rt = 4.
Proof.
  intros o.
  assert (Hknown : ~ unknownFormat Cases.targetNode).
  { intros (f & Hf & Hn8 & _). injection Hf as <-. now apply Hn8. }
  split; [reflexivity|]. split; [reflexivity|]. split; [reflexivity|]. split; [exact Hknown|].
  destruct (renderTarget_node_rule Sample.toFloat Sample.atoi Sample.fresh Cases.targetNode
              (Sample.mkWorld 1 8 [] [] [] 4) "HDR" "1" "1" eq_refl eq_refl eq_refl)
    as (_ & _ & _ & Hadd).
  destruct (Hadd Hknown) as (rt & Hv & Hid & Hrb & Hdepth & _ & _ & _ & Hs & _).
  exists rt. split; [exact Hv|]. split; [exact Hid|]. split; [exact Hrb|].
  split; [exact Hdepth|exact Hs].
Defined.

Example one_is_no_depth_buffer :
  map hasDepthBuf
    (_renderTargets (snd (value (parseRenderTarget Sample.toFloat Sample.atoi Sample.fresh
                                   Cases.targetNode (Sample.world 8)))))
  = [false].
Proof. reflexivity. Qed.

Lemma blur_is_second : firstWithId (_renderTargets Cases.loaded) "BLUR" 1.
Proof.
  split.
  - vm_compute. eexists. split; reflexivity.
  - intros [|j] rt Hj Hl; [|lia]. vm_compute in Hl. injection Hl as <-. discriminate.
Defined.

Lemma getRenderTargetData_rule_witness :
  getRenderTargetData Cases.loaded "BLUR" 0 64 Cases.engine
  = mkOutcome (Some (true, Some 2)) Cases.engine [] /\
  getRenderTargetData Cases.loaded "HDR" 0 64 Cases.engine
  = mkOutcome (Some (false, None)) Cases.engine [] /\
  getRenderTargetData Cases.loaded "" 0 64 Cases.engine
  = mkOutcome (Some (true, Some 0)) Cases.engine [].
Proof.
  pose proof (getRenderTargetData_rule Cases.loaded "BLUR" 0 64 Cases.engine)
    as (_ & _ & Hfound & _).
  pose proof (getRenderTargetData_rule Cases.loaded "HDR" 0 64 Cases.engine)
    as (_ & Hlost & _).
  pose proof (getRenderTargetData_rule Cases.loaded "" 0 64 Cases.engine) as (Hback & _).
  split_and!.
  - destruct (_renderTargets Cases.loaded !! 1%nat) as [rt|] eqn:Hblur;
      [|vm_compute in Hblur; discriminate].
    rewrite (Hfound 1%nat rt ltac:(discriminate) blur_is_second Hblur).
    vm_compute in Hblur. injection Hblur as <-. vm_compute. reflexivity.
  - apply Hlost; [discriminate|]. vm_compute. repeat constructor; discriminate.
  - rewrite (Hback eq_refl). vm_compute. reflexivity.
Defined.

Lemma material_nodes_rule_witness :
  XML.getName Cases.quadNode = "DrawQuad" /\
  parseCommandNode Sample.toFloat Sample.atoi Scenario.registry Sample.fresh Cases.quadNode
    newPipelineStage (Sample.world 8)
  = mkOutcome
      (inr (push_command newPipelineStage
              {| command := DefaultPipelineCommands.DrawQuad; externalCommandID := -1;
                 params := [ResourceParam 1; StringParam "COPY"] |}))
      (Sample.mkWorld 1 8 [] ["combine.material.xml"] [] 0) [].
Proof.
  split; [reflexivity|].
  exact (eq_trans
           (proj1 (material_nodes_rule Sample.toFloat Sample.atoi Scenario.registry Sample.fresh
                     Cases.quadNode newPipelineStage (Sample.world 8)) eq_refl) eq_refl).
Defined.

Lemma lightLoop_rule_witness :
  XML.getName Cases.lightNode = "DoForwardLightLoop" /\
  XML.getAttribute Cases.lightNode "noShadows" = Some "1" /\
  exists cmd noShadows,
    value (parseCommandNode Sample.toFloat Sample.atoi Scenario.registry Sample.fresh Cases.lightNode
             newPipelineStage (Sample.world 8)) = inr (push_command newPipelineStage cmd) /\
    In (BoolParam noShadows) (params cmd) /\
    (noShadows = true <->
     exists v, XML.getAttribute Cases.lightNode "noShadows" = Some v /\
               equalsIgnoreCase v "true").
Proof.
  split; [reflexivity|]. split; [reflexivity|].
  destruct (lightLoop_rule Sample.toFloat Sample.atoi Scenario.registry Sample.fresh Cases.lightNode
              newPipelineStage (Sample.world 8) (or_introl eq_refl))
    as (cmd & noShadows & Hv & _ & _ & Hin & _ & Hiff).
  exists cmd, noShadows. split; [exact Hv|]. split; [exact Hin|exact Hiff].
Defined.

Example one_keeps_shadows :
  value (parseCommandNode Sample.toFloat Sample.atoi Scenario.registry Sample.fresh Cases.lightNode
           newPipelineStage (Sample.world 8))
  = inr (push_command newPipelineStage
           {| command := DefaultPipelineCommands.DoForwardLightLoop;
              externalCommandID := -1;
              params := [StringParam ""; IntParam 0; BoolParam false;
                         OrderParam RenderingOrder.None] |}).
Proof. reflexivity. Qed.
